(** * Gab'z Laundromat: payment webhook and order receipt

    A shallow embedding of the Paystack webhook route (signature check,
    event dispatch, payment handlers), of the receipt page's loader and of
    the receipt's totals block, with the properties the specification
    states about them. *)

From Stdlib Require Import ZArith Lia Ascii String.
From stdpp Require Import base strings list gmap.

Local Open Scope string_scope.
Local Open Scope Z_scope.
Set Warnings "-register-all".

(** ** JavaScript values *)

(** The values the route handles: what [JSON.parse] yields, plus
    [undefined] for an absent property.  Numbers are the integer amounts
    (kobo) the payloads carry.  An object is the list of its own
    properties, first binding of a key first. *)
Inductive value : Type :=
| VUndefined
| VNull
| VBool (b : bool)
| VNum (n : Z)
| VStr (s : string)
| VArr (items : list value)
| VObj (props : list (string * value)).

(** Errors that can be thrown while a request is processed. *)
Inductive JsError : Type :=
| TypeError (what : string)
| SyntaxError (what : string)
| ServiceError (what : string).

(** ToBoolean: [undefined], [null], [false], [0] and the empty string are
    falsy, everything else (arrays and objects included) is truthy. *)
Definition truthy (v : value) : bool :=
  match v with
  | VUndefined | VNull => false
  | VBool b => b
  | VNum n => negb (n =? 0)
  | VStr s => negb (String.eqb s EmptyString)
  | VArr _ | VObj _ => true
  end.

Definition nullish (v : value) : bool :=
  match v with
  | VUndefined | VNull => true
  | _ => false
  end.

Fixpoint assoc (k : string) (ps : list (string * value)) : value :=
  match ps with
  | [] => VUndefined
  | (k', v) :: rest => if String.eqb k k' then v else assoc k rest
  end.

(** [v.k] for one of the payload's property names: a TypeError on
    [undefined] and [null], the property of an object, [undefined] on a
    primitive or an array (none of the names read here is a built-in). *)
Definition get (v : value) (k : string) : JsError + value :=
  match v with
  | VUndefined | VNull => inl (TypeError k)
  | VObj ps => inr (assoc k ps)
  | _ => inr VUndefined
  end.

(** [v?.k] *)
Definition get_opt (v : value) (k : string) : JsError + value :=
  if nullish v then inr VUndefined else get v k.

(** [a || b] *)
Definition js_or (a b : value) : value := if truthy a then a else b.

(** [a === b] against a string literal, as the [switch] cases do. *)
Definition is_str (v : value) (s : string) : bool :=
  match v with
  | VStr s' => String.eqb s' s
  | _ => false
  end.

(** ** Enumerations and records of lib/types *)

(** Modelled from the spec: lib/types is not among the sources; the payment
    states are the three the data model names (paid, pending, failed). *)
Inductive PaymentStatus : Type := PENDING | PAID | FAILED.

(** Modelled from the spec: lib/types is not among the sources; of the order
    states only [confirmed] is named, the others are kept by their text. *)
Inductive OrderStatus : Type := CONFIRMED | OtherStatus (name : string).

Record ApiResponse (A : Type) : Type := mkApiResponse {
  success : bool;
  data : option A;
  error : option string
}.
Arguments mkApiResponse {A} _ _ _.
Arguments success {A} _.
Arguments data {A} _.
Arguments error {A} _.

(** The fields of an order document that the webhook, the receipt page and
    the receipt read or write. *)
Record Order : Type := mkOrder {
  order_id : string;            (* $id *)
  customerId : string;
  orderNumber : string;
  status : OrderStatus;
  paymentStatus : PaymentStatus;
  totalAmount : Z;
  discountAmount : Z;
  finalAmount : Z
}.

Record OrderItem : Type := mkOrderItem {
  item_id : string;
  serviceId : string;
  quantity : Z;
  unitPrice : Z;
  totalPrice : Z
}.

Record Service : Type := mkService {
  service_id : string;
  service_name : string
}.

Record AuthUser : Type := mkAuthUser {
  user_id : string;             (* $id *)
  user_name : string
}.

(** ** Calls that leave the process *)

(** A console line is kept as its fixed text and the value printed with it
    (the argument, or the value interpolated in a template literal); a
    service call is kept with its arguments. *)
Inductive Event : Type :=
| ConsoleLog (text : string) (arg : value)
| ConsoleError (text : string) (err : option JsError)
| DbUpdateOrderPaymentStatus (orderId : value) (st : PaymentStatus)
                             (reference amount : value)
| DbUpdateOrderStatus (orderId : value) (st : OrderStatus)
                      (updatedBy notes : string)
| WaSendPickupConfirmation (phone name orderRef : value)
| WaSendPaymentReminder (phone name orderRef amount : value).

Definition is_db_write (e : Event) : bool :=
  match e with
  | DbUpdateOrderPaymentStatus _ _ _ _ | DbUpdateOrderStatus _ _ _ _ => true
  | _ => false
  end.

Definition is_notification (e : Event) : bool :=
  match e with
  | WaSendPickupConfirmation _ _ _ | WaSendPaymentReminder _ _ _ _ => true
  | _ => false
  end.

Definition db_writes (t : list Event) : list Event := List.filter is_db_write t.
Definition notifications (t : list Event) : list Event :=
  List.filter is_notification t.

(** ** The external services

    [databaseService] and [whatsappService] are imported by the route but
    live outside it: an implementation is a world type [W] and, per method,
    a function from the arguments and the world to the outcome (a returned
    value or a thrown error) and the new world. *)
Class DatabaseService (W : Type) : Type := {
  updateOrderPaymentStatus :
    value -> PaymentStatus -> value -> value -> W -> (JsError + ApiResponse unit) * W;
  updateOrderStatus :
    value -> OrderStatus -> string -> string -> W -> (JsError + ApiResponse unit) * W;
  getOrderById :
    string -> W -> (JsError + ApiResponse (Order * list OrderItem)) * W;
  getActiveServices :
    W -> (JsError + ApiResponse (list Service)) * W
}.

Class WhatsappService (W : Type) : Type := {
  sendPickupConfirmation :
    value -> value -> value -> W -> (JsError + unit) * W;
  sendPaymentReminder :
    value -> value -> value -> value -> W -> (JsError + unit) * W
}.

(** ** Computations of the route: world passing, a call trace, exceptions *)

Definition M (W A : Type) : Type := W -> (JsError + A) * W * list Event.

Definition ret {W A} (a : A) : M W A := fun w => (inr a, w, []).

Definition throw {W A} (e : JsError) : M W A := fun w => (inl e, w, []).

Definition bind {W A B} (m : M W A) (f : A -> M W B) : M W B :=
  fun w =>
    match m w with
    | (inl e, w1, t1) => (inl e, w1, t1)
    | (inr a, w1, t1) =>
        match f a w1 with
        | (r, w2, t2) => (r, w2, (t1 ++ t2)%list)
        end
    end.

(** [try { m } catch (error) { h error }] *)
Definition try_catch {W A} (m : M W A) (h : JsError -> M W A) : M W A :=
  fun w =>
    match m w with
    | (inl e, w1, t1) =>
        match h e w1 with
        | (r, w2, t2) => (r, w2, (t1 ++ t2)%list)
        end
    | (inr a, w1, t1) => (inr a, w1, t1)
    end.

Definition lift {W A} (r : JsError + A) : M W A := fun w => (r, w, []).

Definition emit {W} (e : Event) : M W unit := fun w => (inr tt, w, [e]).

(** An awaited service call: the call is recorded, then its outcome is
    that of the service. *)
Definition call {W A} (e : Event) (f : W -> (JsError + A) * W) : M W A :=
  fun w => match f w with (r, w1) => (r, w1, [e]) end.

Declare Scope route_scope.
Delimit Scope route_scope with route.
Notation "x <- m ;; k" := (bind m (fun x => k))
  (at level 100, m at next level, right associativity) : route_scope.
Notation "m ;; k" := (bind m (fun _ => k))
  (at level 100, right associativity) : route_scope.

Local Open Scope route_scope.

(** ** The webhook route *)

Record ProcessEnv : Type := mkEnv {
  PAYSTACK_SECRET_KEY : option string
}.

(** What the route reads of the incoming request: [request.text()] and
    [request.headers.get('x-paystack-signature')] ([None] is [null]). *)
Record NextRequest : Type := mkRequest {
  text : string;
  x_paystack_signature : option string
}.

Record NextResponse : Type := mkResponse {
  body : value;
  http_status : Z
}.

(** [NextResponse.json(obj, { status })]; the status defaults to 200. *)
Definition json (obj : value) (st : option Z) : NextResponse :=
  mkResponse obj (default 200 st).

Section Route.

(** [crypto.createHmac('sha512', key).update(msg).digest('hex')] *)
Variable hmac_sha512_hex : string -> string -> string.

(** [JSON.parse], which throws a SyntaxError on a text that is not JSON. *)
Variable JSON_parse : string -> JsError + value.

Context {W : Type} {databaseService : DatabaseService W}
        {whatsappService : WhatsappService W}.

Definition verifyPaystackSignature (env : ProcessEnv) (body signature : string)
  : bool :=
  match PAYSTACK_SECRET_KEY env with
  | None => false
  | Some secret =>
      if String.eqb secret EmptyString then false
      else String.eqb (hmac_sha512_hex secret body) signature
  end.

Definition handlePaymentSuccess (data : value) : M W unit :=
  try_catch
    (reference <- lift (get data "reference") ;;
     amount <- lift (get data "amount") ;;
     customer <- lift (get data "customer") ;;
     metadata <- lift (get data "metadata") ;;
     orderId <- lift (get_opt metadata "orderId") ;;
     if negb (truthy orderId) then
       emit (ConsoleError "No orderId in payment metadata" None)
     else
       updateResponse <-
         call (DbUpdateOrderPaymentStatus orderId PAID reference amount)
              (updateOrderPaymentStatus orderId PAID reference amount) ;;
       if success updateResponse then
         call (DbUpdateOrderStatus orderId CONFIRMED "system"
                 "Payment confirmed - Order ready for pickup")
              (updateOrderStatus orderId CONFIRMED "system"
                 "Payment confirmed - Order ready for pickup") ;;
         customerPhone <- lift (get metadata "customerPhone") ;;
         customerName <- lift (get metadata "customerName") ;;
         (if truthy customerPhone && truthy customerName then
            orderNumber <- lift (get metadata "orderNumber") ;;
            call (WaSendPickupConfirmation customerPhone customerName
                    (js_or orderNumber orderId))
                 (sendPickupConfirmation customerPhone customerName
                    (js_or orderNumber orderId))
          else ret tt) ;;
         emit (ConsoleLog "Payment successful for order" orderId)
       else ret tt)
    (fun error =>
       emit (ConsoleError "Error handling payment success:" (Some error))).

Definition handlePaymentFailed (data : value) : M W unit :=
  try_catch
    (reference <- lift (get data "reference") ;;
     metadata <- lift (get data "metadata") ;;
     orderId <- lift (get_opt metadata "orderId") ;;
     if negb (truthy orderId) then
       emit (ConsoleError "No orderId in payment metadata" None)
     else
       call (DbUpdateOrderPaymentStatus orderId FAILED reference (VNum 0))
            (updateOrderPaymentStatus orderId FAILED reference (VNum 0)) ;;
       customerPhone <- lift (get metadata "customerPhone") ;;
       customerName <- lift (get metadata "customerName") ;;
       (if truthy customerPhone && truthy customerName then
          orderNumber <- lift (get metadata "orderNumber") ;;
          amount <- lift (get metadata "amount") ;;
          call (WaSendPaymentReminder customerPhone customerName
                  (js_or orderNumber orderId) (js_or amount (VNum 0)))
               (sendPaymentReminder customerPhone customerName
                  (js_or orderNumber orderId) (js_or amount (VNum 0)))
        else ret tt) ;;
       emit (ConsoleLog "Payment failed for order" orderId))
    (fun error =>
       emit (ConsoleError "Error handling payment failure:" (Some error))).

Definition handleTransferSuccess (data : value) : M W unit :=
  emit (ConsoleLog "Transfer successful:" data).

Definition handleTransferFailed (data : value) : M W unit :=
  emit (ConsoleLog "Transfer failed:" data).

Definition error_body (msg : string) : value := VObj [("error", VStr msg)].
Definition success_body : value := VObj [("status", VStr "success")].

Definition POST (env : ProcessEnv) (request : NextRequest) : M W NextResponse :=
  try_catch
    (let body := text request in
     let signature := x_paystack_signature request in
     match signature with
     | None => ret (json (error_body "Missing signature") (Some 400))
     | Some signature =>
         if String.eqb signature EmptyString then
           ret (json (error_body "Missing signature") (Some 400))
         else if negb (verifyPaystackSignature env body signature) then
           ret (json (error_body "Invalid signature") (Some 400))
         else
           event <- lift (JSON_parse body) ;;
           kind <- lift (get event "event") ;;
           emit (ConsoleLog "Paystack webhook received:" kind) ;;
           (if is_str kind "charge.success" then
              data <- lift (get event "data") ;; handlePaymentSuccess data
            else if is_str kind "charge.failed" then
              data <- lift (get event "data") ;; handlePaymentFailed data
            else if is_str kind "transfer.success" then
              data <- lift (get event "data") ;; handleTransferSuccess data
            else if is_str kind "transfer.failed" then
              data <- lift (get event "data") ;; handleTransferFailed data
            else emit (ConsoleLog "Unhandled Paystack event:" kind)) ;;
           ret (json success_body None)
     end)
    (fun error =>
       emit (ConsoleError "Paystack webhook error:" (Some error)) ;;
       ret (json (error_body "Webhook processing failed") (Some 500))).

End Route.

(** ** The document store *)

(** Modelled from the spec: lib/database is not among the sources.  The
    store holds the order documents, their items and the service catalogue,
    read and written by document identifier. *)
Record DocumentStore : Type := mkStore {
  orders : gmap string Order;
  order_items : gmap string (list OrderItem);
  catalog : list Service
}.

Definition set_paymentStatus (st : PaymentStatus) (o : Order) : Order :=
  mkOrder (order_id o) (customerId o) (orderNumber o) (status o) st
          (totalAmount o) (discountAmount o) (finalAmount o).

Definition set_status (st : OrderStatus) (o : Order) : Order :=
  mkOrder (order_id o) (customerId o) (orderNumber o) st (paymentStatus o)
          (totalAmount o) (discountAmount o) (finalAmount o).

Definition failed_response {A} (msg : string) : ApiResponse A :=
  mkApiResponse false None (Some msg).

Definition put_order (id : string) (o : Order) (s : DocumentStore)
  : DocumentStore :=
  mkStore (<[id := o]> (orders s)) (order_items s) (catalog s).

Definition ok_response : ApiResponse unit := mkApiResponse true (Some tt) None.

(** Modelled from the spec: lib/database is not among the sources.  An
    update call overwrites fields of the addressed document; an error (no
    such document, no usable identifier) is caught inside the call and
    turned into the uniform result with [success = false]. *)
Definition updateDocument (orderId : value) (f : Order -> Order)
    (s : DocumentStore) : (JsError + ApiResponse unit) * DocumentStore :=
  match orderId with
  | VStr id =>
      match orders s !! id with
      | Some o => (inr ok_response, put_order id (f o) s)
      | None => (inr (failed_response "Document not found"), s)
      end
  | _ => (inr (failed_response "Invalid document identifier"), s)
  end.

(** Modelled from the spec: lib/database is not among the sources.  The
    payment-status write sets [paymentStatus], the order-status write sets
    [status]; the reads return the stored documents. *)
#[export] Instance store_database : DatabaseService DocumentStore := {
  updateOrderPaymentStatus orderId st _ _ := updateDocument orderId (set_paymentStatus st);
  updateOrderStatus orderId st _ _ := updateDocument orderId (set_status st);
  getOrderById id s :=
    (inr match orders s !! id with
         | Some o => mkApiResponse true (Some (o, default [] (order_items s !! id))) None
         | None => failed_response "Document not found"
         end, s);
  getActiveServices s := (inr (mkApiResponse true (Some (catalog s)) None), s)
}.

(** Modelled from the spec: lib/notifications is not among the sources.  A
    notification is a templated send to the messaging service; nothing of
    it is kept in the store. *)
#[export] Instance store_whatsapp : WhatsappService DocumentStore := {
  sendPickupConfirmation _ _ _ s := (inr tt, s);
  sendPaymentReminder _ _ _ _ s := (inr tt, s)
}.

(** ** The receipt *)

Module OrderReceipt.

(** One line of the totals block: its label, the sign printed before the
    amount, and the amount handed to [formatNairaFromKobo]. *)
Record Line : Type := mkLine {
  label : string;
  sign : string;
  kobo : Z
}.

Definition getServiceById (services : list Service) (id : string)
  : option Service :=
  List.find (fun s => String.eqb (service_id s) id) services.

(** The services list: an item whose service is unknown renders nothing. *)
Definition item_lines (orderItems : list OrderItem) (services : list Service)
  : list (option (string * Z * Z * Z)) :=
  List.map (fun item =>
              match getServiceById services (serviceId item) with
              | None => None
              | Some service =>
                  Some (service_name service, quantity item,
                        unitPrice item, totalPrice item)
              end) orderItems.

Definition totals (order : Order) : list Line :=
  ([mkLine "Subtotal:" EmptyString (totalAmount order)]
   ++ (if 0 <? discountAmount order
       then [mkLine "Discount:" "-" (discountAmount order)] else [])
   ++ [mkLine "Total:" EmptyString (finalAmount order)])%list.

(** The amount shown on the line with the given label, if there is one. *)
Definition shown (l : string) (ls : list Line) : option Z :=
  kobo <$> List.find (fun x => String.eqb (label x) l) ls.

End OrderReceipt.

(** ** The receipt page *)

Module ReceiptPage.

Record State : Type := mkState {
  order : option Order;
  orderItems : list OrderItem;
  services : list Service;
  isLoading : bool;
  error : string
}.

Definition initial : State := mkState None [] [] true EmptyString.

Definition setOrder (o : Order) (s : State) : State :=
  mkState (Some o) (orderItems s) (services s) (isLoading s) (error s).
Definition setOrderItems (items : list OrderItem) (s : State) : State :=
  mkState (order s) items (services s) (isLoading s) (error s).
Definition setServices (ss : list Service) (s : State) : State :=
  mkState (order s) (orderItems s) ss (isLoading s) (error s).
Definition setIsLoading (b : bool) (s : State) : State :=
  mkState (order s) (orderItems s) (services s) b (error s).
Definition setError (e : string) (s : State) : State :=
  mkState (order s) (orderItems s) (services s) (isLoading s) e.

(** [a !== b] between the order's customer and [user?.$id]. *)
Definition differs (a : string) (b : option string) : bool :=
  match b with
  | Some b' => negb (String.eqb a b')
  | None => true
  end.

Inductive View : Type :=
| Nothing
| Spinner
| OrderNotFound (message : string)
| Receipt (o : Order) (items : list OrderItem) (svcs : list Service).

Section Page.

Context {W : Type} {databaseService : DatabaseService W}.

Definition loadOrderData (id : string) (user : option AuthUser)
    (s : State) (w : W) : State * W :=
  let '(s1, w1) :=
    match getOrderById id w with
    | (inl _, w1) => (setError "Failed to load order data" s, w1)
    | (inr orderResponse, w1) =>
        match success orderResponse, data orderResponse with
        | true, Some (o, items) =>
            if differs (customerId o) (user_id <$> user) then
              (setError "Access denied" s, w1)
            else
              let s := setOrderItems items (setOrder o s) in
              match getActiveServices w1 with
              | (inl _, w2) => (setError "Failed to load order data" s, w2)
              | (inr servicesResponse, w2) =>
                  match success servicesResponse, data servicesResponse with
                  | true, Some svcs => (setServices svcs s, w2)
                  | _, _ => (s, w2)
                  end
              end
        | _, _ => (setError "Order not found" s, w1)
        end
    end in
  (setIsLoading false s1, w1).

(** The effect run on mount: a visitor who is not signed in is sent to
    the login page and nothing is loaded. *)
Definition effect (isAuthenticated : bool) (id : string)
    (user : option AuthUser) (s : State) (w : W)
  : State * W * option string :=
  if negb isAuthenticated then (s, w, Some "/login")
  else let '(s', w') := loadOrderData id user s w in (s', w', None).

End Page.

Definition render (isAuthenticated : bool) (user : option AuthUser)
    (s : State) : View :=
  if negb isAuthenticated || negb (bool_decide (is_Some user)) then Nothing
  else if isLoading s then Spinner
  else if negb (String.eqb (error s) EmptyString) then OrderNotFound (error s)
  else match order s with
       | None => OrderNotFound "The requested order could not be found."
       | Some o => Receipt o (orderItems s) (services s)
       end.

End ReceiptPage.

(** ** Sample data

    The properties below hold for every digest function and every parser;
    the examples run the route on the document store with a stand-in for
    each. *)

(** A stand-in keyed digest (the key, a colon, the message). *)
Definition toy_digest (key msg : string) : string := key ++ ":" ++ msg.

(** Building JSON text. *)
Definition dq : string := String "034"%char EmptyString.
Definition jstr (s : string) : string := dq ++ s ++ dq.
Definition jfield (k v : string) : string := jstr k ++ ":" ++ v.
Definition jobj (fields : list string) : string :=
  "{" ++ String.concat "," fields ++ "}".

(** [JSON.parse] on a known set of texts: a text of the table parses to the
    value listed with it, any other text is taken not to be JSON. *)
Fixpoint parse_table (table : list (string * value)) (s : string)
  : JsError + value :=
  match table with
  | [] => inl (SyntaxError s)
  | (t, v) :: rest => if String.eqb s t then inr v else parse_table rest s
  end.

Definition ada_metadata : value :=
  VObj [("orderId", VStr "o1"); ("customerPhone", VStr "+2348000000000");
        ("customerName", VStr "Ada")].

Definition ada_metadata_text : string :=
  jobj [jfield "orderId" (jstr "o1");
        jfield "customerPhone" (jstr "+2348000000000");
        jfield "customerName" (jstr "Ada")].

(** The event of the specification's example. *)
Definition charge_success_event : value :=
  VObj [("event", VStr "charge.success");
        ("data", VObj [("reference", VStr "abc123");
                       ("metadata", ada_metadata)])].

Definition charge_success_text : string :=
  jobj [jfield "event" (jstr "charge.success");
        jfield "data" (jobj [jfield "reference" (jstr "abc123");
                             jfield "metadata" ada_metadata_text])].

(** A failed charge whose metadata names the order and nothing else. *)
Definition charge_failed_bare_event : value :=
  VObj [("event", VStr "charge.failed");
        ("data", VObj [("reference", VStr "abc123");
                       ("metadata", VObj [("orderId", VStr "o1")])])].

Definition charge_failed_bare_text : string :=
  jobj [jfield "event" (jstr "charge.failed");
        jfield "data" (jobj [jfield "reference" (jstr "abc123");
                             jfield "metadata"
                               (jobj [jfield "orderId" (jstr "o1")])])].

(** The same failed charge with the customer's phone and name. *)
Definition charge_failed_event : value :=
  VObj [("event", VStr "charge.failed");
        ("data", VObj [("reference", VStr "abc123");
                       ("metadata", ada_metadata)])].

Definition charge_failed_text : string :=
  jobj [jfield "event" (jstr "charge.failed");
        jfield "data" (jobj [jfield "reference" (jstr "abc123");
                             jfield "metadata" ada_metadata_text])].

(** An event type the route does not handle. *)
Definition refund_event : value := VObj [("event", VStr "refund.processed")].
Definition refund_text : string :=
  jobj [jfield "event" (jstr "refund.processed")].

Definition sample_parse : string -> JsError + value :=
  parse_table [(charge_success_text, charge_success_event);
               (charge_failed_bare_text, charge_failed_bare_event);
               (charge_failed_text, charge_failed_event);
               (refund_text, refund_event);
               ("null", VNull)].

Definition sample_env : ProcessEnv := mkEnv (Some "sk_test_secret").

(** A request carrying the digest of its body under the sample secret. *)
Definition signed_request (body : string) : NextRequest :=
  mkRequest body (Some (toy_digest "sk_test_secret" body)).

Definition order_o1 : Order :=
  mkOrder "o1" "u1" "GAB-0001" (OtherStatus "pending") PENDING 5000 500 4500.

Definition sample_store : DocumentStore :=
  mkStore {[ "o1" := order_o1 ]} ∅ [].

Definition user_u1 : AuthUser := mkAuthUser "u1" "Ada".
Definition user_u2 : AuthUser := mkAuthUser "u2" "Bola".

(** Another order, and a store that holds it and not order o1. *)
Definition order_o2 : Order :=
  mkOrder "o2" "u1" "GAB-0002" (OtherStatus "pending") PENDING 5000 500 4500.

Definition odd_store : DocumentStore :=
  mkStore {[ "o2" := order_o2 ]} ∅ [].

(** A validly signed request: it carries a signature header, not empty,
    that [verifyPaystackSignature] accepts for its body. *)
Definition signed (hmac : string -> string -> string) (env : ProcessEnv)
    (request : NextRequest) : Prop :=
  exists sig, x_paystack_signature request = Some sig
              /\ sig <> EmptyString
              /\ verifyPaystackSignature hmac env (text request) sig = true.

(** The response of a rejected request. *)
Definition rejection (msg : string) : NextResponse :=
  mkResponse (error_body msg) 400.

(** An order-status write or a notification: what follows the
    payment-status write in a handler. *)
Definition follow_up (e : Event) : bool :=
  match e with
  | DbUpdateOrderStatus _ _ _ _
  | WaSendPickupConfirmation _ _ _
  | WaSendPaymentReminder _ _ _ _ => true
  | _ => false
  end.

(** The answers of the route past the signature check. *)
Definition accepted : NextResponse := mkResponse success_body 200.
Definition failure : NextResponse :=
  mkResponse (error_body "Webhook processing failed") 500.

(** Whether a service call returned (rather than threw). *)
Definition returned {A B : Type} (r : (JsError + A) * B) : bool :=
  match r with
  | (inr _, _) => true
  | (inl _, _) => false
  end.

(** Modelled from the spec: the code that creates orders and sets their
    amounts is not among the sources.  The data model keeps, for every
    order, finalAmount = totalAmount - discountAmount. *)
Definition amounts_consistent (o : Order) : Prop :=
  finalAmount o = totalAmount o - discountAmount o.

(** Modelled from the spec: the code that creates orders is not among the
    sources.  A document store of the data model: each of its orders keeps
    the invariant on the amounts. *)
Definition store_consistent (s : DocumentStore) : Prop :=
  forall id o, orders s !! id = Some o -> amounts_consistent o.

(** ** Effects with a call trace, for the client pages and the services

    The same shape as the route's computations, for any type of recorded
    call. *)

Module Eff.

Definition t (E W A : Type) : Type := W -> (JsError + A) * W * list E.

Definition ret {E W A} (a : A) : t E W A := fun w => (inr a, w, []).

Definition bind {E W A B} (m : t E W A) (f : A -> t E W B) : t E W B :=
  fun w =>
    match m w with
    | (inl e, w1, t1) => (inl e, w1, t1)
    | (inr a, w1, t1) =>
        match f a w1 with
        | (r, w2, t2) => (r, w2, (t1 ++ t2)%list)
        end
    end.

(** [try { m } catch (error) { h error }] *)
Definition try_catch {E W A} (m : t E W A) (h : JsError -> t E W A) : t E W A :=
  fun w =>
    match m w with
    | (inl e, w1, t1) =>
        match h e w1 with
        | (r, w2, t2) => (r, w2, (t1 ++ t2)%list)
        end
    | (inr a, w1, t1) => (inr a, w1, t1)
    end.

Definition lift {E W A} (r : JsError + A) : t E W A := fun w => (r, w, []).

Definition emit {E W} (e : E) : t E W unit := fun w => (inr tt, w, [e]).

Definition call {E W A} (e : E) (f : W -> (JsError + A) * W) : t E W A :=
  fun w => match f w with (r, w1) => (r, w1, [e]) end.

End Eff.

Declare Scope eff_scope.
Delimit Scope eff_scope with eff.
Notation "x <- m ;; k" := (Eff.bind m (fun x => k))
  (at level 100, m at next level, right associativity) : eff_scope.
Notation "m ;; k" := (Eff.bind m (fun _ => k))
  (at level 100, right associativity) : eff_scope.

(** [error.message] *)
Definition error_message (e : JsError) : string :=
  match e with
  | TypeError m | SyntaxError m | ServiceError m => m
  end.

(** [a || b] on strings. *)
Definition str_or (a b : string) : string :=
  if String.eqb a EmptyString then b else a.

(** ** The authentication service *)

Module AuthService.

Local Open Scope eff_scope.

Record LoginCredentials : Type := mkLogin {
  login_email : string;
  login_password : string
}.

Record RegisterCredentials : Type := mkRegister {
  email : string;
  password : string;
  firstName : string;
  lastName : string;
  phone : string
}.

(** The account object of the SDK ([Models.User]), as far as it is read. *)
Record Account : Type := mkAccount {
  acc_id : string;
  acc_name : string;
  acc_email : string;
  acc_phone : string;
  acc_emailVerification : bool;
  acc_phoneVerification : bool;
  acc_prefs : value
}.

Record AuthUser : Type := mkAuthUser {
  id : string;                    (* $id *)
  name : string;
  user_email : string;
  user_phone : string;
  emailVerification : bool;
  phoneVerification : bool;
  prefs : value
}.

(** The result shape of the service: [message] accompanies a success,
    [error] a failure. *)
Record ApiResponse (A : Type) : Type := mkApiResponse {
  success : bool;
  data : option A;
  error : option string;
  message : option string
}.
Arguments mkApiResponse {A} _ _ _ _.
Arguments success {A} _.
Arguments data {A} _.
Arguments error {A} _.
Arguments message {A} _.

Definition failed {A} (msg : string) : ApiResponse A :=
  mkApiResponse false None (Some msg) None.

(** Outcome of a schema's [safeParse]: on failure, the message of the
    first issue ([error.errors[0].message]). *)
Inductive Validation : Type :=
| Valid
| Invalid (first_message : string).

(** Calls to the SDK and to the console. *)
Inductive Call : Type :=
| AccountCreate (userId email password name : string)
| AccountCreateEmailPasswordSession (email password : string)
| AccountGet
| AccountDeleteSession (sessionId : string)
| AccountCreateVerification (url : string)
| DatabasesGetDocument (databaseId collectionId documentId : string)
| DatabasesCreateDocument (databaseId collectionId documentId : string)
                          (doc : value)
| DatabasesUpdateDocument (databaseId collectionId documentId : string)
                          (doc : value)
| ConsoleError (text : string) (err : JsError).

(** The SDK objects [account] and [databases]. *)
Class Appwrite (W : Type) : Type := {
  account_create :
    string -> string -> string -> string -> W -> (JsError + Account) * W;
  account_createEmailPasswordSession :
    string -> string -> W -> (JsError + unit) * W;
  account_get : W -> (JsError + Account) * W;
  account_deleteSession : string -> W -> (JsError + unit) * W;
  account_createVerification : string -> W -> (JsError + unit) * W;
  databases_getDocument :
    string -> string -> string -> W -> (JsError + value) * W;
  databases_createDocument :
    string -> string -> string -> value -> W -> (JsError + value) * W;
  databases_updateDocument :
    string -> string -> string -> value -> W -> (JsError + value) * W
}.

(** [appwriteConfig], as far as the service reads it. *)
Record AppwriteConfig : Type := mkConfig {
  databaseId : string;
  collections_users : string;
  collections_adminUsers : string
}.

Definition authUser_of (user : Account) (phone : string) : AuthUser :=
  mkAuthUser (acc_id user) (acc_name user) (acc_email user) phone
             (acc_emailVerification user) (acc_phoneVerification user)
             (acc_prefs user).

Section Service.

Variable appwriteConfig : AppwriteConfig.

(** [userRegistrationSchema.safeParse] on the credentials completed with
    the placeholder address, [loginSchema.safeParse] and
    [validateNigerianPhone], all of lib/validations. *)
Variable userRegistrationSchema : RegisterCredentials -> Validation.
Variable loginSchema : LoginCredentials -> Validation.
Variable validateNigerianPhone : string -> bool.

(** [JSON.parse] applied to a value (its text, for a string). *)
Variable JSON_parse : value -> JsError + value.

Context {W : Type} {sdk : Appwrite W}.

Definition logout : Eff.t Call W (ApiResponse unit) :=
  Eff.try_catch
    (Eff.call (AccountDeleteSession "current")
              (account_deleteSession "current") ;;
     Eff.ret (mkApiResponse true None None (Some "Logged out successfully")))
    (fun _ => Eff.ret (failed "Logout failed")).

(** The profile document written at registration. *)
Definition userProfile_doc (userData : RegisterCredentials) : value :=
  VObj [("email", VStr (email userData));
        ("firstName", VStr (firstName userData));
        ("lastName", VStr (lastName userData));
        ("phone", VStr (phone userData));
        ("isWhatsAppNumber", VBool false);
        ("addresses", VStr "[]");
        ("isActive", VBool true);
        ("emailVerified", VBool false);
        ("phoneVerified", VBool false);
        ("totalOrders", VNum 0);
        ("totalSpent", VNum 0);
        ("loyaltyPoints", VNum 0);
        ("registrationSource", VStr "web");
        ("role", VStr "customer")].

(** [unique] is the identifier [ID.unique()] yields for this call. *)
Definition registerCustomer (unique : string) (userData : RegisterCredentials)
  : Eff.t Call W (ApiResponse AuthUser) :=
  Eff.try_catch
    (match userRegistrationSchema userData with
     | Invalid msg => Eff.ret (failed msg)
     | Valid =>
         if negb (validateNigerianPhone (phone userData)) then
           Eff.ret (failed
             "Invalid Nigerian phone number format. Use +234XXXXXXXXX")
         else
           let fullName := firstName userData ++ " " ++ lastName userData in
           appwriteUser <-
             Eff.call (AccountCreate unique (email userData)
                         (password userData) fullName)
                      (account_create unique (email userData)
                         (password userData) fullName) ;;
           Eff.call (DatabasesCreateDocument (databaseId appwriteConfig)
                       (collections_users appwriteConfig)
                       (acc_id appwriteUser) (userProfile_doc userData))
                    (databases_createDocument (databaseId appwriteConfig)
                       (collections_users appwriteConfig)
                       (acc_id appwriteUser) (userProfile_doc userData)) ;;
           Eff.call (AccountCreateEmailPasswordSession (email userData)
                       (password userData))
                    (account_createEmailPasswordSession (email userData)
                       (password userData)) ;;
           Eff.call (AccountCreateVerification
                       "http://localhost:3000/verify-email")
                    (account_createVerification
                       "http://localhost:3000/verify-email") ;;
           Eff.ret (mkApiResponse true
                      (Some (authUser_of appwriteUser (phone userData))) None
                      (Some "Registration successful. Please check your email for verification."))
     end)
    (fun error =>
       Eff.emit (ConsoleError "Registration error:" error) ;;
       Eff.ret (failed (str_or (error_message error)
                          "Registration failed. Please try again."))).

Definition loginCustomer (credentials : LoginCredentials)
  : Eff.t Call W (ApiResponse AuthUser) :=
  Eff.try_catch
    (match loginSchema credentials with
     | Invalid msg => Eff.ret (failed msg)
     | Valid =>
         Eff.call (AccountCreateEmailPasswordSession
                     (login_email credentials) (login_password credentials))
                  (account_createEmailPasswordSession
                     (login_email credentials) (login_password credentials)) ;;
         user <- Eff.call AccountGet account_get ;;
         Eff.ret (mkApiResponse true
                    (Some (authUser_of user (str_or (acc_phone user)
                                               EmptyString)))
                    None (Some "Login successful"))
     end)
    (fun error =>
       Eff.emit (ConsoleError "Login error:" error) ;;
       Eff.ret (failed "Invalid email or password")).

(** [now] is [new Date().toISOString()] at the time of the call. *)
Definition loginAdmin (now : string) (credentials : LoginCredentials)
  : Eff.t Call W (ApiResponse (AuthUser * value)) :=
  Eff.try_catch
    (match loginSchema credentials with
     | Invalid msg => Eff.ret (failed msg)
     | Valid =>
         Eff.call (AccountCreateEmailPasswordSession
                     (login_email credentials) (login_password credentials))
                  (account_createEmailPasswordSession
                     (login_email credentials) (login_password credentials)) ;;
         user <- Eff.call AccountGet account_get ;;
         Eff.try_catch
           (adminUser <-
              Eff.call (DatabasesGetDocument (databaseId appwriteConfig)
                          (collections_adminUsers appwriteConfig) (acc_id user))
                       (databases_getDocument (databaseId appwriteConfig)
                          (collections_adminUsers appwriteConfig)
                          (acc_id user)) ;;
            isActive <- Eff.lift (get adminUser "isActive") ;;
            if negb (truthy isActive) then
              logout ;;
              Eff.ret (failed "Admin account is deactivated")
            else
              Eff.call (DatabasesUpdateDocument (databaseId appwriteConfig)
                          (collections_adminUsers appwriteConfig) (acc_id user)
                          (VObj [("lastLogin", VStr now)]))
                       (databases_updateDocument (databaseId appwriteConfig)
                          (collections_adminUsers appwriteConfig) (acc_id user)
                          (VObj [("lastLogin", VStr now)])) ;;
              role <- Eff.lift (get adminUser "role") ;;
              Eff.ret (mkApiResponse true
                         (Some (authUser_of user (str_or (acc_phone user)
                                                    EmptyString), role))
                         None (Some "Admin login successful")))
           (fun adminError =>
              logout ;;
              Eff.ret (failed "Access denied. Admin privileges required."))
     end)
    (fun error =>
       Eff.emit (ConsoleError "Admin login error:" error) ;;
       Eff.ret (failed "Invalid email or password")).

Definition getCurrentUser : Eff.t Call W (ApiResponse AuthUser) :=
  Eff.try_catch
    (user <- Eff.call AccountGet account_get ;;
     Eff.ret (mkApiResponse true
                (Some (authUser_of user (str_or (acc_phone user) EmptyString)))
                None None))
    (fun _ => Eff.ret (failed "No active session found")).

(** A property of the raw profile, once the document is known to be an
    object. *)
Definition field (rawProfile : value) (k : string) : value :=
  match get rawProfile k with
  | inr v => v
  | inl _ => VUndefined
  end.

Definition getUserProfile (userId : string) : Eff.t Call W (ApiResponse value) :=
  Eff.try_catch
    (rawProfile <-
       Eff.call (DatabasesGetDocument (databaseId appwriteConfig)
                   (collections_users appwriteConfig) userId)
                (databases_getDocument (databaseId appwriteConfig)
                   (collections_users appwriteConfig) userId) ;;
     addresses <-
       Eff.try_catch
         (stored <- Eff.lift (get rawProfile "addresses") ;;
          Eff.lift (JSON_parse (js_or stored (VStr "[]"))))
         (fun _ => Eff.ret (VArr [])) ;;
     Eff.lift (get rawProfile "$id") ;;
     Eff.ret (mkApiResponse true
       (Some (VObj
          [("$id", field rawProfile "$id");
           ("$collectionId", field rawProfile "$collectionId");
           ("$databaseId", field rawProfile "$databaseId");
           ("$createdAt", field rawProfile "$createdAt");
           ("$updatedAt", field rawProfile "$updatedAt");
           ("$permissions", field rawProfile "$permissions");
           ("email", field rawProfile "email");
           ("firstName", field rawProfile "firstName");
           ("lastName", field rawProfile "lastName");
           ("phone",
            VObj [("number",
                   js_or (field rawProfile "phone") (VStr EmptyString));
                  ("isWhatsApp",
                   js_or (field rawProfile "isWhatsAppNumber") (VBool false))]);
           ("addresses", addresses);
           ("dateOfBirth", field rawProfile "dateOfBirth");
           ("gender", field rawProfile "gender");
           ("isActive", field rawProfile "isActive");
           ("emailVerified", field rawProfile "emailVerified");
           ("phoneVerified", field rawProfile "phoneVerified");
           ("totalOrders", js_or (field rawProfile "totalOrders") (VNum 0));
           ("totalSpent", js_or (field rawProfile "totalSpent") (VNum 0));
           ("loyaltyPoints",
            js_or (field rawProfile "loyaltyPoints") (VNum 0));
           ("preferredPaymentMethod",
            field rawProfile "preferredPaymentMethod");
           ("notes", field rawProfile "notes");
           ("registrationSource",
            js_or (field rawProfile "registrationSource") (VStr "web"));
           ("referredBy", field rawProfile "referredBy")]))
       None None))
    (fun _ => Eff.ret (failed "Failed to fetch user profile")).

Definition getAdminProfile (userId : string)
  : Eff.t Call W (ApiResponse value) :=
  Eff.try_catch
    (adminProfile <-
       Eff.call (DatabasesGetDocument (databaseId appwriteConfig)
                   (collections_adminUsers appwriteConfig) userId)
                (databases_getDocument (databaseId appwriteConfig)
                   (collections_adminUsers appwriteConfig) userId) ;;
     Eff.ret (mkApiResponse true (Some adminProfile) None None))
    (fun _ => Eff.ret (failed "Failed to fetch admin profile")).

Definition isAuthenticated : Eff.t Call W bool :=
  Eff.try_catch
    (Eff.call AccountGet account_get ;; Eff.ret true)
    (fun _ => Eff.ret false).

Definition isAdmin (userId : string) : Eff.t Call W bool :=
  Eff.try_catch
    (Eff.call (DatabasesGetDocument (databaseId appwriteConfig)
                 (collections_adminUsers appwriteConfig) userId)
              (databases_getDocument (databaseId appwriteConfig)
                 (collections_adminUsers appwriteConfig) userId) ;;
     Eff.ret true)
    (fun _ => Eff.ret false).

End Service.

End AuthService.

(** ** The payment callback page *)

Definition api_success {A : Type} (r : ApiResponse A) : bool := success r.
Definition api_data {A : Type} (r : ApiResponse A) : option A := data r.
Definition order_number (o : Order) : string := orderNumber o.

Module PaymentCallbackPage.

Local Open Scope eff_scope.

(** What the page reads of the gateway's verification data. *)
Record PaymentData : Type := mkPaymentData {
  status : string
}.

(** [paymentService] of lib/payment. *)
Class PaymentService (W : Type) : Type := {
  verifyPayment : string -> W -> (JsError + ApiResponse PaymentData) * W
}.

Record VerificationResult : Type := mkResult {
  success : bool;
  message : string;
  orderId : option string;
  orderNumber : option string
}.

Record State : Type := mkState {
  isVerifying : bool;
  verificationResult : option VerificationResult
}.

Definition initial : State := mkState true None.

Definition setVerificationResult (r : VerificationResult) (s : State) : State :=
  mkState (isVerifying s) (Some r).
Definition setIsVerifying (b : bool) (s : State) : State :=
  mkState b (verificationResult s).

Inductive Call : Type :=
| VerifyPayment (reference : string)
| GetOrderById (orderId : string)
| ConsoleError (text : string) (err : JsError).

(** A query parameter that is present and not empty. *)
Definition present (p : option string) : option string :=
  match p with
  | Some s => if String.eqb s EmptyString then None else Some s
  | None => None
  end.

Section Page.

Context {W : Type} {paymentService : PaymentService W}
        {databaseService : DatabaseService W}.

(** The effect's [verifyPayment], given [searchParams.get('reference')] and
    [searchParams.get('orderId')]: the new state and the redirect
    scheduled with [setTimeout], if any. *)
Definition verifyPayment_effect (reference orderId : option string) (s : State)
  : Eff.t Call W (State * option string) :=
  match present reference with
  | None =>
      Eff.ret (setIsVerifying false
                 (setVerificationResult
                    (mkResult false "Payment reference not found" None None) s),
               None)
  | Some reference =>
      r <- Eff.try_catch
        (verificationResponse <-
           Eff.call (VerifyPayment reference) (verifyPayment reference) ;;
         match api_success verificationResponse,
               api_data verificationResponse with
         | true, Some paymentData =>
             if String.eqb (status paymentData) "success" then
               orderNumber <-
                 match present orderId with
                 | Some oid =>
                     orderResponse <-
                       Eff.call (GetOrderById oid) (getOrderById oid) ;;
                     match api_success orderResponse,
                           api_data orderResponse with
                     | true, Some (o, _) => Eff.ret (order_number o)
                     | _, _ => Eff.ret EmptyString
                     end
                 | None => Eff.ret EmptyString
                 end ;;
               Eff.ret
                 (setVerificationResult
                    (mkResult true
                       "Payment successful! Your order has been confirmed."
                       orderId (Some orderNumber)) s,
                  match present orderId with
                  | Some oid => Some ("/orders/" ++ oid ++ "?payment=success")
                  | None => None
                  end)
             else
               Eff.ret
                 (setVerificationResult
                    (mkResult false
                       "Payment was not successful. Please try again."
                       None None) s, None)
         | _, _ =>
             Eff.ret
               (setVerificationResult
                  (mkResult false
                     "Unable to verify payment. Please contact support."
                     None None) s, None)
         end)
        (fun error =>
           Eff.emit (ConsoleError "Payment verification error:" error) ;;
           Eff.ret
             (setVerificationResult
                (mkResult false "An error occurred while verifying payment."
                   None None) s, None)) ;;
      Eff.ret (setIsVerifying false (fst r), snd r)
  end.

End Page.

Inductive View : Type :=
| Verifying
| PaymentSuccessful (message : string) (orderNumber : option string)
                    (orderLink : option string)
| PaymentFailed (message : option string).

Definition render (s : State) : View :=
  if isVerifying s then Verifying
  else match verificationResult s with
       | Some r =>
           if success r then
             PaymentSuccessful (message r) (present (orderNumber r))
               (match present (orderId r) with
                | Some oid => Some ("/orders/" ++ oid)
                | None => None
                end)
           else PaymentFailed (Some (message r))
       | None => PaymentFailed None
       end.

End PaymentCallbackPage.

(** ** Predicates on recorded calls *)

(** The calls a charge.success may make, and those a charge.failed may
    make. *)
Definition success_call (e : Event) : Prop :=
  match e with
  | DbUpdateOrderPaymentStatus _ st _ _ => st = PAID
  | DbUpdateOrderStatus _ st updatedBy _ =>
      st = CONFIRMED /\ updatedBy = "system"
  | WaSendPaymentReminder _ _ _ _ => False
  | _ => True
  end.

Definition failure_call (e : Event) : Prop :=
  match e with
  | DbUpdateOrderPaymentStatus _ st _ amount => st = FAILED /\ amount = VNum 0
  | DbUpdateOrderStatus _ _ _ _ => False
  | WaSendPickupConfirmation _ _ _ => False
  | _ => True
  end.


(** ** Stand-ins for the examples *)

(** A backend whose parts can be down: the document store behind switches
    (a call to a part that is down throws), and the references the payment
    gateway has verified. *)
Record Backend : Type := mkBackend {
  store : DocumentStore;
  payments_up : bool;
  status_up : bool;
  orders_up : bool;
  catalogue_up : bool;
  verified : list string
}.

Definition with_store (f : DocumentStore -> DocumentStore) (b : Backend)
  : Backend :=
  mkBackend (f (store b)) (payments_up b) (status_up b) (orders_up b)
            (catalogue_up b) (verified b).

Definition guarded {A : Type} (up : bool)
    (f : DocumentStore -> (JsError + A) * DocumentStore) (b : Backend)
  : (JsError + A) * Backend :=
  if up then
    match f (store b) with
    | (r, s') => (r, with_store (fun _ => s') b)
    end
  else (inl (ServiceError "Service unavailable"), b).

#[export] Instance backend_database : DatabaseService Backend := {
  updateOrderPaymentStatus orderId st ref amt b :=
    guarded (payments_up b) (updateOrderPaymentStatus orderId st ref amt) b;
  updateOrderStatus orderId st by_ notes b :=
    guarded (status_up b) (updateOrderStatus orderId st by_ notes) b;
  getOrderById id b := guarded (orders_up b) (getOrderById id) b;
  getActiveServices b := guarded (catalogue_up b) getActiveServices b
}.

#[export] Instance backend_whatsapp : WhatsappService Backend := {
  sendPickupConfirmation _ _ _ b := (inr tt, b);
  sendPaymentReminder _ _ _ _ b := (inr tt, b)
}.

#[export] Instance backend_payment
  : PaymentCallbackPage.PaymentService Backend := {
  PaymentCallbackPage.verifyPayment ref b :=
    (inr (mkApiResponse true
            (Some (PaymentCallbackPage.mkPaymentData
                     (if existsb (String.eqb ref) (verified b)
                      then "success" else "failed")))
            None), b)
}.

Definition sample_backend : Backend :=
  mkBackend sample_store true true true true ["abc123"].

(** A stand-in for the SDK: the registered accounts with their passwords,
    the current session, the two collections, a switch that makes document
    writes throw and one that makes the account read throw. *)
Record Directory : Type := mkDirectory {
  accounts : list (string * string * AuthService.Account);
  session : option AuthService.Account;
  adminUsers : gmap string value;
  users : gmap string value;
  read_only : bool;
  account_down : bool
}.

Definition sample_config : AuthService.AppwriteConfig :=
  AuthService.mkConfig "gabz" "users" "admins".

Definition find_account (email password : string)
    (l : list (string * string * AuthService.Account))
  : option AuthService.Account :=
  match List.find (fun x => String.eqb (fst (fst x)) email
                            && String.eqb (snd (fst x)) password) l with
  | Some x => Some (snd x)
  | None => None
  end.

Definition collection (coll : string) (d : Directory) : gmap string value :=
  if String.eqb coll "admins" then adminUsers d else users d.

#[export] Instance directory_sdk : AuthService.Appwrite Directory := {
  AuthService.account_create userId email password name d :=
    let a := AuthService.mkAccount userId name email EmptyString false false
               (VObj []) in
    (inr a, mkDirectory ((email, password, a) :: accounts d) (session d)
              (adminUsers d) (users d) (read_only d) (account_down d));
  AuthService.account_createEmailPasswordSession email password d :=
    match find_account email password (accounts d) with
    | Some a => (inr tt, mkDirectory (accounts d) (Some a) (adminUsers d)
                           (users d) (read_only d) (account_down d))
    | None => (inl (ServiceError "Invalid credentials"), d)
    end;
  AuthService.account_get d :=
    if account_down d then (inl (ServiceError "Service unavailable"), d)
    else
      match session d with
      | Some a => (inr a, d)
      | None => (inl (ServiceError "Unauthorized"), d)
      end;
  AuthService.account_deleteSession _ d :=
    (inr tt, mkDirectory (accounts d) None (adminUsers d) (users d)
               (read_only d) (account_down d));
  AuthService.account_createVerification _ d := (inr tt, d);
  AuthService.databases_getDocument _ coll documentId d :=
    match collection coll d !! documentId with
    | Some doc => (inr doc, d)
    | None => (inl (ServiceError "Document not found"), d)
    end;
  AuthService.databases_createDocument _ coll documentId doc d :=
    if read_only d then (inl (ServiceError "Read only"), d)
    else if String.eqb coll "admins" then
      (inr doc, mkDirectory (accounts d) (session d)
                  (<[documentId := doc]> (adminUsers d)) (users d)
                  (read_only d) (account_down d))
    else
      (inr doc, mkDirectory (accounts d) (session d) (adminUsers d)
                  (<[documentId := doc]> (users d)) (read_only d) (account_down d));
  AuthService.databases_updateDocument _ coll documentId doc d :=
    if read_only d then (inl (ServiceError "Read only"), d)
    else
      match collection coll d !! documentId with
      | Some old => (inr old, d)
      | None => (inl (ServiceError "Document not found"), d)
      end
}.

Definition account_admin : AuthService.Account :=
  AuthService.mkAccount "a1" "Ngozi" "ngozi@gabz.ng" "+2348011111111"
    true true (VObj []).

Definition account_customer : AuthService.Account :=
  AuthService.mkAccount "u1" "Ada" "ada@example.com" EmptyString
    true false (VObj []).

Definition account_former_admin : AuthService.Account :=
  AuthService.mkAccount "a2" "Tunde" "tunde@gabz.ng" EmptyString
    true false (VObj []).

Definition sample_directory : Directory :=
  mkDirectory
    [("ngozi@gabz.ng", "pw-ngozi", account_admin);
     ("ada@example.com", "pw-ada", account_customer);
     ("tunde@gabz.ng", "pw-tunde", account_former_admin)]
    None
    (<["a2" := VObj [("isActive", VBool false); ("role", VStr "staff")]]>
       {["a1" := VObj [("isActive", VBool true); ("role", VStr "owner")]]})
    {["u1" := VObj [("$id", VStr "u1"); ("email", VStr "ada@example.com");
                    ("addresses", VStr "not json")]]}
    false false.

Definition signed_in (a : AuthService.Account) (d : Directory) : Directory :=
  mkDirectory (accounts d) (Some a) (adminUsers d) (users d) (read_only d)
    (account_down d).

Definition signed_out (d : Directory) : Directory :=
  mkDirectory (accounts d) None (adminUsers d) (users d) (read_only d)
    (account_down d).

Definition registered (email password : string) (a : AuthService.Account)
    (d : Directory) : Directory :=
  mkDirectory ((email, password, a) :: accounts d) (session d) (adminUsers d)
    (users d) (read_only d) (account_down d).

Definition read_only_directory : Directory :=
  mkDirectory (accounts sample_directory) None (adminUsers sample_directory)
    (users sample_directory) true false.

Definition account_down_directory : Directory :=
  mkDirectory (accounts sample_directory) None (adminUsers sample_directory)
    (users sample_directory) false true.

Definition ngozi_login : AuthService.LoginCredentials :=
  AuthService.mkLogin "ngozi@gabz.ng" "pw-ngozi".
Definition ada_login : AuthService.LoginCredentials :=
  AuthService.mkLogin "ada@example.com" "pw-ada".
Definition tunde_login : AuthService.LoginCredentials :=
  AuthService.mkLogin "tunde@gabz.ng" "pw-tunde".

Definition bola_account : AuthService.Account :=
  AuthService.mkAccount "fresh-id" "Bola Ade" "bola@example.com" EmptyString
    false false (VObj []).

Definition bola_signup : AuthService.RegisterCredentials :=
  AuthService.mkRegister "bola@example.com" "pw-bola" "Bola" "Ade"
    "+2348022222222".

(** Items and a catalogue: the second item's service is not listed. *)
Definition sample_items : list OrderItem :=
  [mkOrderItem "i1" "wash" 2 1500 3000; mkOrderItem "i2" "iron" 1 2000 2000].
Definition sample_services : list Service := [mkService "wash" "Wash and fold"].

Definition down_backend (payments status_ orders_ catalogue : bool) : Backend :=
  mkBackend sample_store payments status_ orders_ catalogue ["abc123"].

(** Schemas for the examples: any non-empty email and password pass. *)
Definition sample_loginSchema (c : AuthService.LoginCredentials)
  : AuthService.Validation :=
  if String.eqb (AuthService.login_email c) EmptyString
  then AuthService.Invalid "Invalid email address"
  else if String.eqb (AuthService.login_password c) EmptyString
  then AuthService.Invalid "Password is required"
  else AuthService.Valid.

Definition sample_registrationSchema (c : AuthService.RegisterCredentials)
  : AuthService.Validation :=
  if String.eqb (AuthService.email c) EmptyString
  then AuthService.Invalid "Invalid email address"
  else AuthService.Valid.

Definition sample_validatePhone (p : string) : bool :=
  String.prefix "+234" p && (String.length p =? 14)%nat.

(** [JSON.parse] on the texts of the examples. *)
Definition sample_parse_value (v : value) : JsError + value :=
  match v with
  | VStr "[]" => inr (VArr [])
  | VStr s => sample_parse s
  | _ => inl (SyntaxError "not a text")
  end.

(** * Properties of the webhook route *)

Section RouteFacts.

Variable hmac : string -> string -> string.
Variable parse : string -> JsError + value.
Context {W : Type} {db : DatabaseService W} {wa : WhatsappService W}.

Lemma eqb_empty_false (s : string) :
  s <> EmptyString -> String.eqb s EmptyString = false.
Proof. intros H. apply String.eqb_neq. exact H. Qed.

Lemma verify_true_inv env body sig :
  verifyPaystackSignature hmac env body sig = true ->
  exists secret, PAYSTACK_SECRET_KEY env = Some secret
                 /\ secret <> EmptyString
                 /\ hmac secret body = sig.
Proof.
  unfold verifyPaystackSignature.
  destruct (PAYSTACK_SECRET_KEY env) as [secret|]; [|discriminate].
  destruct (String.eqb secret EmptyString) eqn:He; [discriminate|].
  intros Hs. exists secret. split; [reflexivity|]. split.
  - apply String.eqb_neq. exact He.
  - apply String.eqb_eq. exact Hs.
Qed.

Lemma POST_unverified env request sig w :
  x_paystack_signature request = Some sig ->
  verifyPaystackSignature hmac env (text request) sig = false ->
  exists msg, POST hmac parse env request w = (inr (rejection msg), w, []).
Proof.
  intros Hh Hv. unfold POST, try_catch. rewrite Hh.
  destruct (String.eqb sig EmptyString).
  - exists "Missing signature". reflexivity.
  - rewrite Hv. exists "Invalid signature". reflexivity.
Qed.

(** C1: a request whose signature header is missing, or present but not
    verified against the body, is answered with HTTP 400 and an error body;
    the world is left as it was and the call trace is empty, so there is no
    database write and no notification. *)
Theorem POST_rejects_unsigned env request w :
  (x_paystack_signature request = None
   \/ exists sig, x_paystack_signature request = Some sig
        /\ verifyPaystackSignature hmac env (text request) sig = false) ->
  exists msg t,
    POST hmac parse env request w = (inr (rejection msg), w, t)
    /\ http_status (rejection msg) = 400
    /\ body (rejection msg) = error_body msg
    /\ db_writes t = [] /\ notifications t = [].
Proof.
  intros [Hnone | (sig & Hh & Hv)].
  - exists "Missing signature", []. unfold POST, try_catch. rewrite Hnone.
    repeat split.
  - destruct (POST_unverified env request sig w Hh Hv) as [msg Hp].
    exists msg, []. rewrite Hp. repeat split.
Qed.

(** C2: with secret S configured, a signature that the check accepts for
    body B is the digest of B under S, character for character; a request
    carrying any other signature is answered with HTTP 400, nothing else
    being done. *)
Theorem signature_must_equal_digest (S B sig : string) :
  (verifyPaystackSignature hmac (mkEnv (Some S)) B sig = true ->
   sig = hmac S B)
  /\ (sig <> hmac S B ->
      forall w, exists msg,
        POST hmac parse (mkEnv (Some S)) (mkRequest B (Some sig)) w
        = (inr (rejection msg), w, [])).
Proof.
  split.
  - intros Hv. destruct (verify_true_inv _ _ _ Hv) as (S' & HS & _ & Hd).
    simpl in HS. injection HS as <-. symmetry. exact Hd.
  - intros Hne w. apply POST_unverified with (sig := sig); [reflexivity|].
    simpl. destruct (verifyPaystackSignature hmac (mkEnv (Some S)) B sig) eqn:Hv;
      [|reflexivity].
    destruct (verify_true_inv _ _ _ Hv) as (S' & HS & _ & Hd).
    simpl in HS. injection HS as <-. exfalso. apply Hne. symmetry. exact Hd.
Qed.

(** C9: without PAYSTACK_SECRET_KEY the check accepts no body and no
    signature, and every request is answered with HTTP 400, whatever
    signature it carries. *)
Theorem unset_secret_rejects_everything :
  (forall B sig, verifyPaystackSignature hmac (mkEnv None) B sig = false)
  /\ (forall request w, exists msg,
        POST hmac parse (mkEnv None) request w = (inr (rejection msg), w, [])
        /\ http_status (rejection msg) = 400).
Proof.
  split; [reflexivity|].
  intros request w.
  destruct (x_paystack_signature request) as [sig|] eqn:Hh.
  - destruct (POST_unverified (mkEnv None) request sig w Hh eq_refl) as [msg Hp].
    exists msg. split; [exact Hp | reflexivity].
  - exists "Missing signature". unfold POST, try_catch. rewrite Hh.
    split; reflexivity.
Qed.

End RouteFacts.

Section HandlerFacts.

Context {W : Type} {db : DatabaseService W} {wa : WhatsappService W}.

Lemma get_total (v : value) (k : string) :
  nullish v = false -> exists x, get v k = inr x.
Proof. destruct v; simpl; try discriminate; eauto. Qed.

Lemma get_inr_nullish (v : value) (k : string) (x : value) :
  get v k = inr x -> nullish v = false.
Proof. destruct v; simpl; try discriminate; reflexivity. Qed.

Lemma get_opt_total (v : value) (k : string) : exists x, get_opt v k = inr x.
Proof.
  unfold get_opt. destruct (nullish v) eqn:Hn; [eauto|].
  apply get_total. exact Hn.
Qed.

Lemma get_opt_truthy (v : value) (k : string) (x : value) :
  get_opt v k = inr x -> truthy x = true -> get v k = inr x.
Proof.
  unfold get_opt. destruct (nullish v); [|tauto].
  intros [= <-]. discriminate.
Qed.

(** A handler whose body is wrapped in [try]/[catch] with a logging
    [catch] block returns normally. *)
Lemma try_catch_logged (m : M W unit) (text : string) (w : W) :
  exists w' t,
    try_catch m (fun e => emit (ConsoleError text (Some e))) w = (inr tt, w', t).
Proof.
  unfold try_catch, emit. destruct (m w) as [[[e|[]] w1] t1]; eauto.
Qed.

Lemma handlePaymentSuccess_returns (data : value) (w : W) :
  exists w' t, handlePaymentSuccess data w = (inr tt, w', t).
Proof. apply try_catch_logged. Qed.

Lemma handlePaymentFailed_returns (data : value) (w : W) :
  exists w' t, handlePaymentFailed data w = (inr tt, w', t).
Proof. apply try_catch_logged. Qed.

(** What [handlePaymentSuccess] does, by the outcome of its first write. *)
Lemma handlePaymentSuccess_shape (data : value) (w : W) :
  (exists t, handlePaymentSuccess data w = (inr tt, w, t)
             /\ db_writes t = [] /\ notifications t = []
             /\ ~ (exists md oid, get data "metadata" = inr md
                     /\ get_opt md "orderId" = inr oid /\ truthy oid = true))
  \/ (exists ref amt md oid,
        get data "reference" = inr ref /\ get data "amount" = inr amt
        /\ get data "metadata" = inr md /\ get_opt md "orderId" = inr oid
        /\ truthy oid = true
        /\ match updateOrderPaymentStatus oid PAID ref amt w with
           | (inl err, w1) =>
               handlePaymentSuccess data w
               = (inr tt, w1,
                  [DbUpdateOrderPaymentStatus oid PAID ref amt;
                   ConsoleError "Error handling payment success:" (Some err)])
           | (inr resp, w1) =>
               if success resp then
                 exists w' t, handlePaymentSuccess data w
                   = (inr tt, w', DbUpdateOrderPaymentStatus oid PAID ref amt :: t)
               else
                 handlePaymentSuccess data w
                 = (inr tt, w1, [DbUpdateOrderPaymentStatus oid PAID ref amt])
           end).
Proof.
  destruct (nullish data) eqn:Hn.
  - left. exists [ConsoleError "Error handling payment success:"
                    (Some (TypeError "reference"))].
    split; [destruct data; try discriminate; reflexivity|].
    split; [reflexivity|]. split; [reflexivity|].
    intros (md & oid & Hmd & _). apply get_inr_nullish in Hmd. congruence.
  - destruct (get_total data "reference" Hn) as [ref Href].
    destruct (get_total data "amount" Hn) as [amt Hamt].
    destruct (get_total data "customer" Hn) as [cust Hcust].
    destruct (get_total data "metadata" Hn) as [md Hmd].
    destruct (get_opt_total md "orderId") as [oid Hoid].
    destruct (truthy oid) eqn:Ht.
    + right. exists ref, amt, md, oid. repeat (split; [assumption|]).
      assert (Hmn : nullish md = false).
      { apply get_opt_truthy in Hoid; [|exact Ht].
        eapply get_inr_nullish; eassumption. }
      destruct (get_total md "customerPhone" Hmn) as [phone Hphone].
      destruct (get_total md "customerName" Hmn) as [name Hname].
      destruct (get_total md "orderNumber" Hmn) as [num Hnum].
      unfold handlePaymentSuccess, try_catch, bind, lift, emit, call, ret.
      rewrite Href, Hamt, Hcust, Hmd, Hoid, Ht. simpl.
      destruct (updateOrderPaymentStatus oid PAID ref amt w) as [[err|resp] w1];
        [reflexivity|].
      destruct (success resp); [|reflexivity].
      destruct (updateOrderStatus oid CONFIRMED "system"
                  "Payment confirmed - Order ready for pickup" w1)
        as [[err|resp2] w2]; simpl; [eauto|].
      rewrite Hphone, Hname.
      destruct (truthy phone && truthy name); simpl; [|eauto].
      rewrite Hnum.
      destruct (sendPickupConfirmation phone name (js_or num oid) w2)
        as [[err|[]] w3]; simpl; eauto.
    + left. exists [ConsoleError "No orderId in payment metadata" None].
      split.
      { unfold handlePaymentSuccess, try_catch, bind, lift, emit.
        rewrite Href, Hamt, Hcust, Hmd, Hoid, Ht. reflexivity. }
      split; [reflexivity|]. split; [reflexivity|].
      intros (md' & oid' & Hmd' & Hoid' & Ht').
      rewrite Hmd in Hmd'. injection Hmd' as <-.
      rewrite Hoid in Hoid'. injection Hoid' as <-. congruence.
Qed.


(** What [handlePaymentFailed] does once the metadata names an order. *)
Lemma handlePaymentFailed_shape (data : value) (w : W)
    (ref md oid phone name num amt : value) :
  get data "reference" = inr ref -> get data "metadata" = inr md ->
  get md "orderId" = inr oid -> truthy oid = true ->
  get md "customerPhone" = inr phone -> get md "customerName" = inr name ->
  get md "orderNumber" = inr num -> get md "amount" = inr amt ->
  exists w' t,
    handlePaymentFailed data w = (inr tt, w', t)
    /\ db_writes t = [DbUpdateOrderPaymentStatus oid FAILED ref (VNum 0)]
    /\ notifications t
       = if returned (updateOrderPaymentStatus oid FAILED ref (VNum 0) w)
            && truthy phone && truthy name
         then [WaSendPaymentReminder phone name (js_or num oid)
                 (js_or amt (VNum 0))]
         else [].
Proof.
  intros Href Hmd Hoid Ht Hphone Hname Hnum Hamt.
  assert (Hoid' : get_opt md "orderId" = inr oid).
  { unfold get_opt. rewrite (get_inr_nullish _ _ _ Hoid). exact Hoid. }
  unfold handlePaymentFailed, try_catch, bind, lift, emit, call, ret.
  rewrite Href, Hmd, Hoid', Ht. simpl.
  destruct (updateOrderPaymentStatus oid FAILED ref (VNum 0) w)
    as [[err|resp] w1]; simpl; [eauto|].
  rewrite Hphone, Hname.
  destruct (truthy phone && truthy name); simpl; [|eauto].
  rewrite Hnum, Hamt.
  destruct (sendPaymentReminder phone name (js_or num oid)
              (js_or amt (VNum 0)) w1) as [[err|[]] w2]; simpl; eauto.
Qed.

(** The success path of [handlePaymentSuccess]: both writes returned. *)
Lemma handlePaymentSuccess_confirmed (data : value) (w : W)
    (ref amt md oid phone name num : value) resp w1 resp2 w2 :
  get data "reference" = inr ref -> get data "amount" = inr amt ->
  get data "metadata" = inr md ->
  get md "orderId" = inr oid -> truthy oid = true ->
  get md "customerPhone" = inr phone -> get md "customerName" = inr name ->
  get md "orderNumber" = inr num ->
  updateOrderPaymentStatus oid PAID ref amt w = (inr resp, w1) ->
  success resp = true ->
  updateOrderStatus oid CONFIRMED "system"
    "Payment confirmed - Order ready for pickup" w1 = (inr resp2, w2) ->
  handlePaymentSuccess data w
  = if truthy phone && truthy name then
      match sendPickupConfirmation phone name (js_or num oid) w2 with
      | (inl err, w3) =>
          (inr tt, w3,
           [DbUpdateOrderPaymentStatus oid PAID ref amt;
            DbUpdateOrderStatus oid CONFIRMED "system"
              "Payment confirmed - Order ready for pickup";
            WaSendPickupConfirmation phone name (js_or num oid);
            ConsoleError "Error handling payment success:" (Some err)])
      | (inr _, w3) =>
          (inr tt, w3,
           [DbUpdateOrderPaymentStatus oid PAID ref amt;
            DbUpdateOrderStatus oid CONFIRMED "system"
              "Payment confirmed - Order ready for pickup";
            WaSendPickupConfirmation phone name (js_or num oid);
            ConsoleLog "Payment successful for order" oid])
      end
    else
      (inr tt, w2,
       [DbUpdateOrderPaymentStatus oid PAID ref amt;
        DbUpdateOrderStatus oid CONFIRMED "system"
          "Payment confirmed - Order ready for pickup";
        ConsoleLog "Payment successful for order" oid]).
Proof.
  intros Href Hamt Hmd Hoid Ht Hphone Hname Hnum Hpay Hsucc Hconf.
  assert (Hn : nullish data = false) by (eapply get_inr_nullish; eassumption).
  destruct (get_total data "customer" Hn) as [cust Hcust].
  assert (Hoid' : get_opt md "orderId" = inr oid).
  { unfold get_opt. rewrite (get_inr_nullish _ _ _ Hoid). exact Hoid. }
  unfold handlePaymentSuccess, try_catch, bind, lift, emit, call, ret.
  rewrite Href, Hamt, Hcust, Hmd, Hoid', Ht. simpl.
  rewrite Hpay, Hsucc, Hconf. simpl. rewrite Hphone, Hname.
  destruct (truthy phone && truthy name); simpl; [|reflexivity].
  rewrite Hnum.
  destruct (sendPickupConfirmation phone name (js_or num oid) w2)
    as [[err|[]] w3]; reflexivity.
Qed.

End HandlerFacts.

Section EndpointFacts.

Variable hmac : string -> string -> string.
Variable parse : string -> JsError + value.
Context {W : Type} {db : DatabaseService W} {wa : WhatsappService W}.

(** The route on a validly signed body that parses to an event with a
    type: the handler chosen by the [switch] runs after the first log line,
    and the answer is 200. *)
Lemma POST_signed env request w event kind data :
  signed hmac env request ->
  parse (text request) = inr event ->
  get event "event" = inr kind ->
  get event "data" = inr data ->
  forall w' t,
    (if is_str kind "charge.success" then handlePaymentSuccess data
     else if is_str kind "charge.failed" then handlePaymentFailed data
     else if is_str kind "transfer.success" then handleTransferSuccess data
     else if is_str kind "transfer.failed" then handleTransferFailed data
     else emit (ConsoleLog "Unhandled Paystack event:" kind)) w = (inr tt, w', t) ->
    POST hmac parse env request w
    = (inr accepted, w',
       ConsoleLog "Paystack webhook received:" kind :: t).
Proof.
  intros (sig & Hh & Hne & Hv) Hp Hk Hd w' t Hrun.
  unfold POST, try_catch. rewrite Hh, (eqb_empty_false _ Hne), Hv. simpl.
  unfold bind at 1. unfold lift at 1. rewrite Hp.
  unfold bind at 1. unfold lift at 1. rewrite Hk.
  unfold bind at 1. unfold emit at 1.
  unfold bind at 1.
  destruct (is_str kind "charge.success");
    [|destruct (is_str kind "charge.failed");
      [|destruct (is_str kind "transfer.success");
        [|destruct (is_str kind "transfer.failed")]]];
    try (unfold bind at 1; unfold lift at 1; rewrite Hd);
    rewrite Hrun; simpl; rewrite app_nil_r; reflexivity.
Qed.


(** C4 (amended): for a validly signed charge.failed event whose metadata
    has a truthy orderId, the route answers 200 and its only database write
    is payment-status=failed for that order (reference as sent, amount 0);
    it sends one payment reminder, and no pickup confirmation, exactly when
    that write did not throw and the metadata also has a truthy
    customerPhone and customerName, and otherwise sends nothing. *)
Theorem charge_failed_outcome env request w
    (eprops dprops mprops : list (string * value)) :
  signed hmac env request ->
  parse (text request) = inr (VObj eprops) ->
  assoc "event" eprops = VStr "charge.failed" ->
  assoc "data" eprops = VObj dprops ->
  assoc "metadata" dprops = VObj mprops ->
  truthy (assoc "orderId" mprops) = true ->
  let oid := assoc "orderId" mprops in
  let ref := assoc "reference" dprops in
  let phone := assoc "customerPhone" mprops in
  let name := assoc "customerName" mprops in
  exists w' t,
    POST hmac parse env request w = (inr accepted, w', t)
    /\ db_writes t = [DbUpdateOrderPaymentStatus oid FAILED ref (VNum 0)]
    /\ notifications t
       = (if returned (updateOrderPaymentStatus oid FAILED ref (VNum 0) w)
             && truthy phone && truthy name
          then [WaSendPaymentReminder phone name
                  (js_or (assoc "orderNumber" mprops) oid)
                  (js_or (assoc "amount" mprops) (VNum 0))]
          else [])
    /\ (forall a b c, ~ In (WaSendPickupConfirmation a b c) t).
Proof.
  intros Hs Hp Hk Hd Hm Ht oid ref phone name.
  assert (Hmd : get (VObj dprops) "metadata" = inr (VObj mprops))
    by (simpl; rewrite Hm; reflexivity).
  destruct (handlePaymentFailed_shape (VObj dprops) w ref (VObj mprops) oid
              phone name (assoc "orderNumber" mprops) (assoc "amount" mprops)
              eq_refl Hmd eq_refl Ht eq_refl eq_refl eq_refl eq_refl)
    as (w' & t & Hrun & Hdb & Hnot).
  exists w', (ConsoleLog "Paystack webhook received:" (VStr "charge.failed") :: t).
  split.
  { apply (POST_signed env request w (VObj eprops) (VStr "charge.failed")
             (VObj dprops) Hs Hp);
      [simpl; rewrite Hk; reflexivity | simpl; rewrite Hd; reflexivity
      | exact Hrun]. }
  split; [exact Hdb|]. split; [exact Hnot|].
  intros a b c [Hin|Hin]; [discriminate|].
  assert (Hin' : In (WaSendPickupConfirmation a b c) (notifications t)).
  { apply filter_In. split; [exact Hin | reflexivity]. }
  rewrite Hnot in Hin'.
  destruct (returned _ && truthy phone && truthy name); simpl in Hin';
    [destruct Hin' as [Hin'|[]]; discriminate | contradiction].
Qed.

(** C5 (amended): a validly signed request whose body parses to a value
    other than null is answered 200 with [{status: success}], whatever the
    event type and whatever the services do (return, fail or throw); a
    validly signed body that does not parse, or parses to null, is answered
    500 with no database write and no notification. *)
Theorem POST_signed_answers env request w :
  signed hmac env request ->
  (forall event, parse (text request) = inr event -> nullish event = false ->
     exists w' t, POST hmac parse env request w = (inr accepted, w', t))
  /\ ((exists err, parse (text request) = inl err)
      \/ (exists event, parse (text request) = inr event
                        /\ nullish event = true) ->
      exists t, POST hmac parse env request w = (inr failure, w, t)
                /\ db_writes t = [] /\ notifications t = []).
Proof.
  intros Hs. split.
  - intros event Hp Hn.
    destruct (get_total event "event" Hn) as [kind Hk].
    destruct (get_total event "data" Hn) as [data Hd].
    assert (exists w' t,
      (if is_str kind "charge.success" then handlePaymentSuccess data
       else if is_str kind "charge.failed" then handlePaymentFailed data
       else if is_str kind "transfer.success" then handleTransferSuccess data
       else if is_str kind "transfer.failed" then handleTransferFailed data
       else emit (ConsoleLog "Unhandled Paystack event:" kind)) w
      = (inr tt, w', t)) as (w' & t & Hrun).
    { destruct (is_str kind "charge.success");
        [apply handlePaymentSuccess_returns|].
      destruct (is_str kind "charge.failed");
        [apply handlePaymentFailed_returns|].
      destruct (is_str kind "transfer.success"); [cbv; eauto|].
      destruct (is_str kind "transfer.failed"); cbv; eauto. }
    eexists w', _. eapply POST_signed; eassumption.
  - destruct Hs as (sig & Hh & Hne & Hv).
    intros [[err Hp] | (event & Hp & Hn)].
    + eexists. unfold POST, try_catch, bind, lift, emit, ret.
      rewrite Hh, (eqb_empty_false _ Hne), Hv, Hp. simpl.
      split; [reflexivity|]. split; reflexivity.
    + eexists. unfold POST, try_catch, bind, lift, emit, ret.
      rewrite Hh, (eqb_empty_false _ Hne), Hv, Hp. simpl.
      destruct event; try discriminate; simpl;
        (split; [reflexivity|]; split; reflexivity).
Qed.


(** C10: in [handlePaymentSuccess] an order-status write or a notification
    occurs only after a payment-status write that returned success; when
    that write reports failure, it is the only call made; when the metadata
    has no orderId, no write and no notification is made; and the endpoint
    answers 200 in every case, its calls being those of the handler. *)
Theorem payment_success_gated (data : value) (w : W) :
  (forall r w' t e,
     handlePaymentSuccess data w = (r, w', t) ->
     In e t -> follow_up e = true ->
     exists oid ref amt resp w1 t',
       updateOrderPaymentStatus oid PAID ref amt w = (inr resp, w1)
       /\ success resp = true
       /\ t = DbUpdateOrderPaymentStatus oid PAID ref amt :: t')
  /\ (forall ref amt md oid resp w1,
        get data "reference" = inr ref -> get data "amount" = inr amt ->
        get data "metadata" = inr md -> get_opt md "orderId" = inr oid ->
        truthy oid = true ->
        updateOrderPaymentStatus oid PAID ref amt w = (inr resp, w1) ->
        success resp = false ->
        handlePaymentSuccess data w
        = (inr tt, w1, [DbUpdateOrderPaymentStatus oid PAID ref amt]))
  /\ (~ (exists md oid, get data "metadata" = inr md
           /\ get_opt md "orderId" = inr oid /\ truthy oid = true) ->
      exists t, handlePaymentSuccess data w = (inr tt, w, t)
                /\ db_writes t = [] /\ notifications t = [])
  /\ (forall env request event,
        signed hmac env request ->
        parse (text request) = inr event ->
        get event "event" = inr (VStr "charge.success") ->
        get event "data" = inr data ->
        exists w' t,
          handlePaymentSuccess data w = (inr tt, w', t)
          /\ POST hmac parse env request w
             = (inr accepted, w',
                ConsoleLog "Paystack webhook received:" (VStr "charge.success")
                  :: t)).
Proof.
  pose proof (handlePaymentSuccess_shape data w) as Hshape.
  split; [|split; [|split]].
  - intros r w' t e Hrun Hin Hf.
    destruct Hshape as [(t0 & Hrun0 & Hdb & Hnot & _)
                       | (ref & amt & md & oid & _ & _ & _ & _ & _ & Hcase)].
    + rewrite Hrun0 in Hrun. injection Hrun as <- <- <-.
      exfalso. destruct e; try discriminate.
      * assert (Hin' : In (DbUpdateOrderStatus orderId st updatedBy notes)
                          (db_writes t0))
          by (apply filter_In; split; [exact Hin | reflexivity]).
        rewrite Hdb in Hin'. exact Hin'.
      * assert (Hin' : In (WaSendPickupConfirmation phone name orderRef)
                          (notifications t0))
          by (apply filter_In; split; [exact Hin | reflexivity]).
        rewrite Hnot in Hin'. exact Hin'.
      * assert (Hin' : In (WaSendPaymentReminder phone name orderRef amount)
                          (notifications t0))
          by (apply filter_In; split; [exact Hin | reflexivity]).
        rewrite Hnot in Hin'. exact Hin'.
    + destruct (updateOrderPaymentStatus oid PAID ref amt w)
        as [[err|resp] w1] eqn:Hupd.
      * rewrite Hcase in Hrun. injection Hrun as <- <- <-.
        exfalso. destruct Hin as [<-|[<-|[]]]; discriminate.
      * destruct (success resp) eqn:Hsucc.
        -- destruct Hcase as (w2 & t2 & Hrun2).
           rewrite Hrun2 in Hrun. injection Hrun as <- <- <-.
           exists oid, ref, amt, resp, w1, t2. auto.
        -- rewrite Hcase in Hrun. injection Hrun as <- <- <-.
           exfalso. destruct Hin as [<-|[]]; discriminate.
  - intros ref amt md oid resp w1 Href Hamt Hmd Hoid Ht Hupd Hsucc.
    destruct Hshape as [(t0 & _ & _ & _ & Hno)
                       | (ref' & amt' & md' & oid' & Href' & Hamt' & Hmd'
                          & Hoid' & _ & Hcase)].
    + exfalso. apply Hno. exists md, oid. auto.
    + rewrite Href in Href'. injection Href' as <-.
      rewrite Hamt in Hamt'. injection Hamt' as <-.
      rewrite Hmd in Hmd'. injection Hmd' as <-.
      rewrite Hoid in Hoid'. injection Hoid' as <-.
      rewrite Hupd, Hsucc in Hcase. exact Hcase.
  - intros Hno.
    destruct Hshape as [(t0 & Hrun0 & Hdb & Hnot & _)
                       | (ref & amt & md & oid & _ & _ & Hmd & Hoid & Ht & _)].
    + exists t0. auto.
    + exfalso. apply Hno. exists md, oid. auto.
  - intros env request event Hs Hp Hk Hd.
    destruct (handlePaymentSuccess_returns data w) as (w' & t & Hrun).
    exists w', t. split; [exact Hrun|].
    apply (POST_signed env request w event (VStr "charge.success") data
             Hs Hp Hk Hd).
    exact Hrun.
Qed.


End EndpointFacts.

(** * The route on the document store *)

Section StoreFacts.

Variable hmac : string -> string -> string.
Variable parse : string -> JsError + value.

Lemma updateDocument_found id f (s : DocumentStore) o :
  orders s !! id = Some o ->
  updateDocument (VStr id) f s = (inr ok_response, put_order id (f o) s).
Proof. intros H. unfold updateDocument. rewrite H. reflexivity. Qed.

Lemma updateDocument_fails oid f (s : DocumentStore) :
  (forall id o, oid = VStr id -> orders s !! id = Some o -> False) ->
  exists resp, updateDocument oid f s = (inr resp, s) /\ success resp = false.
Proof.
  intros H. unfold updateDocument. destruct oid; try (eexists; split; reflexivity).
  destruct (orders s !! s0) as [o|] eqn:Ho.
  - exfalso. eapply H; [reflexivity | exact Ho].
  - eexists; split; reflexivity.
Qed.

Lemma orders_put_order id o (s : DocumentStore) :
  orders (put_order id o s) !! id = Some o.
Proof. unfold put_order. simpl. apply lookup_insert_eq. Qed.

Lemma orders_put_order_ne id id' o (s : DocumentStore) :
  id <> id' -> orders (put_order id o s) !! id' = orders s !! id'.
Proof. intros H. unfold put_order. simpl. apply lookup_insert_ne. exact H. Qed.

Lemma put_order_twice id a b (s : DocumentStore) :
  put_order id a (put_order id b s) = put_order id a s.
Proof. unfold put_order. simpl. rewrite insert_insert_eq. reflexivity. Qed.

Lemma set_paid_confirmed_again o :
  set_status CONFIRMED (set_paymentStatus PAID
    (set_status CONFIRMED (set_paymentStatus PAID o)))
  = set_status CONFIRMED (set_paymentStatus PAID o).
Proof. destruct o. reflexivity. Qed.

(** The success handler on a store that has the order: both fields are
    overwritten and the calls are the two writes, then the notification
    when the metadata has a phone and a name. *)
Lemma handlePaymentSuccess_on_store (data : value) (s : DocumentStore)
    (ref amt md phone name num : value) (id : string) (o : Order) :
  get data "reference" = inr ref -> get data "amount" = inr amt ->
  get data "metadata" = inr md ->
  get md "orderId" = inr (VStr id) -> truthy (VStr id) = true ->
  get md "customerPhone" = inr phone -> get md "customerName" = inr name ->
  get md "orderNumber" = inr num ->
  orders s !! id = Some o ->
  handlePaymentSuccess data s
  = (inr tt, put_order id (set_status CONFIRMED (set_paymentStatus PAID o)) s,
     [DbUpdateOrderPaymentStatus (VStr id) PAID ref amt;
      DbUpdateOrderStatus (VStr id) CONFIRMED "system"
        "Payment confirmed - Order ready for pickup"]
     ++ (if truthy phone && truthy name
         then [WaSendPickupConfirmation phone name (js_or num (VStr id))]
         else [])
     ++ [ConsoleLog "Payment successful for order" (VStr id)])%list.
Proof.
  intros Href Hamt Hmd Hoid Ht Hphone Hname Hnum Ho.
  rewrite (handlePaymentSuccess_confirmed data s ref amt md (VStr id) phone
             name num ok_response (put_order id (set_paymentStatus PAID o) s)
             ok_response
             (put_order id (set_status CONFIRMED (set_paymentStatus PAID o)) s)
             Href Hamt Hmd Hoid Ht Hphone Hname Hnum).
  - destruct (truthy phone && truthy name); reflexivity.
  - apply updateDocument_found. exact Ho.
  - reflexivity.
  - etransitivity.
    + apply (updateDocument_found id _ _ (set_paymentStatus PAID o)).
      apply orders_put_order.
    + rewrite put_order_twice. reflexivity.
Qed.

(** C3: on a store that has order o1, the validly signed example event is
    answered 200; order o1 ends with paymentStatus paid and status
    confirmed, every other order is as it was, the database writes are
    those two, and there is exactly one notification, the pickup
    confirmation for (+2348000000000, Ada, o1). *)
Theorem example_charge_success env request (s : DocumentStore) (o : Order) :
  signed hmac env request ->
  parse (text request) = inr charge_success_event ->
  orders s !! "o1" = Some o ->
  exists s' t o',
    POST hmac parse env request s = (inr accepted, s', t)
    /\ orders s' !! "o1" = Some o'
    /\ paymentStatus o' = PAID /\ status o' = CONFIRMED
    /\ (forall id, id <> "o1" -> orders s' !! id = orders s !! id)
    /\ db_writes t
       = [DbUpdateOrderPaymentStatus (VStr "o1") PAID (VStr "abc123") VUndefined;
          DbUpdateOrderStatus (VStr "o1") CONFIRMED "system"
            "Payment confirmed - Order ready for pickup"]
    /\ notifications t
       = [WaSendPickupConfirmation (VStr "+2348000000000") (VStr "Ada")
            (VStr "o1")].
Proof.
  intros Hs Hp Ho.
  eexists _, _, (set_status CONFIRMED (set_paymentStatus PAID o)).
  split.
  { eapply (POST_signed hmac parse env request s charge_success_event
              (VStr "charge.success") _ Hs Hp eq_refl eq_refl).
    simpl is_str. cbv iota.
    apply (handlePaymentSuccess_on_store _ s (VStr "abc123") VUndefined
             ada_metadata (VStr "+2348000000000") (VStr "Ada") VUndefined
             "o1" o); try reflexivity. exact Ho. }
  split; [apply orders_put_order|].
  split; [reflexivity|]. split; [reflexivity|].
  split; [|split; reflexivity].
  intros id Hid. apply orders_put_order_ne. congruence.
Qed.


Lemma classic_found (oid : value) (s : DocumentStore) :
  (exists id o, oid = VStr id /\ orders s !! id = Some o)
  \/ (forall id o, oid = VStr id -> orders s !! id = Some o -> False).
Proof.
  destruct oid; try (right; intros; discriminate).
  destruct (orders s !! s0) as [o|] eqn:Ho.
  - left. eauto.
  - right. intros id o [= <-] Ho'. congruence.
Qed.

(** Running the success handler again from the store it left gives the
    same outcome, the same calls and the same store. *)
Lemma handlePaymentSuccess_replay (data : value) (s : DocumentStore) r s1 t1 :
  handlePaymentSuccess data s = (r, s1, t1) ->
  handlePaymentSuccess data s1 = (r, s1, t1).
Proof.
  intros Hrun.
  destruct (handlePaymentSuccess_shape data s)
    as [(t0 & Hrun0 & _) | (ref & amt & md & oid & Href & Hamt & Hmd & Hoid
                            & Ht & Hcase)].
  - rewrite Hrun0 in Hrun. injection Hrun as <- <- <-. exact Hrun0.
  - apply get_opt_truthy in Hoid; [|exact Ht].
    assert (Hmn : nullish md = false) by (eapply get_inr_nullish; eassumption).
    destruct (get_total md "customerPhone" Hmn) as [phone Hphone].
    destruct (get_total md "customerName" Hmn) as [name Hname].
    destruct (get_total md "orderNumber" Hmn) as [num Hnum].
    destruct (classic_found oid s) as [(id & o & -> & Ho) | Hmiss].
    + rewrite (handlePaymentSuccess_on_store data s ref amt md phone name num
                 id o Href Hamt Hmd Hoid Ht Hphone Hname Hnum Ho) in Hrun.
      injection Hrun as <- <- <-.
      rewrite (handlePaymentSuccess_on_store data _ ref amt md phone name num
                 id _ Href Hamt Hmd Hoid Ht Hphone Hname Hnum
                 (orders_put_order id _ s)).
      rewrite put_order_twice, set_paid_confirmed_again. reflexivity.
    + destruct (updateDocument_fails oid (set_paymentStatus PAID) s Hmiss)
        as (resp & Hupd & Hfail).
      change (updateDocument oid (set_paymentStatus PAID) s)
        with (updateOrderPaymentStatus oid PAID ref amt s) in Hupd.
      rewrite Hupd, Hfail in Hcase.
      rewrite Hcase in Hrun. injection Hrun as <- <- <-. exact Hcase.
Qed.

(** C6: processing the same validly signed charge.success payload a second
    time, from the store the first processing left, gives the same answer
    and makes the same calls again (nothing is skipped), and the store is
    the one the first processing left; when the metadata names an order of
    the store, those calls include both writes and the order is paid and
    confirmed. *)
Theorem replay_charge_success env request (s : DocumentStore)
    (event data : value) r1 s1 t1 :
  signed hmac env request ->
  parse (text request) = inr event ->
  get event "event" = inr (VStr "charge.success") ->
  get event "data" = inr data ->
  POST hmac parse env request s = (r1, s1, t1) ->
  POST hmac parse env request s1 = (r1, s1, t1)
  /\ r1 = inr accepted
  /\ (forall ref amt md id o,
        get data "reference" = inr ref -> get data "amount" = inr amt ->
        get data "metadata" = inr md ->
        get md "orderId" = inr (VStr id) -> id <> EmptyString ->
        orders s !! id = Some o ->
        db_writes t1
        = [DbUpdateOrderPaymentStatus (VStr id) PAID ref amt;
           DbUpdateOrderStatus (VStr id) CONFIRMED "system"
             "Payment confirmed - Order ready for pickup"]
        /\ exists o', orders s1 !! id = Some o'
                      /\ paymentStatus o' = PAID /\ status o' = CONFIRMED).
Proof.
  intros Hs Hp Hk Hd Hpost.
  destruct (handlePaymentSuccess_returns data s) as (s' & t & Hrun).
  pose proof (POST_signed hmac parse env request s event
                (VStr "charge.success") data Hs Hp Hk Hd s' t Hrun) as Hfirst.
  rewrite Hfirst in Hpost. injection Hpost as <- <- <-.
  split; [|split; [reflexivity|]].
  - apply (POST_signed hmac parse env request s' event
             (VStr "charge.success") data Hs Hp Hk Hd s' t).
    simpl. apply (handlePaymentSuccess_replay data s). exact Hrun.
  - intros ref amt md id o Href Hamt Hmd Hoid Hid Ho.
    assert (Ht : truthy (VStr id) = true).
    { simpl. rewrite (eqb_empty_false _ Hid). reflexivity. }
    assert (Hmn : nullish md = false) by (eapply get_inr_nullish; eassumption).
    destruct (get_total md "customerPhone" Hmn) as [phone Hphone].
    destruct (get_total md "customerName" Hmn) as [name Hname].
    destruct (get_total md "orderNumber" Hmn) as [num Hnum].
    simpl in Hrun.
    rewrite (handlePaymentSuccess_on_store data s ref amt md phone name num
               id o Href Hamt Hmd Hoid Ht Hphone Hname Hnum Ho) in Hrun.
    injection Hrun as <- <-. split.
    + simpl. destruct (truthy phone && truthy name); reflexivity.
    + exists (set_status CONFIRMED (set_paymentStatus PAID o)).
      split; [apply orders_put_order | split; reflexivity].
Qed.

End StoreFacts.

(** * The receipt page and the receipt *)

Section PageFacts.

Context {W : Type} {db : DatabaseService W}.

Lemma differs_false (a b : string) :
  ReceiptPage.differs a (Some b) = false -> a = b.
Proof.
  unfold ReceiptPage.differs. intros H.
  apply String.eqb_eq. destruct (String.eqb a b); [reflexivity|discriminate].
Qed.

Lemma differs_true (a b : string) :
  a <> b -> ReceiptPage.differs a (Some b) = true.
Proof.
  intros H. unfold ReceiptPage.differs.
  apply String.eqb_neq in H. rewrite H. reflexivity.
Qed.

(** C7: after the page has loaded order [id] for a signed-in user, a
    receipt is rendered only for the order the database returned and only
    if its customerId is the user's identifier; for a user with another
    identifier the page sets the error to Access denied, renders the error
    view, and holds neither the order nor its items. *)
Theorem receipt_only_for_owner (id : string) (user : AuthUser) (w : W) :
  let s' := fst (ReceiptPage.loadOrderData id (Some user) ReceiptPage.initial w) in
  (forall o items svcs,
     ReceiptPage.render true (Some user) s' = ReceiptPage.Receipt o items svcs ->
     customerId o = user_id user
     /\ exists resp w1, getOrderById id w = (inr resp, w1)
                        /\ success resp = true /\ data resp = Some (o, items))
  /\ (forall resp w1 o items,
        getOrderById id w = (inr resp, w1) ->
        success resp = true -> data resp = Some (o, items) ->
        customerId o <> user_id user ->
        ReceiptPage.error s' = "Access denied"
        /\ ReceiptPage.render true (Some user) s'
           = ReceiptPage.OrderNotFound "Access denied"
        /\ ReceiptPage.order s' = None /\ ReceiptPage.orderItems s' = []).
Proof.
  unfold ReceiptPage.loadOrderData. split.
  - intros o items svcs.
    destruct (getOrderById id w) as [[err|resp] w1]; [discriminate|].
    destruct (success resp) eqn:Hsucc; [|discriminate].
    destruct (data resp) as [[o' items']|] eqn:Hdata; [|discriminate].
    destruct (ReceiptPage.differs (customerId o') (user_id <$> Some user))
      eqn:Hdiff; [discriminate|].
    apply differs_false in Hdiff.
    destruct (getActiveServices w1) as [[err|sresp] w2]; [discriminate|].
    destruct (success sresp), (data sresp); simpl;
      intros [= <- <- <-]; (split; [exact Hdiff | eauto]).
  - intros resp w1 o items Hget Hsucc Hdata Hne.
    rewrite Hget, Hsucc, Hdata.
    change (user_id <$> Some user) with (Some (user_id user)).
    rewrite (differs_true _ _ Hne). simpl. repeat split.
Qed.

End PageFacts.

(** The totals block prints the stored amounts as they are: the subtotal
    line totalAmount, the total line finalAmount, and a discount line, with
    discountAmount, only when that is positive. *)
Lemma totals_show_stored_amounts (o : Order) :
  OrderReceipt.shown "Subtotal:" (OrderReceipt.totals o) = Some (totalAmount o)
  /\ OrderReceipt.shown "Total:" (OrderReceipt.totals o) = Some (finalAmount o)
  /\ OrderReceipt.shown "Discount:" (OrderReceipt.totals o)
     = (if 0 <? discountAmount o then Some (discountAmount o) else None).
Proof.
  unfold OrderReceipt.totals, OrderReceipt.shown.
  destruct (0 <? discountAmount o); simpl; repeat split.
Qed.

(** * The properties at sample inputs *)

Lemma signed_request_signed (body : string) :
  signed toy_digest sample_env (signed_request body).
Proof.
  exists (toy_digest "sk_test_secret" body).
  split; [reflexivity|]. split; [discriminate|].
  unfold verifyPaystackSignature. simpl. apply String.eqb_refl.
Qed.

Lemma POST_rejects_unsigned_witness :
  (x_paystack_signature (mkRequest charge_success_text (Some "bad")) = None
   \/ exists sig,
        x_paystack_signature (mkRequest charge_success_text (Some "bad"))
        = Some sig
        /\ verifyPaystackSignature toy_digest sample_env
             (text (mkRequest charge_success_text (Some "bad"))) sig = false)
  /\ exists msg t,
       POST toy_digest sample_parse sample_env
            (mkRequest charge_success_text (Some "bad")) sample_store
       = (inr (rejection msg), sample_store, t)
       /\ http_status (rejection msg) = 400
       /\ body (rejection msg) = error_body msg
       /\ db_writes t = [] /\ notifications t = [].
Proof.
  assert (H : x_paystack_signature (mkRequest charge_success_text (Some "bad"))
              = None
              \/ exists sig,
                x_paystack_signature (mkRequest charge_success_text (Some "bad"))
                = Some sig
                /\ verifyPaystackSignature toy_digest sample_env
                     (text (mkRequest charge_success_text (Some "bad"))) sig
                   = false).
  { right. exists "bad". split; reflexivity. }
  split; [exact H|].
  exact (POST_rejects_unsigned toy_digest sample_parse sample_env
           (mkRequest charge_success_text (Some "bad")) sample_store H).
Defined.

Lemma signature_must_equal_digest_witness :
  "bad" <> toy_digest "sk_test_secret" charge_success_text
  /\ exists msg,
       POST toy_digest sample_parse (mkEnv (Some "sk_test_secret"))
            (mkRequest charge_success_text (Some "bad")) sample_store
       = (inr (rejection msg), sample_store, []).
Proof.
  assert (H : "bad" <> toy_digest "sk_test_secret" charge_success_text)
    by discriminate.
  split; [exact H|].
  exact (proj2 (signature_must_equal_digest toy_digest sample_parse
                  "sk_test_secret" charge_success_text "bad") H sample_store).
Defined.

Lemma example_charge_success_witness :
  signed toy_digest sample_env (signed_request charge_success_text)
  /\ sample_parse (text (signed_request charge_success_text))
     = inr charge_success_event
  /\ orders sample_store !! "o1" = Some order_o1
  /\ exists s' t o',
       POST toy_digest sample_parse sample_env
            (signed_request charge_success_text) sample_store
       = (inr accepted, s', t)
       /\ orders s' !! "o1" = Some o'
       /\ paymentStatus o' = PAID /\ status o' = CONFIRMED
       /\ (forall id, id <> "o1" ->
           orders s' !! id = orders sample_store !! id)
       /\ db_writes t
          = [DbUpdateOrderPaymentStatus (VStr "o1") PAID (VStr "abc123")
               VUndefined;
             DbUpdateOrderStatus (VStr "o1") CONFIRMED "system"
               "Payment confirmed - Order ready for pickup"]
       /\ notifications t
          = [WaSendPickupConfirmation (VStr "+2348000000000") (VStr "Ada")
               (VStr "o1")].
Proof.
  assert (Hp : sample_parse (text (signed_request charge_success_text))
               = inr charge_success_event) by reflexivity.
  assert (Ho : orders sample_store !! "o1" = Some order_o1) by reflexivity.
  split; [apply signed_request_signed|]. split; [exact Hp|]. split; [exact Ho|].
  exact (example_charge_success toy_digest sample_parse sample_env
           (signed_request charge_success_text) sample_store order_o1
           (signed_request_signed charge_success_text) Hp Ho).
Defined.

(** A validly signed charge.failed event whose metadata carries the orderId
    alone: the payment-status write is made and no notification is sent. *)
Lemma charge_failed_without_contact_is_silent :
  signed toy_digest sample_env (signed_request charge_failed_bare_text)
  /\ sample_parse charge_failed_bare_text = inr charge_failed_bare_event
  /\ exists s' t,
       POST toy_digest sample_parse sample_env
            (signed_request charge_failed_bare_text) sample_store
       = (inr accepted, s', t)
       /\ db_writes t
          = [DbUpdateOrderPaymentStatus (VStr "o1") FAILED (VStr "abc123")
               (VNum 0)]
       /\ notifications t = [].
Proof.
  split; [apply signed_request_signed|]. split; [reflexivity|].
  eexists _, _. split; [vm_compute; reflexivity|]. split; reflexivity.
Qed.

Lemma charge_failed_outcome_witness :
  signed toy_digest sample_env (signed_request charge_failed_text)
  /\ exists w' t,
       POST toy_digest sample_parse sample_env
            (signed_request charge_failed_text) sample_store
       = (inr accepted, w', t)
       /\ db_writes t
          = [DbUpdateOrderPaymentStatus (VStr "o1") FAILED (VStr "abc123")
               (VNum 0)]
       /\ notifications t
          = [WaSendPaymentReminder (VStr "+2348000000000") (VStr "Ada")
               (VStr "o1") (VNum 0)]
       /\ (forall a b c, ~ In (WaSendPickupConfirmation a b c) t).
Proof.
  split; [apply signed_request_signed|].
  exact (charge_failed_outcome toy_digest sample_parse sample_env
           (signed_request charge_failed_text) sample_store
           [("event", VStr "charge.failed");
            ("data", VObj [("reference", VStr "abc123");
                           ("metadata", ada_metadata)])]
           [("reference", VStr "abc123"); ("metadata", ada_metadata)]
           [("orderId", VStr "o1"); ("customerPhone", VStr "+2348000000000");
            ("customerName", VStr "Ada")]
           (signed_request_signed charge_failed_text)
           eq_refl eq_refl eq_refl eq_refl eq_refl).
Defined.

(** A validly signed request whose body is not JSON is answered 500. *)
Lemma signed_garbage_gets_500 :
  signed toy_digest sample_env (signed_request "not json")
  /\ POST toy_digest sample_parse sample_env (signed_request "not json")
          sample_store
     = (inr failure, sample_store,
        [ConsoleError "Paystack webhook error:" (Some (SyntaxError "not json"))])
  /\ http_status failure = 500.
Proof.
  split; [apply signed_request_signed|]. split; reflexivity.
Qed.

Lemma POST_signed_answers_witness :
  signed toy_digest sample_env (signed_request refund_text)
  /\ sample_parse (text (signed_request refund_text)) = inr refund_event
  /\ nullish refund_event = false
  /\ exists w' t,
       POST toy_digest sample_parse sample_env (signed_request refund_text)
            sample_store
       = (inr accepted, w', t).
Proof.
  assert (Hp : sample_parse (text (signed_request refund_text))
               = inr refund_event) by reflexivity.
  assert (Hn : nullish refund_event = false) by reflexivity.
  split; [apply signed_request_signed|]. split; [exact Hp|]. split; [exact Hn|].
  exact (proj1 (POST_signed_answers toy_digest sample_parse sample_env
                  (signed_request refund_text) sample_store
                  (signed_request_signed refund_text))
               refund_event Hp Hn).
Defined.

Lemma replay_charge_success_witness :
  signed toy_digest sample_env (signed_request charge_success_text)
  /\ exists r1 s1 t1,
       POST toy_digest sample_parse sample_env
            (signed_request charge_success_text) sample_store = (r1, s1, t1)
       /\ POST toy_digest sample_parse sample_env
               (signed_request charge_success_text) s1 = (r1, s1, t1)
       /\ r1 = inr accepted
       /\ length (db_writes t1) = 2%nat
       /\ exists o', orders s1 !! "o1" = Some o'
                     /\ paymentStatus o' = PAID /\ status o' = CONFIRMED.
Proof.
  split; [apply signed_request_signed|].
  destruct (POST toy_digest sample_parse sample_env
              (signed_request charge_success_text) sample_store)
    as [[r1 s1] t1] eqn:Hpost.
  exists r1, s1, t1. split; [reflexivity|].
  destruct (replay_charge_success toy_digest sample_parse sample_env
              (signed_request charge_success_text) sample_store
              charge_success_event
              (VObj [("reference", VStr "abc123"); ("metadata", ada_metadata)])
              r1 s1 t1 (signed_request_signed charge_success_text)
              eq_refl eq_refl eq_refl Hpost) as (Hagain & Hr & Hwrites).
  split; [exact Hagain|]. split; [exact Hr|].
  destruct (Hwrites (VStr "abc123") VUndefined ada_metadata "o1" order_o1
              eq_refl eq_refl eq_refl eq_refl) as (Hdb & Hstate).
  - discriminate.
  - reflexivity.
  - split; [rewrite Hdb; reflexivity | exact Hstate].
Defined.

Lemma payment_success_gated_witness :
  updateOrderPaymentStatus (VStr "o1") PAID (VStr "abc123") VUndefined odd_store
  = (inr (failed_response "Document not found"), odd_store)
  /\ handlePaymentSuccess
       (VObj [("reference", VStr "abc123"); ("metadata", ada_metadata)])
       odd_store
     = (inr tt, odd_store,
        [DbUpdateOrderPaymentStatus (VStr "o1") PAID (VStr "abc123") VUndefined]).
Proof.
  split; [reflexivity|].
  exact (proj1 (proj2 (payment_success_gated toy_digest sample_parse
                         (VObj [("reference", VStr "abc123");
                                ("metadata", ada_metadata)]) odd_store))
               (VStr "abc123") VUndefined ada_metadata (VStr "o1")
               (failed_response "Document not found") odd_store
               eq_refl eq_refl eq_refl eq_refl eq_refl eq_refl eq_refl).
Defined.

Lemma receipt_only_for_owner_witness :
  customerId order_o1 <> user_id user_u2
  /\ ReceiptPage.render true (Some user_u2)
       (fst (ReceiptPage.loadOrderData "o1" (Some user_u2)
               ReceiptPage.initial sample_store))
     = ReceiptPage.OrderNotFound "Access denied"
  /\ ReceiptPage.render true (Some user_u1)
       (fst (ReceiptPage.loadOrderData "o1" (Some user_u1)
               ReceiptPage.initial sample_store))
     = ReceiptPage.Receipt order_o1 [] [].
Proof.
  assert (Hne : customerId order_o1 <> user_id user_u2) by discriminate.
  split; [exact Hne|]. split; [|reflexivity].
  exact (proj1 (proj2 (proj2 (receipt_only_for_owner "o1" user_u2 sample_store)
                         (mkApiResponse true (Some (order_o1, [])) None)
                         sample_store order_o1 [] eq_refl eq_refl eq_refl Hne))).
Defined.

(** * Further properties of the webhook route *)

Section MoreRouteFacts.

Variable hmac : string -> string -> string.
Variable parse : string -> JsError + value.
Context {W : Type} {db : DatabaseService W} {wa : WhatsappService W}.

(** X1: a validly signed event whose type is neither charge.success nor
    charge.failed (a transfer event, or a type the route does not handle)
    is answered 200 with no database write and no notification, and the
    world is left as it was. *)
Theorem POST_other_events env request w event kind :
  signed hmac env request ->
  parse (text request) = inr event ->
  get event "event" = inr kind ->
  is_str kind "charge.success" = false ->
  is_str kind "charge.failed" = false ->
  exists t,
    POST hmac parse env request w = (inr accepted, w, t)
    /\ db_writes t = [] /\ notifications t = [].
Proof.
  intros Hs Hp Hk Hns Hnf.
  destruct (get_total event "data" (get_inr_nullish _ _ _ Hk)) as [data Hd].
  pose proof (POST_signed hmac parse env request w event kind data
                Hs Hp Hk Hd) as Hpost.
  rewrite Hns, Hnf in Hpost.
  destruct (is_str kind "transfer.success");
    [|destruct (is_str kind "transfer.failed")];
    (eexists; split; [apply Hpost; reflexivity | split; reflexivity]).
Qed.

(** X2: the error body tells the two rejections apart: a header that is
    absent or empty is answered [Missing signature], whatever the digest
    is; a header that is present, not empty and not verified is answered
    [Invalid signature]. *)
Theorem rejection_messages env request w :
  (x_paystack_signature request = None
   \/ x_paystack_signature request = Some EmptyString ->
   POST hmac parse env request w
   = (inr (rejection "Missing signature"), w, []))
  /\ (forall sig,
        x_paystack_signature request = Some sig -> sig <> EmptyString ->
        verifyPaystackSignature hmac env (text request) sig = false ->
        POST hmac parse env request w
        = (inr (rejection "Invalid signature"), w, [])).
Proof.
  split.
  - intros [H|H]; unfold POST, try_catch; rewrite H; reflexivity.
  - intros sig Hh Hne Hv. unfold POST, try_catch.
    rewrite Hh, (eqb_empty_false _ Hne), Hv. reflexivity.
Qed.

(** X3: the signature check accepts exactly the digest of the body under a
    configured, non-empty secret: an empty PAYSTACK_SECRET_KEY accepts
    nothing, like an unset one. *)
Theorem verify_accepts_exactly env (B sig : string) :
  verifyPaystackSignature hmac env B sig = true
  <-> exists S, PAYSTACK_SECRET_KEY env = Some S
                /\ S <> EmptyString /\ sig = hmac S B.
Proof.
  split.
  - intros Hv. destruct (verify_true_inv hmac _ _ _ Hv) as (S & HS & Hne & Hd).
    exists S. auto.
  - intros (S & HS & Hne & ->). unfold verifyPaystackSignature.
    rewrite HS, (eqb_empty_false _ Hne). apply String.eqb_refl.
Qed.

(** The success handler when the order-status write throws. *)
Lemma handlePaymentSuccess_status_throws (data : value) (w : W)
    (ref amt md oid : value) resp w1 err w2 :
  get data "reference" = inr ref -> get data "amount" = inr amt ->
  get data "metadata" = inr md ->
  get md "orderId" = inr oid -> truthy oid = true ->
  updateOrderPaymentStatus oid PAID ref amt w = (inr resp, w1) ->
  success resp = true ->
  updateOrderStatus oid CONFIRMED "system"
    "Payment confirmed - Order ready for pickup" w1 = (inl err, w2) ->
  handlePaymentSuccess data w
  = (inr tt, w2,
     [DbUpdateOrderPaymentStatus oid PAID ref amt;
      DbUpdateOrderStatus oid CONFIRMED "system"
        "Payment confirmed - Order ready for pickup";
      ConsoleError "Error handling payment success:" (Some err)]).
Proof.
  intros Href Hamt Hmd Hoid Ht Hpay Hsucc Hconf.
  assert (Hn : nullish data = false) by (eapply get_inr_nullish; eassumption).
  destruct (get_total data "customer" Hn) as [cust Hcust].
  assert (Hoid' : get_opt md "orderId" = inr oid).
  { unfold get_opt. rewrite (get_inr_nullish _ _ _ Hoid). exact Hoid. }
  unfold handlePaymentSuccess, try_catch, bind, lift, emit, call, ret.
  rewrite Href, Hamt, Hcust, Hmd, Hoid', Ht. simpl.
  rewrite Hpay, Hsucc, Hconf. reflexivity.
Qed.

(** X4: when both writes of a charge.success return, there is exactly one
    notification when the metadata has a phone and a name, and it names the
    order by metadata.orderNumber if that is truthy and by the orderId
    otherwise. *)
Theorem pickup_confirmation_reference (dprops mprops : list (string * value))
    (w : W) resp w1 resp2 w2 :
  assoc "metadata" dprops = VObj mprops ->
  truthy (assoc "orderId" mprops) = true ->
  truthy (assoc "customerPhone" mprops) = true ->
  truthy (assoc "customerName" mprops) = true ->
  updateOrderPaymentStatus (assoc "orderId" mprops) PAID
    (assoc "reference" dprops) (assoc "amount" dprops) w = (inr resp, w1) ->
  success resp = true ->
  updateOrderStatus (assoc "orderId" mprops) CONFIRMED "system"
    "Payment confirmed - Order ready for pickup" w1 = (inr resp2, w2) ->
  exists w' t,
    handlePaymentSuccess (VObj dprops) w = (inr tt, w', t)
    /\ notifications t
       = [WaSendPickupConfirmation (assoc "customerPhone" mprops)
            (assoc "customerName" mprops)
            (if truthy (assoc "orderNumber" mprops)
             then assoc "orderNumber" mprops
             else assoc "orderId" mprops)].
Proof.
  intros Hm Ht Hphone Hname Hpay Hsucc Hconf.
  assert (Hmd : get (VObj dprops) "metadata" = inr (VObj mprops))
    by (simpl; rewrite Hm; reflexivity).
  rewrite (handlePaymentSuccess_confirmed (VObj dprops) w
             (assoc "reference" dprops) (assoc "amount" dprops) (VObj mprops)
             (assoc "orderId" mprops) (assoc "customerPhone" mprops)
             (assoc "customerName" mprops) (assoc "orderNumber" mprops)
             resp w1 resp2 w2 eq_refl eq_refl Hmd eq_refl Ht eq_refl eq_refl
             eq_refl Hpay Hsucc Hconf).
  rewrite Hphone, Hname. simpl.
  destruct (sendPickupConfirmation _ _ _ w2) as [[err|[]] w3];
    eexists _, _; (split; [reflexivity|]); reflexivity.
Qed.

(** X5: when the payment-status write of a charge.success succeeds and the
    order-status write then throws, the handler returns normally and no
    notification is sent: the payment write stays, the error is logged. *)
Theorem status_write_failure_skips_notification
    (dprops mprops : list (string * value)) (w : W) resp w1 err w2 :
  assoc "metadata" dprops = VObj mprops ->
  truthy (assoc "orderId" mprops) = true ->
  updateOrderPaymentStatus (assoc "orderId" mprops) PAID
    (assoc "reference" dprops) (assoc "amount" dprops) w = (inr resp, w1) ->
  success resp = true ->
  updateOrderStatus (assoc "orderId" mprops) CONFIRMED "system"
    "Payment confirmed - Order ready for pickup" w1 = (inl err, w2) ->
  exists t,
    handlePaymentSuccess (VObj dprops) w = (inr tt, w2, t)
    /\ db_writes t
       = [DbUpdateOrderPaymentStatus (assoc "orderId" mprops) PAID
            (assoc "reference" dprops) (assoc "amount" dprops);
          DbUpdateOrderStatus (assoc "orderId" mprops) CONFIRMED "system"
            "Payment confirmed - Order ready for pickup"]
    /\ notifications t = []
    /\ In (ConsoleError "Error handling payment success:" (Some err)) t.
Proof.
  intros Hm Ht Hpay Hsucc Hconf.
  assert (Hmd : get (VObj dprops) "metadata" = inr (VObj mprops))
    by (simpl; rewrite Hm; reflexivity).
  eexists. split.
  - exact (handlePaymentSuccess_status_throws (VObj dprops) w _ _ _ _
             resp w1 err w2 eq_refl eq_refl Hmd eq_refl Ht Hpay Hsucc Hconf).
  - split; [reflexivity|]. split; [reflexivity|]. simpl. auto.
Qed.


(** X6: a charge.failed event whose data has no metadata, or whose metadata
    has no truthy orderId, leads to no database write and no notification;
    the world is left as it was. *)
Theorem payment_failed_without_order (data : value) (w : W) :
  ~ (exists md oid, get data "metadata" = inr md
       /\ get_opt md "orderId" = inr oid /\ truthy oid = true) ->
  exists t, handlePaymentFailed data w = (inr tt, w, t)
            /\ db_writes t = [] /\ notifications t = [].
Proof.
  intros Hno.
  destruct (nullish data) eqn:Hn.
  - exists [ConsoleError "Error handling payment failure:"
              (Some (TypeError "reference"))].
    split; [destruct data; try discriminate; reflexivity|].
    split; reflexivity.
  - destruct (get_total data "reference" Hn) as [ref Href].
    destruct (get_total data "metadata" Hn) as [md Hmd].
    destruct (get_opt_total md "orderId") as [oid Hoid].
    destruct (truthy oid) eqn:Ht.
    + exfalso. apply Hno. exists md, oid. auto.
    + exists [ConsoleError "No orderId in payment metadata" None].
      split; [|split; reflexivity].
      unfold handlePaymentFailed, try_catch, bind, lift, emit.
      rewrite Href, Hmd, Hoid, Ht. reflexivity.
Qed.

(** X7: the charge.failed handler does not look at the result of its write:
    when the write returns with success = false and the metadata has a
    phone and a name, the payment reminder is sent all the same. *)
Theorem reminder_sent_after_failed_write
    (dprops mprops : list (string * value)) (w : W) resp w1 :
  assoc "metadata" dprops = VObj mprops ->
  truthy (assoc "orderId" mprops) = true ->
  truthy (assoc "customerPhone" mprops) = true ->
  truthy (assoc "customerName" mprops) = true ->
  updateOrderPaymentStatus (assoc "orderId" mprops) FAILED
    (assoc "reference" dprops) (VNum 0) w = (inr resp, w1) ->
  success resp = false ->
  exists w' t,
    handlePaymentFailed (VObj dprops) w = (inr tt, w', t)
    /\ notifications t
       = [WaSendPaymentReminder (assoc "customerPhone" mprops)
            (assoc "customerName" mprops)
            (js_or (assoc "orderNumber" mprops) (assoc "orderId" mprops))
            (js_or (assoc "amount" mprops) (VNum 0))].
Proof.
  intros Hm Ht Hphone Hname Hupd _.
  assert (Hmd : get (VObj dprops) "metadata" = inr (VObj mprops))
    by (simpl; rewrite Hm; reflexivity).
  destruct (handlePaymentFailed_shape (VObj dprops) w
              (assoc "reference" dprops) (VObj mprops) (assoc "orderId" mprops)
              (assoc "customerPhone" mprops) (assoc "customerName" mprops)
              (assoc "orderNumber" mprops) (assoc "amount" mprops)
              eq_refl Hmd eq_refl Ht eq_refl eq_refl eq_refl eq_refl)
    as (w' & t & Hrun & _ & Hnot).
  exists w', t. split; [exact Hrun|].
  rewrite Hnot, Hupd, Hphone, Hname. reflexivity.
Qed.

Ltac close_trace Hrun Hin :=
  injection Hrun as <- <- <-; simpl in Hin;
  repeat (destruct Hin as [<-|Hin]; [simpl; auto|]); contradiction.

(** X8: whatever the services do, the charge.success handler writes no
    payment status other than paid and no order status other than
    confirmed (as [system]), and sends no payment reminder; the
    charge.failed handler writes payment status failed with amount 0 only,
    never writes the order status and never sends a pickup confirmation. *)
Theorem handlers_stay_in_their_lane (data : value) (w : W) :
  (forall r w' t e, handlePaymentSuccess data w = (r, w', t) ->
                    In e t -> success_call e)
  /\ (forall r w' t e, handlePaymentFailed data w = (r, w', t) ->
                       In e t -> failure_call e).
Proof.
  destruct (nullish data) eqn:Hn.
  { split; intros r w' t e Hrun Hin;
      (destruct data; try discriminate; cbv in Hrun; close_trace Hrun Hin). }
  destruct (get_total data "reference" Hn) as [ref Href].
  destruct (get_total data "amount" Hn) as [amt Hamt].
  destruct (get_total data "customer" Hn) as [cust Hcust].
  destruct (get_total data "metadata" Hn) as [md Hmd].
  destruct (get_opt_total md "orderId") as [oid Hoid].
  destruct (truthy oid) eqn:Ht.
  2:{ split; intros r w' t e Hrun Hin.
      - unfold handlePaymentSuccess, try_catch, bind, lift, emit in Hrun.
        rewrite Href, Hamt, Hcust, Hmd, Hoid, Ht in Hrun. simpl in Hrun.
        close_trace Hrun Hin.
      - unfold handlePaymentFailed, try_catch, bind, lift, emit in Hrun.
        rewrite Href, Hmd, Hoid, Ht in Hrun. simpl in Hrun.
        close_trace Hrun Hin. }
  assert (Hmn : nullish md = false).
  { apply get_opt_truthy in Hoid; [|exact Ht].
    eapply get_inr_nullish; eassumption. }
  destruct (get_total md "customerPhone" Hmn) as [phone Hphone].
  destruct (get_total md "customerName" Hmn) as [name Hname].
  destruct (get_total md "orderNumber" Hmn) as [num Hnum].
  destruct (get_total md "amount" Hmn) as [mamt Hmamt].
  split; intros r w' t e Hrun Hin.
  - unfold handlePaymentSuccess, try_catch, bind, lift, emit, call, ret in Hrun.
    rewrite Href, Hamt, Hcust, Hmd, Hoid, Ht in Hrun. simpl in Hrun.
    destruct (updateOrderPaymentStatus oid PAID ref amt w) as [[err|resp] w1];
      [close_trace Hrun Hin|].
    destruct (success resp); [|close_trace Hrun Hin].
    destruct (updateOrderStatus oid CONFIRMED "system"
                "Payment confirmed - Order ready for pickup" w1)
      as [[err|resp2] w2]; simpl in Hrun; [close_trace Hrun Hin|].
    rewrite Hphone, Hname in Hrun.
    destruct (truthy phone && truthy name); simpl in Hrun;
      [|close_trace Hrun Hin].
    rewrite Hnum in Hrun.
    destruct (sendPickupConfirmation phone name (js_or num oid) w2)
      as [[err|[]] w3]; simpl in Hrun; close_trace Hrun Hin.
  - unfold handlePaymentFailed, try_catch, bind, lift, emit, call, ret in Hrun.
    rewrite Href, Hmd, Hoid, Ht in Hrun. simpl in Hrun.
    destruct (updateOrderPaymentStatus oid FAILED ref (VNum 0) w)
      as [[err|resp] w1]; simpl in Hrun; [close_trace Hrun Hin|].
    rewrite Hphone, Hname in Hrun.
    destruct (truthy phone && truthy name); simpl in Hrun;
      [|close_trace Hrun Hin].
    rewrite Hnum, Hmamt in Hrun.
    destruct (sendPaymentReminder phone name (js_or num oid)
                (js_or mamt (VNum 0)) w1) as [[err|[]] w2];
      simpl in Hrun; close_trace Hrun Hin.
Qed.

End MoreRouteFacts.

(** * Further properties on the document store *)

Section MoreStoreFacts.

(** The failure handler once the metadata names an order and the write
    returned. *)
Lemma handlePaymentFailed_exact {W : Type} {db : DatabaseService W}
    {wa : WhatsappService W} (data : value) (w : W)
    (ref md oid phone name num amt : value) resp w1 :
  get data "reference" = inr ref -> get data "metadata" = inr md ->
  get md "orderId" = inr oid -> truthy oid = true ->
  get md "customerPhone" = inr phone -> get md "customerName" = inr name ->
  get md "orderNumber" = inr num -> get md "amount" = inr amt ->
  updateOrderPaymentStatus oid FAILED ref (VNum 0) w = (inr resp, w1) ->
  handlePaymentFailed data w
  = if truthy phone && truthy name then
      match sendPaymentReminder phone name (js_or num oid)
              (js_or amt (VNum 0)) w1 with
      | (inl err, w2) =>
          (inr tt, w2,
           [DbUpdateOrderPaymentStatus oid FAILED ref (VNum 0);
            WaSendPaymentReminder phone name (js_or num oid)
              (js_or amt (VNum 0));
            ConsoleError "Error handling payment failure:" (Some err)])
      | (inr _, w2) =>
          (inr tt, w2,
           [DbUpdateOrderPaymentStatus oid FAILED ref (VNum 0);
            WaSendPaymentReminder phone name (js_or num oid)
              (js_or amt (VNum 0));
            ConsoleLog "Payment failed for order" oid])
      end
    else
      (inr tt, w1,
       [DbUpdateOrderPaymentStatus oid FAILED ref (VNum 0);
        ConsoleLog "Payment failed for order" oid]).
Proof.
  intros Href Hmd Hoid Ht Hphone Hname Hnum Hamt Hupd.
  assert (Hoid' : get_opt md "orderId" = inr oid).
  { unfold get_opt. rewrite (get_inr_nullish _ _ _ Hoid). exact Hoid. }
  unfold handlePaymentFailed, try_catch, bind, lift, emit, call, ret.
  rewrite Href, Hmd, Hoid', Ht. simpl. rewrite Hupd. simpl.
  rewrite Hphone, Hname.
  destruct (truthy phone && truthy name); simpl; [|reflexivity].
  rewrite Hnum, Hamt.
  destruct (sendPaymentReminder phone name (js_or num oid)
              (js_or amt (VNum 0)) w1) as [[err|[]] w2]; reflexivity.
Qed.

Lemma handlePaymentFailed_on_store (dprops mprops : list (string * value))
    (s : DocumentStore) (id : string) (o : Order) :
  assoc "metadata" dprops = VObj mprops ->
  assoc "orderId" mprops = VStr id -> id <> EmptyString ->
  orders s !! id = Some o ->
  exists t,
    handlePaymentFailed (VObj dprops) s
    = (inr tt, put_order id (set_paymentStatus FAILED o) s, t).
Proof.
  intros Hm Hid Hne Ho.
  assert (Hmd : get (VObj dprops) "metadata" = inr (VObj mprops))
    by (simpl; rewrite Hm; reflexivity).
  assert (Hoid : get (VObj mprops) "orderId" = inr (VStr id))
    by (simpl; rewrite Hid; reflexivity).
  assert (Ht : truthy (VStr id) = true)
    by (simpl; rewrite (eqb_empty_false _ Hne); reflexivity).
  rewrite (handlePaymentFailed_exact (VObj dprops) s (assoc "reference" dprops)
             (VObj mprops) (VStr id) (assoc "customerPhone" mprops)
             (assoc "customerName" mprops) (assoc "orderNumber" mprops)
             (assoc "amount" mprops) ok_response
             (put_order id (set_paymentStatus FAILED o) s)
             eq_refl Hmd Hoid Ht eq_refl eq_refl eq_refl eq_refl).
  - destruct (truthy _ && truthy _); simpl; eauto.
  - apply updateDocument_found. exact Ho.
Qed.

(** X9: on the document store, a charge.failed for an order of the store
    overwrites its paymentStatus with failed and nothing else: the order's
    status, customer, number and amounts, and every other order, are as
    they were. *)
Theorem charge_failed_touches_payment_status_only
    (dprops mprops : list (string * value)) (s : DocumentStore)
    (id : string) (o : Order) :
  assoc "metadata" dprops = VObj mprops ->
  assoc "orderId" mprops = VStr id -> id <> EmptyString ->
  orders s !! id = Some o ->
  exists s' t o',
    handlePaymentFailed (VObj dprops) s = (inr tt, s', t)
    /\ orders s' !! id = Some o'
    /\ paymentStatus o' = FAILED
    /\ status o' = status o /\ customerId o' = customerId o
    /\ orderNumber o' = orderNumber o
    /\ totalAmount o' = totalAmount o
    /\ discountAmount o' = discountAmount o
    /\ finalAmount o' = finalAmount o
    /\ (forall id', id' <> id -> orders s' !! id' = orders s !! id').
Proof.
  intros Hm Hid Hne Ho.
  destruct (handlePaymentFailed_on_store dprops mprops s id o Hm Hid Hne Ho)
    as [t Hrun].
  exists (put_order id (set_paymentStatus FAILED o) s), t,
         (set_paymentStatus FAILED o).
  split; [exact Hrun|]. split; [apply orders_put_order|].
  repeat (split; [reflexivity|]).
  intros id' Hid'. apply orders_put_order_ne. congruence.
Qed.

(** X10: on the document store, a charge.failed processed after a
    charge.success for the same order leaves the order with paymentStatus
    failed and status still confirmed: the later event does not undo the
    confirmation. *)
Theorem failed_after_success_stays_confirmed
    (dprops mprops dprops' mprops' : list (string * value))
    (s : DocumentStore) (id : string) (o : Order) :
  assoc "metadata" dprops = VObj mprops ->
  assoc "orderId" mprops = VStr id ->
  assoc "metadata" dprops' = VObj mprops' ->
  assoc "orderId" mprops' = VStr id ->
  id <> EmptyString ->
  orders s !! id = Some o ->
  exists s1 t1 s2 t2 o2,
    handlePaymentSuccess (VObj dprops) s = (inr tt, s1, t1)
    /\ handlePaymentFailed (VObj dprops') s1 = (inr tt, s2, t2)
    /\ orders s2 !! id = Some o2
    /\ paymentStatus o2 = FAILED /\ status o2 = CONFIRMED.
Proof.
  intros Hm Hid Hm' Hid' Hne Ho.
  assert (Hmd : get (VObj dprops) "metadata" = inr (VObj mprops))
    by (simpl; rewrite Hm; reflexivity).
  assert (Hoid : get (VObj mprops) "orderId" = inr (VStr id))
    by (simpl; rewrite Hid; reflexivity).
  assert (Ht : truthy (VStr id) = true)
    by (simpl; rewrite (eqb_empty_false _ Hne); reflexivity).
  pose proof (handlePaymentSuccess_on_store (VObj dprops) s
                (assoc "reference" dprops) (assoc "amount" dprops)
                (VObj mprops) (assoc "customerPhone" mprops)
                (assoc "customerName" mprops) (assoc "orderNumber" mprops)
                id o eq_refl eq_refl Hmd Hoid Ht eq_refl eq_refl eq_refl Ho)
    as Hfirst.
  destruct (handlePaymentFailed_on_store dprops' mprops'
              (put_order id (set_status CONFIRMED (set_paymentStatus PAID o)) s)
              id _ Hm' Hid' Hne (orders_put_order id _ s)) as [t2 Hsecond].
  eexists _, _, _, t2, _. split; [exact Hfirst|]. split; [exact Hsecond|].
  split; [apply orders_put_order|]. split; reflexivity.
Qed.

End MoreStoreFacts.

(** * The invariant on the amounts *)

Section AmountsFacts.

Variable hmac : string -> string -> string.
Variable parse : string -> JsError + value.

Lemma put_order_consistent id o (s : DocumentStore) :
  store_consistent s -> amounts_consistent o ->
  store_consistent (put_order id o s).
Proof.
  intros Hs Ho id' o' Hlook.
  destruct (String.eqb id id') eqn:He.
  - apply String.eqb_eq in He. subst id'.
    rewrite orders_put_order in Hlook. injection Hlook as <-. exact Ho.
  - apply String.eqb_neq in He.
    rewrite (orders_put_order_ne _ _ _ _ He) in Hlook. exact (Hs id' o' Hlook).
Qed.

Lemma handlePaymentSuccess_keeps_amounts (data : value) (s : DocumentStore)
    r s' t :
  handlePaymentSuccess data s = (r, s', t) ->
  store_consistent s -> store_consistent s'.
Proof.
  intros Hrun Hs.
  destruct (handlePaymentSuccess_shape data s)
    as [(t0 & Hrun0 & _) | (ref & amt & md & oid & Href & Hamt & Hmd & Hoid
                            & Ht & Hcase)].
  - rewrite Hrun0 in Hrun. injection Hrun as _ <- _. exact Hs.
  - apply get_opt_truthy in Hoid; [|exact Ht].
    assert (Hmn : nullish md = false) by (eapply get_inr_nullish; eassumption).
    destruct (get_total md "customerPhone" Hmn) as [phone Hphone].
    destruct (get_total md "customerName" Hmn) as [name Hname].
    destruct (get_total md "orderNumber" Hmn) as [num Hnum].
    destruct (classic_found oid s) as [(id & o & -> & Ho) | Hmiss].
    + rewrite (handlePaymentSuccess_on_store data s ref amt md phone name num
                 id o Href Hamt Hmd Hoid Ht Hphone Hname Hnum Ho) in Hrun.
      injection Hrun as _ <- _.
      apply put_order_consistent; [exact Hs|]. exact (Hs id o Ho).
    + destruct (updateDocument_fails oid (set_paymentStatus PAID) s Hmiss)
        as (resp & Hupd & Hfail).
      change (updateDocument oid (set_paymentStatus PAID) s)
        with (updateOrderPaymentStatus oid PAID ref amt s) in Hupd.
      rewrite Hupd, Hfail in Hcase.
      rewrite Hcase in Hrun. injection Hrun as _ <- _. exact Hs.
Qed.

Lemma handlePaymentFailed_keeps_amounts (data : value) (s : DocumentStore)
    r s' t :
  handlePaymentFailed data s = (r, s', t) ->
  store_consistent s -> store_consistent s'.
Proof.
  intros Hrun Hs.
  destruct (nullish data) eqn:Hn.
  { destruct data; try discriminate; cbv in Hrun;
      injection Hrun as _ <- _; exact Hs. }
  destruct (get_total data "reference" Hn) as [ref Href].
  destruct (get_total data "metadata" Hn) as [md Hmd].
  destruct (get_opt_total md "orderId") as [oid Hoid].
  destruct (truthy oid) eqn:Ht.
  2:{ unfold handlePaymentFailed, try_catch, bind, lift, emit in Hrun.
      rewrite Href, Hmd, Hoid, Ht in Hrun. simpl in Hrun.
      injection Hrun as _ <- _. exact Hs. }
  apply get_opt_truthy in Hoid; [|exact Ht].
  assert (Hmn : nullish md = false) by (eapply get_inr_nullish; eassumption).
  destruct (get_total md "customerPhone" Hmn) as [phone Hphone].
  destruct (get_total md "customerName" Hmn) as [name Hname].
  destruct (get_total md "orderNumber" Hmn) as [num Hnum].
  destruct (get_total md "amount" Hmn) as [mamt Hmamt].
  assert (Hw : exists resp s1,
             updateOrderPaymentStatus oid FAILED ref (VNum 0) s = (inr resp, s1)
             /\ store_consistent s1).
  { destruct (classic_found oid s) as [(id & o & -> & Ho) | Hmiss].
    - exists ok_response, (put_order id (set_paymentStatus FAILED o) s).
      split; [apply updateDocument_found; exact Ho|].
      apply put_order_consistent; [exact Hs|]. exact (Hs id o Ho).
    - destruct (updateDocument_fails oid (set_paymentStatus FAILED) s Hmiss)
        as (resp & Hupd & _).
      exists resp, s. split; [exact Hupd | exact Hs]. }
  destruct Hw as (resp & s1 & Hupd & Hs1).
  rewrite (handlePaymentFailed_exact data s ref md oid phone name num mamt
             resp s1 Href Hmd Hoid Ht Hphone Hname Hnum Hmamt Hupd) in Hrun.
  destruct (truthy phone && truthy name); simpl in Hrun;
    injection Hrun as _ <- _; exact Hs1.
Qed.

Lemma POST_keeps_amounts env request (s : DocumentStore) r s' t :
  POST hmac parse env request s = (r, s', t) ->
  store_consistent s -> store_consistent s'.
Proof.
  intros Hrun Hs. unfold POST, try_catch in Hrun.
  destruct (x_paystack_signature request) as [sig|];
    [|injection Hrun as _ <- _; exact Hs].
  destruct (String.eqb sig EmptyString);
    [injection Hrun as _ <- _; exact Hs|].
  destruct (negb (verifyPaystackSignature hmac env (text request) sig));
    [injection Hrun as _ <- _; exact Hs|].
  unfold bind, lift, emit, ret in Hrun.
  destruct (parse (text request)) as [e|event];
    [injection Hrun as _ <- _; exact Hs|].
  destruct (get event "event") as [e|kind] eqn:Hk;
    [injection Hrun as _ <- _; exact Hs|].
  destruct (get_total event "data" (get_inr_nullish _ _ _ Hk)) as [data Hd].
  rewrite Hd in Hrun.
  destruct (is_str kind "charge.success").
  { destruct (handlePaymentSuccess data s) as [[r0 s0] t0] eqn:Hh.
    pose proof (handlePaymentSuccess_keeps_amounts _ _ _ _ _ Hh Hs) as Hs0.
    destruct r0 as [e|[]]; simpl in Hrun; injection Hrun as _ <- _; exact Hs0. }
  destruct (is_str kind "charge.failed").
  { destruct (handlePaymentFailed data s) as [[r0 s0] t0] eqn:Hh.
    pose proof (handlePaymentFailed_keeps_amounts _ _ _ _ _ Hh Hs) as Hs0.
    destruct r0 as [e|[]]; simpl in Hrun; injection Hrun as _ <- _; exact Hs0. }
  destruct (is_str kind "transfer.success");
    [simpl in Hrun; injection Hrun as _ <- _; exact Hs|].
  destruct (is_str kind "transfer.failed");
    simpl in Hrun; injection Hrun as _ <- _; exact Hs.
Qed.


End AmountsFacts.

(** * Further properties of the receipt page and the receipt *)

Section MorePageFacts.

Context {W : Type} {db : DatabaseService W}.

(** X11: when the order cannot be loaded the page shows the error view and
    holds no order: with the message [Order not found] when the database
    reports failure or returns no data, and [Failed to load order data]
    when the call throws. *)
Theorem receipt_load_failures (id : string) (user : AuthUser) (w : W) :
  let s' := fst (ReceiptPage.loadOrderData id (Some user) ReceiptPage.initial w) in
  (forall resp w1,
     getOrderById id w = (inr resp, w1) ->
     success resp = false \/ data resp = None ->
     ReceiptPage.render true (Some user) s'
     = ReceiptPage.OrderNotFound "Order not found"
     /\ ReceiptPage.order s' = None)
  /\ (forall err w1,
        getOrderById id w = (inl err, w1) ->
        ReceiptPage.render true (Some user) s'
        = ReceiptPage.OrderNotFound "Failed to load order data"
        /\ ReceiptPage.order s' = None).
Proof.
  unfold ReceiptPage.loadOrderData. split.
  - intros resp w1 Hget Hbad. rewrite Hget.
    destruct Hbad as [Hs|Hd].
    + rewrite Hs. destruct (data resp); split; reflexivity.
    + rewrite Hd. destruct (success resp); split; reflexivity.
  - intros err w1 Hget. rewrite Hget. split; reflexivity.
Qed.

(** X12: for the owner of the order, the receipt is shown with the
    catalogue when the catalogue loads, and with an empty catalogue when
    the catalogue call reports failure; when that call throws, the page
    shows [Failed to load order data] although the order is the user's. *)
Theorem receipt_for_owner (id : string) (user : AuthUser) (w : W)
    resp w1 (o : Order) (items : list OrderItem) :
  getOrderById id w = (inr resp, w1) ->
  success resp = true -> data resp = Some (o, items) ->
  customerId o = user_id user ->
  let v := ReceiptPage.render true (Some user)
             (fst (ReceiptPage.loadOrderData id (Some user)
                     ReceiptPage.initial w)) in
  (forall sresp w2 svcs,
     getActiveServices w1 = (inr sresp, w2) ->
     success sresp = true -> data sresp = Some svcs ->
     v = ReceiptPage.Receipt o items svcs)
  /\ (forall sresp w2,
        getActiveServices w1 = (inr sresp, w2) ->
        success sresp = false \/ data sresp = None ->
        v = ReceiptPage.Receipt o items [])
  /\ (forall err w2,
        getActiveServices w1 = (inl err, w2) ->
        v = ReceiptPage.OrderNotFound "Failed to load order data").
Proof.
  intros Hget Hsucc Hdata Hown v. subst v.
  unfold ReceiptPage.loadOrderData. rewrite Hget, Hsucc, Hdata.
  change (user_id <$> Some user) with (Some (user_id user)).
  assert (Hd : ReceiptPage.differs (customerId o) (Some (user_id user)) = false).
  { unfold ReceiptPage.differs. rewrite Hown, String.eqb_refl. reflexivity. }
  rewrite Hd. split; [|split].
  - intros sresp w2 svcs Hsv Hs Hdt. rewrite Hsv, Hs, Hdt. reflexivity.
  - intros sresp w2 Hsv [Hs|Hdt]; rewrite Hsv.
    + rewrite Hs. destruct (data sresp); reflexivity.
    + rewrite Hdt. destruct (success sresp); reflexivity.
  - intros err w2 Hsv. rewrite Hsv. reflexivity.
Qed.

(** X13: loading keeps the page's order the user's own, from any state: the
    order held afterwards is the one held before, or the order the database
    returned for this identifier, whose customerId is the user's. *)
Theorem loadOrderData_keeps_ownership (id : string) (user : option AuthUser)
    (s : ReceiptPage.State) (w : W) :
  let s' := fst (ReceiptPage.loadOrderData id user s w) in
  ReceiptPage.order s' = ReceiptPage.order s
  \/ exists o items resp w1 u,
       ReceiptPage.order s' = Some o
       /\ getOrderById id w = (inr resp, w1)
       /\ data resp = Some (o, items)
       /\ user = Some u /\ customerId o = user_id u.
Proof.
  unfold ReceiptPage.loadOrderData.
  destruct (getOrderById id w) as [[err|resp] w1] eqn:Hget; [left; reflexivity|].
  destruct (success resp); [|left; reflexivity].
  destruct (data resp) as [[o items]|] eqn:Hdata; [|left; reflexivity].
  destruct (ReceiptPage.differs (customerId o) (user_id <$> user)) eqn:Hdiff;
    [left; reflexivity|].
  destruct user as [u|]; [|discriminate].
  apply differs_false in Hdiff.
  right. exists o, items, resp, w1, u.
  split; [|auto].
  destruct (getActiveServices w1) as [[err|sresp] w2]; [reflexivity|].
  destruct (success sresp), (data sresp); reflexivity.
Qed.

(** X14: loading never clears the error: from a state that already holds
    an error message, the page shows the error view afterwards even when
    the order loads and belongs to the user. *)
Theorem stale_error_hides_receipt (id : string) (user : AuthUser)
    (s : ReceiptPage.State) (w : W) :
  ReceiptPage.error s <> EmptyString ->
  exists msg,
    msg <> EmptyString
    /\ ReceiptPage.render true (Some user)
         (fst (ReceiptPage.loadOrderData id (Some user) s w))
       = ReceiptPage.OrderNotFound msg.
Proof.
  intros He.
  assert (Hshow : forall s0, ReceiptPage.error s0 <> EmptyString ->
            ReceiptPage.render true (Some user)
              (ReceiptPage.setIsLoading false s0)
            = ReceiptPage.OrderNotFound (ReceiptPage.error s0)).
  { intros s0 H0. unfold ReceiptPage.render. simpl.
    rewrite (eqb_empty_false _ H0). reflexivity. }
  unfold ReceiptPage.loadOrderData.
  destruct (getOrderById id w) as [[err|resp] w1].
  { eexists. split; [|apply Hshow]; simpl; discriminate. }
  destruct (success resp);
    [|eexists; split; [|apply Hshow]; simpl; discriminate].
  destruct (data resp) as [[o items]|];
    [|eexists; split; [|apply Hshow]; simpl; discriminate].
  destruct (ReceiptPage.differs (customerId o) (user_id <$> Some user));
    [eexists; split; [|apply Hshow]; simpl; discriminate|].
  destruct (getActiveServices w1) as [[err|sresp] w2];
    [eexists; split; [|apply Hshow]; simpl; discriminate|].
  destruct (success sresp), (data sresp);
    (eexists; split; [|apply Hshow; simpl; exact He]; simpl; exact He).
Qed.

End MorePageFacts.

(** X15: the services block shows an item only if a service of the
    catalogue has the item's serviceId: the lines shown are as many as
    those items, each with the item's own quantity and prices under the
    name of the first such service; with an empty catalogue no item is
    shown. *)
Theorem item_lines_shown (orderItems : list OrderItem)
    (services : list Service) :
  length (omap id (OrderReceipt.item_lines orderItems services))
  = length (List.filter
              (fun item => existsb (fun s => String.eqb (service_id s)
                                               (serviceId item)) services)
              orderItems)
  /\ (forall line,
        In (Some line) (OrderReceipt.item_lines orderItems services) ->
        exists item service,
          In item orderItems /\ In service services
          /\ service_id service = serviceId item
          /\ line = (service_name service, quantity item, unitPrice item,
                     totalPrice item))
  /\ omap id (OrderReceipt.item_lines orderItems []) = [].
Proof.
  assert (Hfind : forall sid,
            match OrderReceipt.getServiceById services sid with
            | Some svc => In svc services /\ service_id svc = sid
                          /\ existsb (fun s => String.eqb (service_id s) sid)
                               services = true
            | None => existsb (fun s => String.eqb (service_id s) sid)
                        services = false
            end).
  { intros sid. unfold OrderReceipt.getServiceById.
    induction services as [|s rest IH]; simpl; [reflexivity|].
    destruct (String.eqb (service_id s) sid) eqn:He; simpl.
    - split; [auto|]. split; [apply String.eqb_eq; exact He | reflexivity].
    - destruct (find _ rest); [|exact IH].
      destruct IH as (Hin & Hid & Hex). auto. }
  split; [|split].
  - induction orderItems as [|item rest IH]; simpl; [reflexivity|].
    specialize (Hfind (serviceId item)).
    destruct (OrderReceipt.getServiceById services (serviceId item)).
    + destruct Hfind as (_ & _ & ->). simpl. f_equal. exact IH.
    + rewrite Hfind. exact IH.
  - intros line Hin. unfold OrderReceipt.item_lines in Hin.
    apply in_map_iff in Hin. destruct Hin as (item & Hline & Hitem).
    specialize (Hfind (serviceId item)).
    destruct (OrderReceipt.getServiceById services (serviceId item)) as [svc|];
      [|discriminate].
    destruct Hfind as (Hin & Hid & _). injection Hline as <-.
    exists item, svc. auto.
  - induction orderItems as [|item rest IH]; simpl; [reflexivity | exact IH].
Qed.

(** * Properties of the payment callback page *)

Section CallbackFacts.

Import PaymentCallbackPage.

Context {W : Type} {pay : PaymentService W} {db : DatabaseService W}.

Ltac run_effect :=
  unfold verifyPayment_effect, Eff.try_catch, Eff.bind, Eff.call, Eff.ret,
    Eff.emit.

(** X16: whatever the services do, the effect returns, the page leaves the
    verifying state and holds a result: afterwards it shows the success
    view or the failure view, never the spinner. *)
Theorem callback_always_settles (reference orderId : option string)
    (s : State) (w : W) :
  exists st redirect w' t r,
    verifyPayment_effect reference orderId s w = (inr (st, redirect), w', t)
    /\ isVerifying st = false
    /\ verificationResult st = Some r
    /\ render st <> Verifying.
Proof.
  run_effect.
  destruct (present reference) as [ref|];
    [|repeat eexists; simpl; discriminate].
  destruct (verifyPayment ref w) as [[err|resp] w1];
    [repeat eexists; simpl; discriminate|].
  simpl.
  destruct (api_success resp);
    [|repeat eexists; simpl; discriminate].
  destruct (api_data resp) as [pd|];
    [|repeat eexists; simpl; discriminate].
  destruct (String.eqb (status pd) "success");
    [|repeat eexists; simpl; discriminate].
  destruct (present orderId) as [oid|];
    [|repeat eexists; simpl; discriminate].
  destruct (getOrderById oid w1) as [[err|oresp] w2];
    [repeat eexists; simpl; discriminate|].
  simpl.
  destruct (api_success oresp), (api_data oresp) as [[o items]|];
    repeat eexists; simpl; discriminate.
Qed.

(** X17: the page reports success only when the gateway's verification of
    the reference in the query returned success with data whose status is
    [success]; the query parameters alone never yield it. *)
Theorem callback_success_needs_verification (reference orderId : option string)
    (s : State) (w : W) st redirect w' t r :
  verifyPayment_effect reference orderId s w = (inr (st, redirect), w', t) ->
  verificationResult st = Some r -> success r = true ->
  exists ref resp w1 pd,
    present reference = Some ref
    /\ verifyPayment ref w = (inr resp, w1)
    /\ api_success resp = true /\ api_data resp = Some pd
    /\ status pd = "success".
Proof.
  run_effect.
  destruct (present reference) as [ref|];
    [|intros [= <- _ _ _] [= <-]; discriminate].
  destruct (verifyPayment ref w) as [[err|resp] w1] eqn:Hv;
    [intros [= <- _ _ _] [= <-]; discriminate|].
  simpl.
  destruct (api_success resp) eqn:Hs;
    [|intros [= <- _ _ _] [= <-]; discriminate].
  destruct (api_data resp) as [pd|] eqn:Hd;
    [|intros [= <- _ _ _] [= <-]; discriminate].
  destruct (String.eqb (status pd) "success") eqn:Hst;
    [|intros [= <- _ _ _] [= <-]; discriminate].
  intros _ _ _. exists ref, resp, w1, pd.
  repeat split; try assumption. apply String.eqb_eq. exact Hst.
Qed.

(** X18: without a reference in the query (absent or empty) no service is
    called: the page reports [Payment reference not found] and schedules no
    redirect. *)
Theorem callback_without_reference (reference orderId : option string)
    (s : State) (w : W) :
  present reference = None ->
  exists st,
    verifyPayment_effect reference orderId s w = (inr (st, None), w, [])
    /\ render st = PaymentFailed (Some "Payment reference not found").
Proof.
  intros Hp. run_effect. rewrite Hp. eexists. split; reflexivity.
Qed.

(** X19: once the gateway has verified the payment, the order lookup only
    supplies the order number: when it reports failure the page still shows
    success, links to the order and schedules the redirect to it; when it
    throws, the page reports [An error occurred while verifying payment]
    and schedules nothing, although the payment was verified. *)
Theorem callback_order_lookup (reference orderId : option string)
    (s : State) (w : W) ref oid resp w1 pd :
  present reference = Some ref -> present orderId = Some oid ->
  verifyPayment ref w = (inr resp, w1) ->
  api_success resp = true -> api_data resp = Some pd ->
  status pd = "success" ->
  (forall oresp w2,
     getOrderById oid w1 = (inr oresp, w2) ->
     api_success oresp = false \/ api_data oresp = None ->
     exists st t,
       verifyPayment_effect reference orderId s w
       = (inr (st, Some ("/orders/" ++ oid ++ "?payment=success")), w2, t)
       /\ render st
          = PaymentSuccessful
              "Payment successful! Your order has been confirmed."
              None (Some ("/orders/" ++ oid)))
  /\ (forall err w2,
        getOrderById oid w1 = (inl err, w2) ->
        exists st t,
          verifyPayment_effect reference orderId s w = (inr (st, None), w2, t)
          /\ render st
             = PaymentFailed
                 (Some "An error occurred while verifying payment.")).
Proof.
  intros Hr Ho Hv Hs Hd Hst.
  split.
  - intros oresp w2 Hget Hbad. run_effect.
    rewrite Hr, Hv. simpl. rewrite Hs, Hd, Hst, Ho. simpl.
    rewrite Hget. simpl.
    destruct Hbad as [Hb|Hb]; rewrite Hb;
      try destruct (api_success oresp); simpl;
      (eexists _, _; split; [reflexivity|];
       unfold render; simpl; rewrite Ho; reflexivity).
  - intros err w2 Hget. run_effect.
    rewrite Hr, Hv. simpl. rewrite Hs, Hd, Hst, Ho. simpl.
    rewrite Hget. simpl.
    eexists _, _. split; reflexivity.
Qed.

(** X20: a redirect is scheduled only with a success result and an orderId
    in the query, and then to that order's page with [payment=success]. *)
Theorem callback_redirect (reference orderId : option string)
    (s : State) (w : W) st url w' t :
  verifyPayment_effect reference orderId s w = (inr (st, Some url), w', t) ->
  exists oid r,
    present orderId = Some oid
    /\ url = "/orders/" ++ oid ++ "?payment=success"
    /\ verificationResult st = Some r /\ success r = true.
Proof.
  run_effect.
  destruct (present reference) as [ref|]; [|discriminate].
  destruct (verifyPayment ref w) as [[err|resp] w1]; [discriminate|].
  simpl.
  destruct (api_success resp); [|discriminate].
  destruct (api_data resp) as [pd|]; [|discriminate].
  destruct (String.eqb (status pd) "success"); [|discriminate].
  destruct (present orderId) as [oid|] eqn:Ho.
  - destruct (getOrderById oid w1) as [[err|oresp] w2]; [discriminate|].
    simpl.
    destruct (api_success oresp), (api_data oresp) as [[o items]|]; simpl;
      intros [= <- <- _ _]; eexists _, _; repeat split.
  - simpl. discriminate.
Qed.

End CallbackFacts.

(** * Properties of the authentication service *)

Section AuthFacts.

Import AuthService.

Variable cfg : AppwriteConfig.
Variable registrationSchema : RegisterCredentials -> Validation.
Variable loginSchema : LoginCredentials -> Validation.
Variable validatePhone : string -> bool.
Variable parse_value : value -> JsError + value.
Context {W : Type} {sdk : Appwrite W}.

Ltac run_auth :=
  unfold loginAdmin, loginCustomer, registerCustomer, getUserProfile, logout,
    Eff.try_catch, Eff.bind, Eff.call, Eff.ret, Eff.emit, Eff.lift.

Lemma caught_returns {E A : Type} (m : Eff.t E W A)
    (h : JsError -> Eff.t E W A) (w : W) :
  (forall e w0, exists a w1 t1, h e w0 = (inr a, w1, t1)) ->
  exists a w' t, Eff.try_catch m h w = (inr a, w', t).
Proof.
  intros Hh. unfold Eff.try_catch.
  destruct (m w) as [[[e|a] w1] t1]; [|eauto].
  destruct (Hh e w1) as (a & w2 & t2 & ->). eauto.
Qed.

(** X21: neither login, the logout nor the profile read ever throws,
    whether the SDK's calls return or throw: each always returns a result
    object.  Their [catch] blocks do not read the value caught, and the
    [catch] blocks of the admin login call [logout], which itself swallows
    what it catches. *)
Theorem auth_methods_return (now userId : string) (creds : LoginCredentials)
    (w : W) :
  (exists r w' t, loginCustomer loginSchema creds w = (inr r, w', t))
  /\ (exists r w' t, loginAdmin cfg loginSchema now creds w = (inr r, w', t))
  /\ (exists r w' t, logout w = (inr r, w', t))
  /\ (exists r w' t, getUserProfile cfg parse_value userId w = (inr r, w', t)).
Proof.
  repeat split; apply caught_returns; intros e w0; cbv; eauto.
Qed.

(** X22: an admin login succeeds only for an account whose document in the
    admin collection was read and is active: the calls are then the session
    creation, the account read, the document read and the last-login
    update, in this order (the session is not deleted), and the role
    returned is the document's. *)
Theorem loginAdmin_success (now : string) (creds : LoginCredentials) (w : W)
    resp w' t :
  loginAdmin cfg loginSchema now creds w = (inr resp, w', t) ->
  success resp = true ->
  exists user doc active role w1 w2 w3,
    loginSchema creds = Valid
    /\ account_createEmailPasswordSession (login_email creds)
         (login_password creds) w = (inr tt, w1)
    /\ account_get w1 = (inr user, w2)
    /\ databases_getDocument (databaseId cfg) (collections_adminUsers cfg)
         (acc_id user) w2 = (inr doc, w3)
    /\ get doc "isActive" = inr active /\ truthy active = true
    /\ get doc "role" = inr role
    /\ data resp
       = Some (authUser_of user (str_or (acc_phone user) EmptyString), role)
    /\ t = [AccountCreateEmailPasswordSession (login_email creds)
              (login_password creds);
            AccountGet;
            DatabasesGetDocument (databaseId cfg) (collections_adminUsers cfg)
              (acc_id user);
            DatabasesUpdateDocument (databaseId cfg)
              (collections_adminUsers cfg) (acc_id user)
              (VObj [("lastLogin", VStr now)])].
Proof.
  run_auth.
  destruct (loginSchema creds) eqn:Hv; [|intros [= <- _ _]; discriminate].
  destruct (account_createEmailPasswordSession (login_email creds)
              (login_password creds) w) as [[e|[]] w1] eqn:Hs;
    [intros [= <- _ _]; discriminate|].
  destruct (account_get w1) as [[e|user] w2] eqn:Hg;
    [intros [= <- _ _]; discriminate|].
  destruct (databases_getDocument (databaseId cfg) (collections_adminUsers cfg)
              (acc_id user) w2) as [[e|doc] w3] eqn:Hd.
  { destruct (account_deleteSession "current" w3) as [[e'|[]] w4];
      intros [= <- _ _]; discriminate. }
  destruct (get doc "isActive") as [e|active] eqn:Ha.
  { simpl. destruct (account_deleteSession "current" w3) as [[e'|[]] w4];
      intros [= <- _ _]; discriminate. }
  destruct (truthy active) eqn:Ht; simpl.
  2:{ destruct (account_deleteSession "current" w3) as [[e'|[]] w4];
        intros [= <- _ _]; discriminate. }
  destruct (databases_updateDocument (databaseId cfg)
              (collections_adminUsers cfg) (acc_id user)
              (VObj [("lastLogin", VStr now)]) w3) as [[e|d2] w4].
  { simpl. destruct (account_deleteSession "current" w4) as [[e'|[]] w5];
      intros [= <- _ _]; discriminate. }
  destruct (get_total doc "role" (get_inr_nullish _ _ _ Ha)) as [role Hr].
  rewrite Hr. simpl. intros [= <- _ <-] _.
  exists user, doc, active, role, w1, w2, w3. repeat split; auto.
Qed.


(** X23: a login on the admin path by an account that is not an admin (its
    document cannot be read), or whose admin document is not active, is
    refused with the matching message, and the session created for it is
    deleted again before the method returns. *)
Theorem loginAdmin_denied_logs_out (now : string) (creds : LoginCredentials)
    (w : W) w1 user w2 :
  loginSchema creds = Valid ->
  account_createEmailPasswordSession (login_email creds)
    (login_password creds) w = (inr tt, w1) ->
  account_get w1 = (inr user, w2) ->
  (forall err w3,
     databases_getDocument (databaseId cfg) (collections_adminUsers cfg)
       (acc_id user) w2 = (inl err, w3) ->
     loginAdmin cfg loginSchema now creds w
     = (inr (failed "Access denied. Admin privileges required."),
        snd (account_deleteSession "current" w3),
        [AccountCreateEmailPasswordSession (login_email creds)
           (login_password creds);
         AccountGet;
         DatabasesGetDocument (databaseId cfg) (collections_adminUsers cfg)
           (acc_id user);
         AccountDeleteSession "current"]))
  /\ (forall doc active w3,
        databases_getDocument (databaseId cfg) (collections_adminUsers cfg)
          (acc_id user) w2 = (inr doc, w3) ->
        get doc "isActive" = inr active -> truthy active = false ->
        loginAdmin cfg loginSchema now creds w
        = (inr (failed "Admin account is deactivated"),
           snd (account_deleteSession "current" w3),
           [AccountCreateEmailPasswordSession (login_email creds)
              (login_password creds);
            AccountGet;
            DatabasesGetDocument (databaseId cfg) (collections_adminUsers cfg)
              (acc_id user);
            AccountDeleteSession "current"])).
Proof.
  intros Hv Hs Hg. split.
  - intros err w3 Hd. run_auth. rewrite Hv, Hs, Hg, Hd. simpl.
    destruct (account_deleteSession "current" w3) as [[e|[]] w4]; reflexivity.
  - intros doc active w3 Hd Ha Ht. run_auth.
    rewrite Hv, Hs, Hg, Hd, Ha, Ht. simpl.
    destruct (account_deleteSession "current" w3) as [[e|[]] w4]; reflexivity.
Qed.

(** X24: an active admin is refused as well when the last-login update
    throws: the answer is [Access denied. Admin privileges required.] and
    the session is deleted. *)
Theorem loginAdmin_update_failure_denies (now : string)
    (creds : LoginCredentials) (w : W) w1 user w2 doc active w3 err w4 :
  loginSchema creds = Valid ->
  account_createEmailPasswordSession (login_email creds)
    (login_password creds) w = (inr tt, w1) ->
  account_get w1 = (inr user, w2) ->
  databases_getDocument (databaseId cfg) (collections_adminUsers cfg)
    (acc_id user) w2 = (inr doc, w3) ->
  get doc "isActive" = inr active -> truthy active = true ->
  databases_updateDocument (databaseId cfg) (collections_adminUsers cfg)
    (acc_id user) (VObj [("lastLogin", VStr now)]) w3 = (inl err, w4) ->
  loginAdmin cfg loginSchema now creds w
  = (inr (failed "Access denied. Admin privileges required."),
     snd (account_deleteSession "current" w4),
     [AccountCreateEmailPasswordSession (login_email creds)
        (login_password creds);
      AccountGet;
      DatabasesGetDocument (databaseId cfg) (collections_adminUsers cfg)
        (acc_id user);
      DatabasesUpdateDocument (databaseId cfg) (collections_adminUsers cfg)
        (acc_id user) (VObj [("lastLogin", VStr now)]);
      AccountDeleteSession "current"]).
Proof.
  intros Hv Hs Hg Hd Ha Ht Hu. run_auth.
  rewrite Hv, Hs, Hg, Hd, Ha, Ht. simpl. rewrite Hu. simpl.
  destruct (account_deleteSession "current" w4) as [[e|[]] w5]; reflexivity.
Qed.

(** X25: when the session is created and reading the account then throws,
    both logins answer [Invalid email or password] and make no further
    call: the session just created is not deleted. *)
Theorem login_account_read_failure (now : string) (creds : LoginCredentials)
    (w : W) w1 err w2 :
  loginSchema creds = Valid ->
  account_createEmailPasswordSession (login_email creds)
    (login_password creds) w = (inr tt, w1) ->
  account_get w1 = (inl err, w2) ->
  loginAdmin cfg loginSchema now creds w
  = (inr (failed "Invalid email or password"), w2,
     [AccountCreateEmailPasswordSession (login_email creds)
        (login_password creds);
      AccountGet;
      ConsoleError "Admin login error:" err])
  /\ loginCustomer loginSchema creds w
     = (inr (failed "Invalid email or password"), w2,
        [AccountCreateEmailPasswordSession (login_email creds)
           (login_password creds);
         AccountGet;
         ConsoleError "Login error:" err]).
Proof.
  intros Hv Hs Hg. split; run_auth; rewrite Hv, Hs, Hg; reflexivity.
Qed.

(** X26: validation comes before every call to the SDK: credentials the
    schema rejects are answered with the schema's first message, and a
    sign-up whose phone number is not a valid Nigerian number with the
    phone-format message, without any call and with the world unchanged. *)
Theorem validation_precedes_calls (now unique : string)
    (creds : LoginCredentials) (userData : RegisterCredentials) (w : W) :
  (forall msg, loginSchema creds = Invalid msg ->
     loginCustomer loginSchema creds w = (inr (failed msg), w, [])
     /\ loginAdmin cfg loginSchema now creds w = (inr (failed msg), w, []))
  /\ (forall msg, registrationSchema userData = Invalid msg ->
        registerCustomer cfg registrationSchema validatePhone unique userData w
        = (inr (failed msg), w, []))
  /\ (registrationSchema userData = Valid ->
      validatePhone (phone userData) = false ->
      registerCustomer cfg registrationSchema validatePhone unique userData w
      = (inr (failed
                "Invalid Nigerian phone number format. Use +234XXXXXXXXX"),
         w, [])).
Proof.
  split; [|split].
  - intros msg Hv. split; run_auth; rewrite Hv; reflexivity.
  - intros msg Hv. run_auth. rewrite Hv. reflexivity.
  - intros Hv Hp. run_auth. rewrite Hv, Hp. reflexivity.
Qed.

(** X27: a sign-up whose account was created and whose profile document
    then cannot be written is answered with a failure carrying the error's
    message (or the generic one when it is empty); nothing is done about
    the account: it stays created, without profile, session or
    verification mail. *)
Theorem registerCustomer_profile_failure (unique : string)
    (userData : RegisterCredentials) (w : W) acct w1 err w2 :
  registrationSchema userData = Valid ->
  validatePhone (phone userData) = true ->
  account_create unique (email userData) (password userData)
    (firstName userData ++ " " ++ lastName userData) w = (inr acct, w1) ->
  databases_createDocument (databaseId cfg) (collections_users cfg)
    (acc_id acct) (userProfile_doc userData) w1 = (inl err, w2) ->
  registerCustomer cfg registrationSchema validatePhone unique userData w
  = (inr (failed (str_or (error_message err)
                    "Registration failed. Please try again.")),
     w2,
     [AccountCreate unique (email userData) (password userData)
        (firstName userData ++ " " ++ lastName userData);
      DatabasesCreateDocument (databaseId cfg) (collections_users cfg)
        (acc_id acct) (userProfile_doc userData);
      ConsoleError "Registration error:" err]).
Proof.
  intros Hv Hp Hc Hd. run_auth. rewrite Hv, Hp. simpl.
  rewrite Hc, Hd. reflexivity.
Qed.

(** X28: a sign-up succeeds only when the schema and the phone check pass
    and all four calls return, each from the world the one before it left:
    the account creation, the creation of the profile document under the
    identifier of the account just created, the session and the
    verification mail; these are the calls made, in this order, and the
    user returned carries that account's identifier and the phone number
    submitted. *)
Theorem registerCustomer_success (unique : string)
    (userData : RegisterCredentials) (w : W) resp w' t :
  registerCustomer cfg registrationSchema validatePhone unique userData w
  = (inr resp, w', t) ->
  success resp = true ->
  exists acct w1 doc w2 w3,
    registrationSchema userData = Valid
    /\ validatePhone (phone userData) = true
    /\ account_create unique (email userData) (password userData)
         (firstName userData ++ " " ++ lastName userData) w = (inr acct, w1)
    /\ databases_createDocument (databaseId cfg) (collections_users cfg)
         (acc_id acct) (userProfile_doc userData) w1 = (inr doc, w2)
    /\ account_createEmailPasswordSession (email userData)
         (password userData) w2 = (inr tt, w3)
    /\ account_createVerification "http://localhost:3000/verify-email" w3
       = (inr tt, w')
    /\ data resp = Some (authUser_of acct (phone userData))
    /\ t = [AccountCreate unique (email userData) (password userData)
              (firstName userData ++ " " ++ lastName userData);
            DatabasesCreateDocument (databaseId cfg) (collections_users cfg)
              (acc_id acct) (userProfile_doc userData);
            AccountCreateEmailPasswordSession (email userData)
              (password userData);
            AccountCreateVerification "http://localhost:3000/verify-email"].
Proof.
  run_auth.
  destruct (registrationSchema userData) eqn:Hv;
    [|intros [= <- _ _]; discriminate].
  destruct (validatePhone (phone userData)) eqn:Hp; simpl;
    [|intros [= <- _ _]; discriminate].
  destruct (account_create unique (email userData) (password userData)
              (firstName userData ++ " " ++ lastName userData) w)
    as [[e|acct] w1] eqn:Hc; [intros [= <- _ _]; discriminate|].
  destruct (databases_createDocument (databaseId cfg) (collections_users cfg)
              (acc_id acct) (userProfile_doc userData) w1)
    as [[e|doc] w2] eqn:Hd; [intros [= <- _ _]; discriminate|].
  destruct (account_createEmailPasswordSession (email userData)
              (password userData) w2) as [[e|[]] w3] eqn:Hs;
    [intros [= <- _ _]; discriminate|].
  destruct (account_createVerification "http://localhost:3000/verify-email" w3)
    as [[e|[]] w4] eqn:Hm; [intros [= <- _ _]; discriminate|].
  simpl. intros [= <- <- <-] _. exists acct, w1, doc, w2, w3.
  repeat split; assumption.
Qed.

(** X29: the profile read succeeds whenever the document read returns a
    document, whatever its address text: addresses that do not parse are
    replaced by the empty list instead of failing the read, and missing
    counters are returned as 0. *)
Theorem getUserProfile_tolerates_addresses (userId : string) (w : W)
    (props : list (string * value)) w1 :
  databases_getDocument (databaseId cfg) (collections_users cfg) userId w
  = (inr (VObj props), w1) ->
  exists profile,
    getUserProfile cfg parse_value userId w
    = (inr (mkApiResponse true (Some (VObj profile)) None None), w1,
       [DatabasesGetDocument (databaseId cfg) (collections_users cfg) userId])
    /\ assoc "addresses" profile
       = match parse_value (js_or (assoc "addresses" props) (VStr "[]")) with
         | inr parsed => parsed
         | inl _ => VArr []
         end
    /\ assoc "$id" profile = assoc "$id" props
    /\ assoc "totalOrders" profile = js_or (assoc "totalOrders" props) (VNum 0)
    /\ assoc "loyaltyPoints" profile
       = js_or (assoc "loyaltyPoints" props) (VNum 0).
Proof.
  intros Hd. run_auth. rewrite Hd. simpl.
  destruct (parse_value (js_or (assoc "addresses" props) (VStr "[]")))
    as [e|parsed]; simpl; eexists; (split; [reflexivity|]); repeat split.
Qed.

(** X30: a customer login succeeds exactly when the schema accepts the
    credentials and the session creation and the account read both return;
    the user returned is the account read; every failure past validation
    is answered [Invalid email or password], whatever the error was. *)
Theorem loginCustomer_outcome (creds : LoginCredentials) (w : W) resp w' t :
  loginCustomer loginSchema creds w = (inr resp, w', t) ->
  loginSchema creds = Valid ->
  (success resp = true
   /\ exists w1 user,
        account_createEmailPasswordSession (login_email creds)
          (login_password creds) w = (inr tt, w1)
        /\ account_get w1 = (inr user, w')
        /\ data resp
           = Some (authUser_of user (str_or (acc_phone user) EmptyString)))
  \/ (success resp = false
      /\ error resp = Some "Invalid email or password"
      /\ ((exists e w1,
             account_createEmailPasswordSession (login_email creds)
               (login_password creds) w = (inl e, w1))
          \/ (exists w1 e w2,
                account_createEmailPasswordSession (login_email creds)
                  (login_password creds) w = (inr tt, w1)
                /\ account_get w1 = (inl e, w2)))).
Proof.
  intros Hrun Hv. revert Hrun. run_auth. rewrite Hv.
  destruct (account_createEmailPasswordSession (login_email creds)
              (login_password creds) w) as [[e|[]] w1] eqn:Hs.
  { intros [= <- _ _]. right. repeat split. left. eauto. }
  destruct (account_get w1) as [[e|user] w2] eqn:Hg.
  { intros [= <- _ _]. right. repeat split. right. eauto. }
  simpl. intros [= <- <- _]. left. split; [reflexivity|]. eauto.
Qed.

End AuthFacts.

(** * The further properties at sample inputs *)

Lemma POST_other_events_witness :
  signed toy_digest sample_env (signed_request refund_text)
  /\ exists t,
       POST toy_digest sample_parse sample_env (signed_request refund_text)
            sample_store
       = (inr accepted, sample_store, t)
       /\ db_writes t = [] /\ notifications t = [].
Proof.
  split; [apply signed_request_signed|].
  exact (POST_other_events toy_digest sample_parse sample_env
           (signed_request refund_text) sample_store refund_event
           (VStr "refund.processed") (signed_request_signed refund_text)
           eq_refl eq_refl eq_refl eq_refl).
Defined.

Lemma rejection_messages_witness :
  POST toy_digest sample_parse sample_env
       (mkRequest charge_success_text (Some EmptyString)) sample_store
  = (inr (rejection "Missing signature"), sample_store, [])
  /\ POST toy_digest sample_parse sample_env
          (mkRequest charge_success_text (Some "bad")) sample_store
     = (inr (rejection "Invalid signature"), sample_store, []).
Proof.
  split.
  - exact (proj1 (rejection_messages toy_digest sample_parse sample_env
                    (mkRequest charge_success_text (Some EmptyString))
                    sample_store) (or_intror eq_refl)).
  - refine (proj2 (rejection_messages toy_digest sample_parse sample_env
                     (mkRequest charge_success_text (Some "bad"))
                     sample_store) "bad" eq_refl _ eq_refl).
    discriminate.
Defined.

Lemma verify_accepts_exactly_witness :
  verifyPaystackSignature toy_digest sample_env charge_success_text
    (toy_digest "sk_test_secret" charge_success_text) = true
  /\ verifyPaystackSignature toy_digest (mkEnv (Some EmptyString))
       charge_success_text (toy_digest EmptyString charge_success_text)
     = false.
Proof.
  split; [|reflexivity].
  refine (proj2 (verify_accepts_exactly toy_digest sample_env
                   charge_success_text
                   (toy_digest "sk_test_secret" charge_success_text)) _).
  exists "sk_test_secret". split; [reflexivity|]. split; [discriminate|].
  reflexivity.
Defined.

Lemma pickup_confirmation_reference_witness :
  exists w' t,
    handlePaymentSuccess
      (VObj [("reference", VStr "abc123");
             ("metadata",
              VObj [("orderId", VStr "o1"); ("orderNumber", VStr "GAB-0001");
                    ("customerPhone", VStr "+2348000000000");
                    ("customerName", VStr "Ada")])]) sample_store
    = (inr tt, w', t)
    /\ notifications t
       = [WaSendPickupConfirmation (VStr "+2348000000000") (VStr "Ada")
            (VStr "GAB-0001")].
Proof.
  exact (pickup_confirmation_reference
           [("reference", VStr "abc123");
            ("metadata",
             VObj [("orderId", VStr "o1"); ("orderNumber", VStr "GAB-0001");
                   ("customerPhone", VStr "+2348000000000");
                   ("customerName", VStr "Ada")])]
           [("orderId", VStr "o1"); ("orderNumber", VStr "GAB-0001");
            ("customerPhone", VStr "+2348000000000");
            ("customerName", VStr "Ada")]
           sample_store ok_response
           (put_order "o1" (set_paymentStatus PAID order_o1) sample_store)
           ok_response
           (put_order "o1" (set_status CONFIRMED (set_paymentStatus PAID order_o1))
              (put_order "o1" (set_paymentStatus PAID order_o1) sample_store))
           eq_refl eq_refl eq_refl eq_refl eq_refl eq_refl eq_refl).
Defined.

Lemma status_write_failure_skips_notification_witness :
  updateOrderStatus (VStr "o1") CONFIRMED "system"
    "Payment confirmed - Order ready for pickup"
    (with_store (put_order "o1" (set_paymentStatus PAID order_o1))
       (down_backend true false true true))
  = (inl (ServiceError "Service unavailable"),
     with_store (put_order "o1" (set_paymentStatus PAID order_o1))
       (down_backend true false true true))
  /\ exists t,
       handlePaymentSuccess
         (VObj [("reference", VStr "abc123"); ("metadata", ada_metadata)])
         (down_backend true false true true)
       = (inr tt,
          with_store (put_order "o1" (set_paymentStatus PAID order_o1))
            (down_backend true false true true), t)
       /\ db_writes t
          = [DbUpdateOrderPaymentStatus (VStr "o1") PAID (VStr "abc123")
               VUndefined;
             DbUpdateOrderStatus (VStr "o1") CONFIRMED "system"
               "Payment confirmed - Order ready for pickup"]
       /\ notifications t = []
       /\ In (ConsoleError "Error handling payment success:"
                (Some (ServiceError "Service unavailable"))) t.
Proof.
  split; [reflexivity|].
  exact (status_write_failure_skips_notification
           [("reference", VStr "abc123"); ("metadata", ada_metadata)]
           [("orderId", VStr "o1"); ("customerPhone", VStr "+2348000000000");
            ("customerName", VStr "Ada")]
           (down_backend true false true true) ok_response
           (with_store (put_order "o1" (set_paymentStatus PAID order_o1))
              (down_backend true false true true))
           (ServiceError "Service unavailable")
           (with_store (put_order "o1" (set_paymentStatus PAID order_o1))
              (down_backend true false true true))
           eq_refl eq_refl eq_refl eq_refl eq_refl).
Defined.

Lemma payment_failed_without_order_witness :
  ~ (exists md oid,
       get (VObj [("reference", VStr "abc123")]) "metadata" = inr md
       /\ get_opt md "orderId" = inr oid /\ truthy oid = true)
  /\ exists t,
       handlePaymentFailed (VObj [("reference", VStr "abc123")]) sample_store
       = (inr tt, sample_store, t)
       /\ db_writes t = [] /\ notifications t = [].
Proof.
  assert (H : ~ (exists md oid,
                   get (VObj [("reference", VStr "abc123")]) "metadata" = inr md
                   /\ get_opt md "orderId" = inr oid /\ truthy oid = true)).
  { intros (md & oid & Hmd & Hoid & Ht). simpl in Hmd. injection Hmd as <-.
    cbv in Hoid. injection Hoid as <-. discriminate. }
  split; [exact H|].
  exact (payment_failed_without_order (VObj [("reference", VStr "abc123")])
           sample_store H).
Defined.

Lemma reminder_sent_after_failed_write_witness :
  updateOrderPaymentStatus (VStr "o1") FAILED (VStr "abc123") (VNum 0) odd_store
  = (inr (failed_response "Document not found"), odd_store)
  /\ exists w' t,
       handlePaymentFailed
         (VObj [("reference", VStr "abc123"); ("metadata", ada_metadata)])
         odd_store
       = (inr tt, w', t)
       /\ notifications t
          = [WaSendPaymentReminder (VStr "+2348000000000") (VStr "Ada")
               (VStr "o1") (VNum 0)].
Proof.
  split; [reflexivity|].
  exact (reminder_sent_after_failed_write
           [("reference", VStr "abc123"); ("metadata", ada_metadata)]
           [("orderId", VStr "o1"); ("customerPhone", VStr "+2348000000000");
            ("customerName", VStr "Ada")]
           odd_store (failed_response "Document not found") odd_store
           eq_refl eq_refl eq_refl eq_refl eq_refl eq_refl).
Defined.

Lemma handlers_stay_in_their_lane_witness :
  success_call
    (DbUpdateOrderPaymentStatus (VStr "o1") PAID (VStr "abc123") VUndefined)
  /\ failure_call
       (DbUpdateOrderPaymentStatus (VStr "o1") FAILED (VStr "abc123") (VNum 0)).
Proof.
  split.
  - refine (proj1 (handlers_stay_in_their_lane
                     (VObj [("reference", VStr "abc123");
                            ("metadata", ada_metadata)]) sample_store)
                  _ _ _ _ eq_refl _).
    simpl. auto.
  - refine (proj2 (handlers_stay_in_their_lane
                     (VObj [("reference", VStr "abc123");
                            ("metadata", ada_metadata)]) sample_store)
                  _ _ _ _ eq_refl _).
    simpl. auto.
Defined.

Lemma charge_failed_touches_payment_status_only_witness :
  orders sample_store !! "o1" = Some order_o1
  /\ exists s' t o',
       handlePaymentFailed
         (VObj [("reference", VStr "abc123"); ("metadata", ada_metadata)])
         sample_store = (inr tt, s', t)
       /\ orders s' !! "o1" = Some o'
       /\ paymentStatus o' = FAILED
       /\ status o' = status order_o1 /\ customerId o' = customerId order_o1
       /\ orderNumber o' = orderNumber order_o1
       /\ totalAmount o' = totalAmount order_o1
       /\ discountAmount o' = discountAmount order_o1
       /\ finalAmount o' = finalAmount order_o1
       /\ (forall id', id' <> "o1" ->
           orders s' !! id' = orders sample_store !! id').
Proof.
  assert (Ho : orders sample_store !! "o1" = Some order_o1) by reflexivity.
  assert (Hne : "o1" <> EmptyString) by discriminate.
  split; [exact Ho|].
  exact (charge_failed_touches_payment_status_only
           [("reference", VStr "abc123"); ("metadata", ada_metadata)]
           [("orderId", VStr "o1"); ("customerPhone", VStr "+2348000000000");
            ("customerName", VStr "Ada")]
           sample_store "o1" order_o1 eq_refl eq_refl Hne Ho).
Defined.

Lemma failed_after_success_stays_confirmed_witness :
  orders sample_store !! "o1" = Some order_o1
  /\ exists s1 t1 s2 t2 o2,
       handlePaymentSuccess
         (VObj [("reference", VStr "abc123"); ("metadata", ada_metadata)])
         sample_store = (inr tt, s1, t1)
       /\ handlePaymentFailed
            (VObj [("reference", VStr "abc124"); ("metadata", ada_metadata)])
            s1 = (inr tt, s2, t2)
       /\ orders s2 !! "o1" = Some o2
       /\ paymentStatus o2 = FAILED /\ status o2 = CONFIRMED.
Proof.
  assert (Ho : orders sample_store !! "o1" = Some order_o1) by reflexivity.
  assert (Hne : "o1" <> EmptyString) by discriminate.
  split; [exact Ho|].
  exact (failed_after_success_stays_confirmed
           [("reference", VStr "abc123"); ("metadata", ada_metadata)]
           [("orderId", VStr "o1"); ("customerPhone", VStr "+2348000000000");
            ("customerName", VStr "Ada")]
           [("reference", VStr "abc124"); ("metadata", ada_metadata)]
           [("orderId", VStr "o1"); ("customerPhone", VStr "+2348000000000");
            ("customerName", VStr "Ada")]
           sample_store "o1" order_o1 eq_refl eq_refl eq_refl eq_refl Hne Ho).
Defined.


Lemma receipt_load_failures_witness :
  ReceiptPage.render true (Some user_u1)
    (fst (ReceiptPage.loadOrderData "o9" (Some user_u1) ReceiptPage.initial
            sample_store))
  = ReceiptPage.OrderNotFound "Order not found"
  /\ ReceiptPage.render true (Some user_u1)
       (fst (ReceiptPage.loadOrderData "o1" (Some user_u1) ReceiptPage.initial
               (down_backend true true false true)))
     = ReceiptPage.OrderNotFound "Failed to load order data".
Proof.
  split.
  - exact (proj1 (proj1 (receipt_load_failures "o9" user_u1 sample_store)
                    (failed_response "Document not found") sample_store
                    eq_refl (or_introl eq_refl))).
  - exact (proj1 (proj2 (receipt_load_failures "o1" user_u1
                           (down_backend true true false true))
                    (ServiceError "Service unavailable")
                    (down_backend true true false true) eq_refl)).
Defined.

Lemma receipt_for_owner_witness :
  customerId order_o1 = user_id user_u1
  /\ ReceiptPage.render true (Some user_u1)
       (fst (ReceiptPage.loadOrderData "o1" (Some user_u1) ReceiptPage.initial
               (down_backend true true true true)))
     = ReceiptPage.Receipt order_o1 [] []
  /\ ReceiptPage.render true (Some user_u1)
       (fst (ReceiptPage.loadOrderData "o1" (Some user_u1) ReceiptPage.initial
               (down_backend true true true false)))
     = ReceiptPage.OrderNotFound "Failed to load order data".
Proof.
  assert (Hown : customerId order_o1 = user_id user_u1) by reflexivity.
  split; [exact Hown|]. split.
  - exact (proj1 (receipt_for_owner "o1" user_u1
                    (down_backend true true true true)
                    (mkApiResponse true (Some (order_o1, [])) None)
                    (down_backend true true true true) order_o1 []
                    eq_refl eq_refl eq_refl Hown)
                 (mkApiResponse true (Some []) None)
                 (down_backend true true true true) [] eq_refl eq_refl eq_refl).
  - exact (proj2 (proj2 (receipt_for_owner "o1" user_u1
                           (down_backend true true true false)
                           (mkApiResponse true (Some (order_o1, [])) None)
                           (down_backend true true true false) order_o1 []
                           eq_refl eq_refl eq_refl Hown))
                 (ServiceError "Service unavailable")
                 (down_backend true true true false) eq_refl).
Defined.

Lemma stale_error_hides_receipt_witness :
  ReceiptPage.error (ReceiptPage.setError "Access denied" ReceiptPage.initial)
  <> EmptyString
  /\ exists msg,
       msg <> EmptyString
       /\ ReceiptPage.render true (Some user_u1)
            (fst (ReceiptPage.loadOrderData "o1" (Some user_u1)
                    (ReceiptPage.setError "Access denied" ReceiptPage.initial)
                    sample_store))
          = ReceiptPage.OrderNotFound msg.
Proof.
  assert (H : ReceiptPage.error
                (ReceiptPage.setError "Access denied" ReceiptPage.initial)
              <> EmptyString) by discriminate.
  split; [exact H|].
  exact (stale_error_hides_receipt "o1" user_u1
           (ReceiptPage.setError "Access denied" ReceiptPage.initial)
           sample_store H).
Defined.

Lemma item_lines_shown_witness :
  In (Some ("Wash and fold", 2, 1500, 3000))
     (OrderReceipt.item_lines sample_items sample_services)
  /\ exists item service,
       In item sample_items /\ In service sample_services
       /\ service_id service = serviceId item
       /\ ("Wash and fold", 2, 1500, 3000)
          = (service_name service, quantity item, unitPrice item,
             totalPrice item).
Proof.
  assert (H : In (Some ("Wash and fold", 2, 1500, 3000))
                 (OrderReceipt.item_lines sample_items sample_services))
    by (simpl; auto).
  split; [exact H|].
  exact (proj1 (proj2 (item_lines_shown sample_items sample_services)) _ H).
Defined.

Lemma callback_success_needs_verification_witness :
  exists ref resp w1 pd,
    PaymentCallbackPage.present (Some "abc123") = Some ref
    /\ PaymentCallbackPage.verifyPayment ref sample_backend = (inr resp, w1)
    /\ api_success resp = true /\ api_data resp = Some pd
    /\ PaymentCallbackPage.status pd = "success".
Proof.
  refine (callback_success_needs_verification (Some "abc123") (Some "o1")
            PaymentCallbackPage.initial sample_backend _ _ _ _ _
            eq_refl eq_refl eq_refl).
Defined.

Lemma callback_without_reference_witness :
  PaymentCallbackPage.present (Some EmptyString) = None
  /\ exists st,
       PaymentCallbackPage.verifyPayment_effect (Some EmptyString) (Some "o1")
         PaymentCallbackPage.initial sample_backend
       = (inr (st, None), sample_backend, [])
       /\ PaymentCallbackPage.render st
          = PaymentCallbackPage.PaymentFailed
              (Some "Payment reference not found").
Proof.
  split; [reflexivity|].
  exact (callback_without_reference (Some EmptyString) (Some "o1")
           PaymentCallbackPage.initial sample_backend eq_refl).
Defined.

Lemma callback_order_lookup_witness :
  (exists st t,
     PaymentCallbackPage.verifyPayment_effect (Some "abc123") (Some "o9")
       PaymentCallbackPage.initial sample_backend
     = (inr (st, Some ("/orders/" ++ "o9" ++ "?payment=success")),
        sample_backend, t)
     /\ PaymentCallbackPage.render st
        = PaymentCallbackPage.PaymentSuccessful
            "Payment successful! Your order has been confirmed."
            None (Some ("/orders/" ++ "o9")))
  /\ exists st t,
       PaymentCallbackPage.verifyPayment_effect (Some "abc123") (Some "o1")
         PaymentCallbackPage.initial (down_backend true true false true)
       = (inr (st, None), down_backend true true false true, t)
       /\ PaymentCallbackPage.render st
          = PaymentCallbackPage.PaymentFailed
              (Some "An error occurred while verifying payment.").
Proof.
  split.
  - exact (proj1 (callback_order_lookup (Some "abc123") (Some "o9")
                    PaymentCallbackPage.initial sample_backend "abc123" "o9"
                    (mkApiResponse true
                       (Some (PaymentCallbackPage.mkPaymentData "success"))
                       None)
                    sample_backend
                    (PaymentCallbackPage.mkPaymentData "success")
                    eq_refl eq_refl eq_refl eq_refl eq_refl eq_refl)
                 (failed_response "Document not found") sample_backend
                 eq_refl (or_introl eq_refl)).
  - exact (proj2 (callback_order_lookup (Some "abc123") (Some "o1")
                    PaymentCallbackPage.initial
                    (down_backend true true false true) "abc123" "o1"
                    (mkApiResponse true
                       (Some (PaymentCallbackPage.mkPaymentData "success"))
                       None)
                    (down_backend true true false true)
                    (PaymentCallbackPage.mkPaymentData "success")
                    eq_refl eq_refl eq_refl eq_refl eq_refl eq_refl)
                 (ServiceError "Service unavailable")
                 (down_backend true true false true) eq_refl).
Defined.

Lemma callback_redirect_witness :
  PaymentCallbackPage.verifyPayment_effect (Some "abc123") (Some "o1")
    PaymentCallbackPage.initial sample_backend
  = (inr (PaymentCallbackPage.mkState false
            (Some (PaymentCallbackPage.mkResult true
                     "Payment successful! Your order has been confirmed."
                     (Some "o1") (Some "GAB-0001"))),
          Some "/orders/o1?payment=success"),
     sample_backend,
     [PaymentCallbackPage.VerifyPayment "abc123";
      PaymentCallbackPage.GetOrderById "o1"])
  /\ exists oid r,
       PaymentCallbackPage.present (Some "o1") = Some oid
       /\ "/orders/o1?payment=success" = "/orders/" ++ oid ++ "?payment=success"
       /\ PaymentCallbackPage.verificationResult
            (PaymentCallbackPage.mkState false
               (Some (PaymentCallbackPage.mkResult true
                        "Payment successful! Your order has been confirmed."
                        (Some "o1") (Some "GAB-0001")))) = Some r
       /\ PaymentCallbackPage.success r = true.
Proof.
  assert (H : PaymentCallbackPage.verifyPayment_effect (Some "abc123")
                (Some "o1") PaymentCallbackPage.initial sample_backend
              = (inr (PaymentCallbackPage.mkState false
                        (Some (PaymentCallbackPage.mkResult true
                                 "Payment successful! Your order has been confirmed."
                                 (Some "o1") (Some "GAB-0001"))),
                      Some "/orders/o1?payment=success"),
                 sample_backend,
                 [PaymentCallbackPage.VerifyPayment "abc123";
                  PaymentCallbackPage.GetOrderById "o1"]))
    by (vm_compute; reflexivity).
  split; [exact H|].
  exact (callback_redirect (Some "abc123") (Some "o1")
           PaymentCallbackPage.initial sample_backend _ _ _ _ H).
Defined.

Lemma loginAdmin_success_witness :
  exists user doc active role w1 w2 w3,
    sample_loginSchema ngozi_login = AuthService.Valid
    /\ AuthService.account_createEmailPasswordSession "ngozi@gabz.ng"
         "pw-ngozi" sample_directory = (inr tt, w1)
    /\ AuthService.account_get w1 = (inr user, w2)
    /\ AuthService.databases_getDocument "gabz" "admins"
         (AuthService.acc_id user) w2 = (inr doc, w3)
    /\ get doc "isActive" = inr active /\ truthy active = true
    /\ get doc "role" = inr role
    /\ Some (AuthService.authUser_of account_admin "+2348011111111",
             VStr "owner")
       = Some (AuthService.authUser_of user
                 (str_or (AuthService.acc_phone user) EmptyString), role)
    /\ [AuthService.AccountCreateEmailPasswordSession "ngozi@gabz.ng"
          "pw-ngozi";
        AuthService.AccountGet;
        AuthService.DatabasesGetDocument "gabz" "admins" "a1";
        AuthService.DatabasesUpdateDocument "gabz" "admins" "a1"
          (VObj [("lastLogin", VStr "2026-01-01T00:00:00.000Z")])]
       = [AuthService.AccountCreateEmailPasswordSession "ngozi@gabz.ng"
            "pw-ngozi";
          AuthService.AccountGet;
          AuthService.DatabasesGetDocument "gabz" "admins"
            (AuthService.acc_id user);
          AuthService.DatabasesUpdateDocument "gabz" "admins"
            (AuthService.acc_id user)
            (VObj [("lastLogin", VStr "2026-01-01T00:00:00.000Z")])].
Proof.
  refine (loginAdmin_success sample_config sample_loginSchema
            "2026-01-01T00:00:00.000Z" ngozi_login sample_directory
            _ _ _ eq_refl eq_refl).
Defined.

Lemma loginAdmin_denied_logs_out_witness :
  fst (AuthService.loginAdmin sample_config sample_loginSchema
         "2026-01-01T00:00:00.000Z" ada_login sample_directory)
  = (inr (AuthService.failed "Access denied. Admin privileges required."),
     sample_directory)
  /\ fst (AuthService.loginAdmin sample_config sample_loginSchema
            "2026-01-01T00:00:00.000Z" tunde_login sample_directory)
     = (inr (AuthService.failed "Admin account is deactivated"),
        sample_directory).
Proof.
  assert (Hs1 : AuthService.account_createEmailPasswordSession
                  (AuthService.login_email ada_login)
                  (AuthService.login_password ada_login) sample_directory
                = (inr tt, signed_in account_customer sample_directory))
    by (vm_compute; reflexivity).
  assert (Hd1 : AuthService.databases_getDocument
                  (AuthService.databaseId sample_config)
                  (AuthService.collections_adminUsers sample_config)
                  (AuthService.acc_id account_customer)
                  (signed_in account_customer sample_directory)
                = (inl (ServiceError "Document not found"),
                   signed_in account_customer sample_directory))
    by (vm_compute; reflexivity).
  assert (Hs2 : AuthService.account_createEmailPasswordSession
                  (AuthService.login_email tunde_login)
                  (AuthService.login_password tunde_login) sample_directory
                = (inr tt, signed_in account_former_admin sample_directory))
    by (vm_compute; reflexivity).
  assert (Hd2 : AuthService.databases_getDocument
                  (AuthService.databaseId sample_config)
                  (AuthService.collections_adminUsers sample_config)
                  (AuthService.acc_id account_former_admin)
                  (signed_in account_former_admin sample_directory)
                = (inr (VObj [("isActive", VBool false);
                              ("role", VStr "staff")]),
                   signed_in account_former_admin sample_directory))
    by (vm_compute; reflexivity).
  split.
  - rewrite (proj1 (loginAdmin_denied_logs_out sample_config sample_loginSchema
                      "2026-01-01T00:00:00.000Z" ada_login sample_directory
                      _ account_customer _ eq_refl Hs1 eq_refl) _ _ Hd1).
    vm_compute. reflexivity.
  - rewrite (proj2 (loginAdmin_denied_logs_out sample_config sample_loginSchema
                      "2026-01-01T00:00:00.000Z" tunde_login sample_directory
                      _ account_former_admin _ eq_refl Hs2 eq_refl)
                   _ (VBool false) _ Hd2 eq_refl eq_refl).
    vm_compute. reflexivity.
Defined.

Lemma loginAdmin_update_failure_denies_witness :
  AuthService.loginAdmin sample_config sample_loginSchema
    "2026-01-01T00:00:00.000Z" ngozi_login read_only_directory
  = (inr (AuthService.failed "Access denied. Admin privileges required."),
     snd (AuthService.account_deleteSession "current"
            (signed_in account_admin read_only_directory)),
     [AuthService.AccountCreateEmailPasswordSession "ngozi@gabz.ng" "pw-ngozi";
      AuthService.AccountGet;
      AuthService.DatabasesGetDocument "gabz" "admins" "a1";
      AuthService.DatabasesUpdateDocument "gabz" "admins" "a1"
        (VObj [("lastLogin", VStr "2026-01-01T00:00:00.000Z")]);
      AuthService.AccountDeleteSession "current"]).
Proof.
  assert (Hs : AuthService.account_createEmailPasswordSession
                 (AuthService.login_email ngozi_login)
                 (AuthService.login_password ngozi_login) read_only_directory
               = (inr tt, signed_in account_admin read_only_directory))
    by (vm_compute; reflexivity).
  assert (Hd : AuthService.databases_getDocument
                 (AuthService.databaseId sample_config)
                 (AuthService.collections_adminUsers sample_config)
                 (AuthService.acc_id account_admin)
                 (signed_in account_admin read_only_directory)
               = (inr (VObj [("isActive", VBool true); ("role", VStr "owner")]),
                  signed_in account_admin read_only_directory))
    by (vm_compute; reflexivity).
  assert (Hu : AuthService.databases_updateDocument
                 (AuthService.databaseId sample_config)
                 (AuthService.collections_adminUsers sample_config)
                 (AuthService.acc_id account_admin)
                 (VObj [("lastLogin", VStr "2026-01-01T00:00:00.000Z")])
                 (signed_in account_admin read_only_directory)
               = (inl (ServiceError "Read only"),
                  signed_in account_admin read_only_directory))
    by (vm_compute; reflexivity).
  exact (loginAdmin_update_failure_denies sample_config sample_loginSchema
           "2026-01-01T00:00:00.000Z" ngozi_login read_only_directory
           _ account_admin _ _ (VBool true) _ _ _
           eq_refl Hs eq_refl Hd eq_refl eq_refl Hu).
Defined.

Lemma login_account_read_failure_witness :
  AuthService.account_get (signed_in account_customer account_down_directory)
  = (inl (ServiceError "Service unavailable"),
     signed_in account_customer account_down_directory)
  /\ AuthService.loginCustomer sample_loginSchema ada_login
       account_down_directory
     = (inr (AuthService.failed "Invalid email or password"),
        signed_in account_customer account_down_directory,
        [AuthService.AccountCreateEmailPasswordSession
           (AuthService.login_email ada_login)
           (AuthService.login_password ada_login);
         AuthService.AccountGet;
         AuthService.ConsoleError "Login error:"
           (ServiceError "Service unavailable")]).
Proof.
  assert (Hs : AuthService.account_createEmailPasswordSession
                 (AuthService.login_email ada_login)
                 (AuthService.login_password ada_login) account_down_directory
               = (inr tt, signed_in account_customer account_down_directory))
    by (vm_compute; reflexivity).
  assert (Hg : AuthService.account_get
                 (signed_in account_customer account_down_directory)
               = (inl (ServiceError "Service unavailable"),
                  signed_in account_customer account_down_directory))
    by reflexivity.
  split; [exact Hg|].
  exact (proj2 (login_account_read_failure sample_config sample_loginSchema
                  "2026-01-01T00:00:00.000Z" ada_login account_down_directory
                  _ _ _ eq_refl Hs Hg)).
Defined.

Lemma validation_precedes_calls_witness :
  AuthService.loginCustomer sample_loginSchema
    (AuthService.mkLogin EmptyString "pw") sample_directory
  = (inr (AuthService.failed "Invalid email address"), sample_directory, [])
  /\ AuthService.registerCustomer sample_config sample_registrationSchema
       sample_validatePhone "fresh-id"
       (AuthService.mkRegister "bola@example.com" "pw-bola" "Bola" "Ade"
          "08022222222") sample_directory
     = (inr (AuthService.failed
               "Invalid Nigerian phone number format. Use +234XXXXXXXXX"),
        sample_directory, []).
Proof.
  split.
  - exact (proj1 (proj1 (validation_precedes_calls sample_config
                           sample_registrationSchema sample_loginSchema
                           sample_validatePhone "2026-01-01T00:00:00.000Z"
                           "fresh-id" (AuthService.mkLogin EmptyString "pw")
                           bola_signup sample_directory)
                    "Invalid email address" eq_refl)).
  - exact (proj2 (proj2 (validation_precedes_calls sample_config
                           sample_registrationSchema sample_loginSchema
                           sample_validatePhone "2026-01-01T00:00:00.000Z"
                           "fresh-id" ngozi_login
                           (AuthService.mkRegister "bola@example.com"
                              "pw-bola" "Bola" "Ade" "08022222222")
                           sample_directory)) eq_refl eq_refl).
Defined.

Lemma registerCustomer_profile_failure_witness :
  AuthService.databases_createDocument "gabz" "users" "fresh-id"
    (AuthService.userProfile_doc bola_signup)
    (registered "bola@example.com" "pw-bola" bola_account read_only_directory)
  = (inl (ServiceError "Read only"),
     registered "bola@example.com" "pw-bola" bola_account read_only_directory)
  /\ AuthService.registerCustomer sample_config sample_registrationSchema
       sample_validatePhone "fresh-id" bola_signup read_only_directory
     = (inr (AuthService.failed
               (str_or (error_message (ServiceError "Read only"))
                  "Registration failed. Please try again.")),
        registered "bola@example.com" "pw-bola" bola_account
          read_only_directory,
        [AuthService.AccountCreate "fresh-id" (AuthService.email bola_signup)
           (AuthService.password bola_signup)
           (AuthService.firstName bola_signup ++ " "
            ++ AuthService.lastName bola_signup);
         AuthService.DatabasesCreateDocument
           (AuthService.databaseId sample_config)
           (AuthService.collections_users sample_config)
           (AuthService.acc_id bola_account)
           (AuthService.userProfile_doc bola_signup);
         AuthService.ConsoleError "Registration error:"
           (ServiceError "Read only")]).
Proof.
  assert (Hc : AuthService.account_create "fresh-id"
                 (AuthService.email bola_signup)
                 (AuthService.password bola_signup)
                 (AuthService.firstName bola_signup ++ " "
                  ++ AuthService.lastName bola_signup) read_only_directory
               = (inr bola_account,
                  registered "bola@example.com" "pw-bola" bola_account
                    read_only_directory))
    by (vm_compute; reflexivity).
  assert (Hd : AuthService.databases_createDocument
                 (AuthService.databaseId sample_config)
                 (AuthService.collections_users sample_config)
                 (AuthService.acc_id bola_account)
                 (AuthService.userProfile_doc bola_signup)
                 (registered "bola@example.com" "pw-bola" bola_account
                    read_only_directory)
               = (inl (ServiceError "Read only"),
                  registered "bola@example.com" "pw-bola" bola_account
                    read_only_directory))
    by (vm_compute; reflexivity).
  split; [exact Hd|].
  exact (registerCustomer_profile_failure sample_config
           sample_registrationSchema sample_validatePhone "fresh-id"
           bola_signup read_only_directory bola_account _
           (ServiceError "Read only") _ eq_refl eq_refl Hc Hd).
Defined.

Lemma registerCustomer_success_witness :
  AuthService.registerCustomer sample_config sample_registrationSchema
    sample_validatePhone "fresh-id" bola_signup sample_directory
  = (inr (AuthService.mkApiResponse true
            (Some (AuthService.authUser_of bola_account "+2348022222222"))
            None
            (Some "Registration successful. Please check your email for verification.")),
     signed_in bola_account
       (mkDirectory
          (accounts (registered "bola@example.com" "pw-bola" bola_account
                       sample_directory))
          None (adminUsers sample_directory)
          (<["fresh-id" := AuthService.userProfile_doc bola_signup]>
             (users sample_directory)) false false),
     [AuthService.AccountCreate "fresh-id" "bola@example.com" "pw-bola"
        "Bola Ade";
      AuthService.DatabasesCreateDocument "gabz" "users" "fresh-id"
        (AuthService.userProfile_doc bola_signup);
      AuthService.AccountCreateEmailPasswordSession "bola@example.com"
        "pw-bola";
      AuthService.AccountCreateVerification
        "http://localhost:3000/verify-email"])
  /\ exists acct w1 doc w2 w3,
       AuthService.account_create "fresh-id"
         (AuthService.email bola_signup) (AuthService.password bola_signup)
         (AuthService.firstName bola_signup ++ " "
          ++ AuthService.lastName bola_signup) sample_directory
       = (inr acct, w1)
       /\ AuthService.databases_createDocument
            (AuthService.databaseId sample_config)
            (AuthService.collections_users sample_config)
            (AuthService.acc_id acct)
            (AuthService.userProfile_doc bola_signup) w1 = (inr doc, w2)
       /\ AuthService.account_createEmailPasswordSession
            (AuthService.email bola_signup) (AuthService.password bola_signup)
            w2 = (inr tt, w3)
       /\ acct = bola_account.
Proof.
  assert (Hrun :
    AuthService.registerCustomer sample_config sample_registrationSchema
      sample_validatePhone "fresh-id" bola_signup sample_directory
    = (inr (AuthService.mkApiResponse true
              (Some (AuthService.authUser_of bola_account "+2348022222222"))
              None
              (Some "Registration successful. Please check your email for verification.")),
       signed_in bola_account
         (mkDirectory
            (accounts (registered "bola@example.com" "pw-bola" bola_account
                         sample_directory))
            None (adminUsers sample_directory)
            (<["fresh-id" := AuthService.userProfile_doc bola_signup]>
               (users sample_directory)) false false),
       [AuthService.AccountCreate "fresh-id" "bola@example.com" "pw-bola"
          "Bola Ade";
        AuthService.DatabasesCreateDocument "gabz" "users" "fresh-id"
          (AuthService.userProfile_doc bola_signup);
        AuthService.AccountCreateEmailPasswordSession "bola@example.com"
          "pw-bola";
        AuthService.AccountCreateVerification
          "http://localhost:3000/verify-email"]))
    by (vm_compute; reflexivity).
  split; [exact Hrun|].
  destruct (registerCustomer_success sample_config sample_registrationSchema
              sample_validatePhone "fresh-id" bola_signup sample_directory
              _ _ _ Hrun eq_refl)
    as (acct & w1 & doc & w2 & w3 & _ & _ & Hc & Hd & Hs & _ & _ & _).
  exists acct, w1, doc, w2, w3.
  split; [exact Hc|]. split; [exact Hd|]. split; [exact Hs|].
  vm_compute in Hc. injection Hc as <- _. reflexivity.
Defined.

Lemma getUserProfile_tolerates_addresses_witness :
  exists profile,
    AuthService.getUserProfile sample_config sample_parse_value "u1"
      sample_directory
    = (inr (AuthService.mkApiResponse true (Some (VObj profile)) None None),
       sample_directory,
       [AuthService.DatabasesGetDocument "gabz" "users" "u1"])
    /\ assoc "addresses" profile = VArr []
    /\ assoc "totalOrders" profile = VNum 0.
Proof.
  assert (Hd : AuthService.databases_getDocument
                 (AuthService.databaseId sample_config)
                 (AuthService.collections_users sample_config) "u1"
                 sample_directory
               = (inr (VObj [("$id", VStr "u1");
                             ("email", VStr "ada@example.com");
                             ("addresses", VStr "not json")]),
                  sample_directory))
    by (vm_compute; reflexivity).
  destruct (getUserProfile_tolerates_addresses sample_config
              sample_parse_value "u1" sample_directory _ _ Hd)
    as (profile & Hrun & Haddr & _ & Htotal & _).
  exists profile. split; [exact Hrun|]. split; [exact Haddr | exact Htotal].
Defined.

Lemma loginCustomer_outcome_witness :
  sample_loginSchema ada_login = AuthService.Valid
  /\ AuthService.loginCustomer sample_loginSchema ada_login sample_directory
     = (inr (AuthService.mkApiResponse true
               (Some (AuthService.authUser_of account_customer EmptyString))
               None (Some "Login successful")),
        signed_in account_customer sample_directory,
        [AuthService.AccountCreateEmailPasswordSession "ada@example.com"
           "pw-ada";
         AuthService.AccountGet])
  /\ exists w1 user,
       AuthService.account_createEmailPasswordSession
         (AuthService.login_email ada_login)
         (AuthService.login_password ada_login) sample_directory
       = (inr tt, w1)
       /\ AuthService.account_get w1
          = (inr user, signed_in account_customer sample_directory).
Proof.
  assert (Hv : sample_loginSchema ada_login = AuthService.Valid)
    by reflexivity.
  assert (Hrun : AuthService.loginCustomer sample_loginSchema ada_login
                   sample_directory
                 = (inr (AuthService.mkApiResponse true
                           (Some (AuthService.authUser_of account_customer
                                    EmptyString))
                           None (Some "Login successful")),
                    signed_in account_customer sample_directory,
                    [AuthService.AccountCreateEmailPasswordSession
                       "ada@example.com" "pw-ada";
                     AuthService.AccountGet]))
    by (vm_compute; reflexivity).
  split; [exact Hv|]. split; [exact Hrun|].
  destruct (loginCustomer_outcome sample_loginSchema ada_login
              sample_directory _ _ _ Hrun Hv)
    as [(_ & w1 & user & Hc & Hg & _) | (Hs & _)].
  - exists w1, user. split; [exact Hc | exact Hg].
  - discriminate Hs.
Defined.
